(** * Market snapshot assembly and storage (rest_api.snapshot, rest_api.main)

    A shallow embedding of the snapshot pipeline of the REST API client:
    the assembler [create_market_snapshot], the store [save_snapshot] /
    [load_snapshot], the transport client's life cycle and the command-line
    entry point [main].

    Conventions of the embedding.
    - Python [float] is IEEE binary64 with round-to-nearest-even, which is
      what the kernel's primitive floats compute; Python [int] is [Z].
    - Exceptions are values; a computation is a function from the world to
      a result and the world it leaves behind (an exception does not roll
      the world back).
    - The world holds the wall clock, the file system, the heap of client
      objects, the standard output, the log, and a ghost trace of the calls
      made on clients and on the store. *)

From Stdlib Require Import ZArith Floats Uint63 Ascii String.
From stdpp Require Import base option list strings gmap.

Set Warnings "-register-all,-inexact-float".

#[local] Open Scope string_scope.
#[local] Open Scope Z_scope.

(** ** Python values *)

Module Py.

(** Exceptions, by the part of the class hierarchy the code distinguishes:
    [except Exception] catches every [Exception cls msg] and lets
    [SystemExit] and [KeyboardInterrupt] through. *)
Inductive exn : Type :=
| Exception (cls : string) (msg : string)
| SystemExit (code : Z)
| KeyboardInterrupt.

Definition is_Exception (e : exn) : bool :=
  match e with Exception _ _ => true | _ => false end.

Definition exn_class (e : exn) : string :=
  match e with
  | Exception cls _ => cls
  | SystemExit _ => "SystemExit"
  | KeyboardInterrupt => "KeyboardInterrupt"
  end.

(** [str(e)] *)
Definition exn_str (e : exn) : string :=
  match e with
  | Exception _ msg => msg
  | SystemExit _ => ""
  | KeyboardInterrupt => ""
  end.

Inductive result (A : Type) : Type :=
| Ok (a : A)
| Raise (e : exn).
Arguments Ok {A} a.
Arguments Raise {A} e.

Definition result_bind {A B} (r : result A) (k : A -> result B) : result B :=
  match r with Ok a => k a | Raise e => Raise e end.

Definition ZeroDivisionError (msg : string) : exn := Exception "ZeroDivisionError" msg.

(** Numbers as the interpreter holds them: an [int] or a [float]. *)
Inductive num : Type :=
| NInt (z : Z)
| NFloat (f : float).

(** [float(z)], exact for [|z| <= 2^53] and correctly rounded below [2^63];
    every integer the pipeline converts is a list length or the literal
    [100]. *)
Definition float_of_Z (z : Z) : float :=
  if z <? 0 then PrimFloat.opp (PrimFloat.of_uint63 (Uint63.of_Z (- z)))
  else PrimFloat.of_uint63 (Uint63.of_Z z).

Definition to_float (x : num) : float :=
  match x with NInt z => float_of_Z z | NFloat f => f end.

(** [x == 0] *)
Definition is_zero (x : num) : bool :=
  match x with NInt z => z =? 0 | NFloat f => PrimFloat.eqb f 0%float end.

(** [x > 0]; false on NaN. *)
Definition gt0 (x : num) : bool :=
  match x with NInt z => 0 <? z | NFloat f => PrimFloat.ltb 0%float f end.

(** [x + y]: integer addition on two ints, float addition otherwise. *)
Definition add (x y : num) : num :=
  match x, y with
  | NInt a, NInt b => NInt (a + b)
  | _, _ => NFloat (PrimFloat.add (to_float x) (to_float y))
  end.

Definition sub (x y : num) : num :=
  match x, y with
  | NInt a, NInt b => NInt (a - b)
  | _, _ => NFloat (PrimFloat.sub (to_float x) (to_float y))
  end.

Definition mul (x y : num) : num :=
  match x, y with
  | NInt a, NInt b => NInt (a * b)
  | _, _ => NFloat (PrimFloat.mul (to_float x) (to_float y))
  end.

(** [x / y], true division: always a float, [ZeroDivisionError] on a zero
    divisor of either sign. *)
Definition truediv (x y : num) : result num :=
  if is_zero y then
    Raise (ZeroDivisionError
             (match x, y with
              | NInt _, NInt _ => "division by zero"
              | _, _ => "float division by zero"
              end))
  else Ok (NFloat (PrimFloat.div (to_float x) (to_float y))).

(** [sum(xs)]: left fold of [+] from the int [0]. *)
Definition sum (xs : list num) : num := fold_left add xs (NInt 0).

(** The values a snapshot is made of: what [json] can serialise, with
    string-keyed dicts kept in insertion order. *)
Inductive value : Type :=
| VNone
| VBool (b : bool)
| VInt (z : Z)
| VFloat (f : float)
| VStr (s : string)
| VList (l : list value)
| VTuple (l : list value)
| VDict (d : list (string * value)).

Definition of_num (x : num) : value :=
  match x with NInt z => VInt z | NFloat f => VFloat f end.

(** [d[k] = v] on an insertion-ordered dict: an existing key keeps its
    place and takes the new value, a new key goes last. *)
Fixpoint dict_set {V : Type} (k : string) (v : V) (d : list (string * V))
  : list (string * V) :=
  match d with
  | [] => [(k, v)]
  | (k', v') :: d' =>
      if String.eqb k' k then (k', v) :: d' else (k', v') :: dict_set k v d'
  end.

(** [d.get(k)] on the association list. *)
Fixpoint dict_get {V : Type} (k : string) (d : list (string * V)) : option V :=
  match d with
  | [] => None
  | (k', v) :: d' => if String.eqb k' k then Some v else dict_get k d'
  end.

(** [v[k]] for a dict value; [None] stands for [KeyError]/[TypeError]. *)
Definition getitem (k : string) (v : value) : option value :=
  match v with VDict d => dict_get k d | _ => None end.

(** Follow a path of keys: [v[k1][k2]...]. *)
Fixpoint getpath (ks : list string) (v : value) : option value :=
  match ks with
  | [] => Some v
  | k :: ks' => match getitem k v with Some v' => getpath ks' v' | None => None end
  end.

(** ASCII case mapping of [str.lower] and [str.upper]. *)
Definition lower_ascii (c : ascii) : ascii :=
  let n := nat_of_ascii c in
  if (Nat.leb 65 n && Nat.leb n 90)%bool then ascii_of_nat (n + 32) else c.

Definition upper_ascii (c : ascii) : ascii :=
  let n := nat_of_ascii c in
  if (Nat.leb 97 n && Nat.leb n 122)%bool then ascii_of_nat (n - 32) else c.

Fixpoint lower (s : string) : string :=
  match s with
  | EmptyString => EmptyString
  | String c s' => String (lower_ascii c) (lower s')
  end.

Fixpoint upper (s : string) : string :=
  match s with
  | EmptyString => EmptyString
  | String c s' => String (upper_ascii c) (upper s')
  end.

(** [l[-k:]] for [k > 0]: the last [k] items, the whole list when it is
    shorter. *)
Definition last_n {A : Type} (k : nat) (l : list A) : list A :=
  drop (length l - k) l.

(** [l[:k]] for [k >= 0]. *)
Definition first_n {A : Type} (k : nat) (l : list A) : list A := take k l.

(** [s[:-k]] on a string. *)
Definition str_drop_last (k : nat) (s : string) : string :=
  String.substring 0 (String.length s - k) s.

End Py.

Import Py.

(** ** The [json] module, on parse trees

    A JSON text is identified with its parse tree: [dump] gives the tree of
    the text [json.dump] writes and [load] the value [json.load] builds from
    a text with that tree. A float literal is identified with the float it
    reads as ([repr] of a float reads back as the same float, and [NaN],
    [Infinity], [-Infinity] are written and read by default). Layout
    ([indent=2]) is not part of the tree. *)

Module Json.

Inductive json : Type :=
| JNull
| JBool (b : bool)
| JInt (z : Z)
| JFloat (f : float)
| JString (s : string)
| JArray (l : list json)
| JObject (members : list (string * json)).

(** [json.dump]: lists and tuples both become arrays. *)
Fixpoint dump (v : value) : json :=
  match v with
  | VNone => JNull
  | VBool b => JBool b
  | VInt z => JInt z
  | VFloat f => JFloat f
  | VStr s => JString s
  | VList l => JArray (map dump l)
  | VTuple l => JArray (map dump l)
  | VDict d => JObject (map (fun kv => match kv with (k, x) => (k, dump x) end) d)
  end.

(** [json.load]: an array becomes a list; an object becomes a dict filled
    member by member, so a repeated name keeps its first place and its
    last value. *)
Fixpoint load (j : json) : value :=
  match j with
  | JNull => VNone
  | JBool b => VBool b
  | JInt z => VInt z
  | JFloat f => VFloat f
  | JString s => VStr s
  | JArray l => VList (map load l)
  | JObject ms =>
      VDict (fold_left (fun d kv => match kv with (k, x) => dict_set k (load x) d end)
                       ms [])
  end.

End Json.

(** ** [datetime] *)

Module Datetime.

Record datetime : Type := mkDatetime {
  year : nat; month : nat; day : nat;
  hour : nat; minute : nat; second : nat; microsecond : nat
}.

Definition digit (n : nat) : ascii := ascii_of_nat (48 + n mod 10).

(** Zero-padded decimal of fixed width. *)
Fixpoint pad (width : nat) (n : nat) : string :=
  match width with
  | O => EmptyString
  | S w => (pad w (n / 10) ++ String (digit n) EmptyString)%string
  end.

(** One [strftime] directive. *)
Definition directive (c : ascii) (dt : datetime) : string :=
  if Ascii.eqb c "Y" then pad 4 (year dt)
  else if Ascii.eqb c "m" then pad 2 (month dt)
  else if Ascii.eqb c "d" then pad 2 (day dt)
  else if Ascii.eqb c "H" then pad 2 (hour dt)
  else if Ascii.eqb c "M" then pad 2 (minute dt)
  else if Ascii.eqb c "S" then pad 2 (second dt)
  else String "%" (String c EmptyString).

(** [dt.strftime(fmt)] for the directives the program uses. *)
Fixpoint strftime (fmt : string) (dt : datetime) : string :=
  match fmt with
  | EmptyString => EmptyString
  | String c rest =>
      if Ascii.eqb c "%" then
        match rest with
        | EmptyString => String c EmptyString
        | String c' rest' => (directive c' dt ++ strftime rest' dt)%string
        end
      else String c (strftime rest dt)
  end.

(** [dt.isoformat()]: the fraction is left out when it is zero. *)
Definition isoformat (dt : datetime) : string :=
  (strftime "%Y-%m-%dT%H:%M:%S" dt
   ++ (if Nat.eqb (microsecond dt) 0 then "" else "." ++ pad 6 (microsecond dt)))%string.

End Datetime.

(** ** [pathlib] and the file system *)

Module Pathlib.

(** A pure POSIX path: whether it is anchored at the root, and its
    components. *)
Record Path : Type := mkPath { absolute : bool; parts : list string }.

(** Split on one separator character. *)
Fixpoint split_on (sep : ascii) (s : string) : list string :=
  match s with
  | EmptyString => [EmptyString]
  | String c s' =>
      if Ascii.eqb c sep then EmptyString :: split_on sep s'
      else match split_on sep s' with
           | [] => [String c EmptyString]
           | w :: ws => String c w :: ws
           end
  end.

Definition is_component (c : string) : bool :=
  negb (String.eqb c "" || String.eqb c ".").

Definition starts_with_slash (s : string) : bool :=
  match s with String c _ => Ascii.eqb c "/" | EmptyString => false end.

(** [Path(s)]: empty and [.] components are dropped. *)
Definition Path_of (s : string) : Path :=
  {| absolute := starts_with_slash s;
     parts := List.filter is_component (split_on "/" s) |}.

(** [p / s]: an anchored right operand replaces the left one. *)
Definition joinpath (p : Path) (s : string) : Path :=
  let q := Path_of s in
  if absolute q then q
  else {| absolute := absolute p; parts := parts p ++ parts q |}.

Fixpoint join_parts (ps : list string) : string :=
  match ps with
  | [] => ""
  | [p] => p
  | p :: ps' => (p ++ "/" ++ join_parts ps')%string
  end.

(** [str(p)] *)
Definition Path_str (p : Path) : string :=
  match absolute p, parts p with
  | false, [] => "."
  | false, ps => join_parts ps
  | true, ps => ("/" ++ join_parts ps)%string
  end.

(** File contents: a text [json.load] accepts, given by its parse tree,
    or a text it rejects. *)
Inductive file_content : Type :=
| Document (j : Json.json)
| NotJson (raw : string).

Inductive node : Type :=
| Dir
| File (c : file_content).

(** Directory entries by anchor and components. Relative paths live under
    the working directory, which the process never changes; the working
    directory and the root always exist. *)
Abbreviation filesystem := (gmap (bool * list string) node).

Definition lookup_node (fs : filesystem) (abs : bool) (ps : list string) : option node :=
  match ps with
  | [] => Some Dir
  | _ => fs !! (abs, ps)
  end.

Definition is_dir (fs : filesystem) (abs : bool) (ps : list string) : bool :=
  match lookup_node fs abs ps with Some Dir => true | _ => false end.

(** The proper, non-empty prefixes of a path, shortest first. *)
Definition proper_prefixes (ps : list string) : list (list string) :=
  map (fun n => take n ps) (seq 1 (length ps - 1)).

(** An error of the operating system on a path; of its message only the
    path is kept. *)
Definition OSError (cls : string) (abs : bool) (ps : list string) : exn :=
  Exception cls (Path_str {| absolute := abs; parts := ps |}).

(** Path resolution: every directory on the way must exist and be a
    directory. *)
Fixpoint walk (fs : filesystem) (abs : bool) (target : list string)
         (dirs : list (list string)) : result unit :=
  match dirs with
  | [] => Ok tt
  | d :: ds =>
      match fs !! (abs, d) with
      | None => Raise (OSError "FileNotFoundError" abs target)
      | Some (File _) => Raise (OSError "NotADirectoryError" abs target)
      | Some Dir => walk fs abs target ds
      end
  end.

(** [os.mkdir(p)] *)
Definition os_mkdir (abs : bool) (ps : list string) (fs : filesystem)
  : result filesystem :=
  match walk fs abs ps (proper_prefixes ps) with
  | Raise e => Raise e
  | Ok _ =>
      match lookup_node fs abs ps with
      | Some _ => Raise (OSError "FileExistsError" abs ps)
      | None => Ok (<[(abs, ps) := Dir]> fs)
      end
  end.

Definition is_FileNotFoundError (e : exn) : bool :=
  String.eqb (exn_class e) "FileNotFoundError".

(** [p.mkdir(parents=False, exist_ok=True)] *)
Definition mkdir_exist_ok (abs : bool) (ps : list string) (fs : filesystem)
  : result filesystem :=
  match os_mkdir abs ps fs with
  | Ok fs' => Ok fs'
  | Raise e =>
      if is_FileNotFoundError e then Raise e
      else if is_dir fs abs ps then Ok fs else Raise e
  end.

(** [p.mkdir(parents=True, exist_ok=True)]: try [os.mkdir]; when a parent
    is missing, make the parent the same way and try once more. The
    recursion is on the parent, [n] counting the components left. *)
Fixpoint mkdir_parents (n : nat) (abs : bool) (ps : list string) (fs : filesystem)
  : result filesystem :=
  match os_mkdir abs ps fs with
  | Ok fs' => Ok fs'
  | Raise e =>
      if is_FileNotFoundError e then
        match n with
        | O => Raise e
        | S m =>
            match mkdir_parents m abs (removelast ps) fs with
            | Raise e' => Raise e'
            | Ok fs1 => mkdir_exist_ok abs ps fs1
            end
        end
      else if is_dir fs abs ps then Ok fs else Raise e
  end.

Definition Path_mkdir (p : Path) (fs : filesystem) : result filesystem :=
  mkdir_parents (length (parts p)) (absolute p) (parts p) fs.

(** [open(p, "w")], the writes, and the close: the file is created or
    replaced and holds the text written. *)
Definition write_file (p : Path) (c : file_content) (fs : filesystem)
  : result filesystem :=
  match walk fs (absolute p) (parts p) (proper_prefixes (parts p)) with
  | Raise e => Raise e
  | Ok _ =>
      match lookup_node fs (absolute p) (parts p) with
      | Some Dir => Raise (OSError "IsADirectoryError" (absolute p) (parts p))
      | _ => Ok (<[(absolute p, parts p) := File c]> fs)
      end
  end.

(** [open(p)] and reading the whole file. *)
Definition read_file (p : Path) (fs : filesystem) : result file_content :=
  match walk fs (absolute p) (parts p) (proper_prefixes (parts p)) with
  | Raise e => Raise e
  | Ok _ =>
      match lookup_node fs (absolute p) (parts p) with
      | None => Raise (OSError "FileNotFoundError" (absolute p) (parts p))
      | Some Dir => Raise (OSError "IsADirectoryError" (absolute p) (parts p))
      | Some (File c) => Ok c
      end
  end.

(** [p.parent] *)
Definition Path_parent (p : Path) : Path :=
  {| absolute := absolute p; parts := removelast (parts p) |}.

(** [open(p, "a")]: a file that is not there is made, empty; one that is
    there is kept as it is. *)
Definition open_append (p : Path) (fs : filesystem) : result filesystem :=
  match walk fs (absolute p) (parts p) (proper_prefixes (parts p)) with
  | Raise e => Raise e
  | Ok _ =>
      match lookup_node fs (absolute p) (parts p) with
      | Some Dir => Raise (OSError "IsADirectoryError" (absolute p) (parts p))
      | Some (File _) => Ok fs
      | None => Ok (<[(absolute p, parts p) := File (NotJson "")]> fs)
      end
  end.

End Pathlib.

(** ** [logging] *)

Module Logging.

(** What the names of the module that are their own upper case hold: the
    levels, a format string, and the table of the format styles. *)
Inductive attribute : Type :=
| Level (n : Z)
| Format (s : string)
| Styles.

Definition BASIC_FORMAT : string := "%(levelname)s:%(name)s:%(message)s".

Definition attributes : list (string * attribute) :=
  [("BASIC_FORMAT", Format BASIC_FORMAT);
   ("CRITICAL", Level 50);
   ("DEBUG", Level 10);
   ("ERROR", Level 40);
   ("FATAL", Level 50);
   ("INFO", Level 20);
   ("NOTSET", Level 0);
   ("WARN", Level 30);
   ("WARNING", Level 30);
   ("_STYLES", Styles)].

(** [getattr(logging, name)] for a name in upper case. *)
Definition getattr (name : string) : result attribute :=
  match dict_get name attributes with
  | Some a => Ok a
  | None =>
      Raise (Exception "AttributeError"
                       ("module 'logging' has no attribute '" ++ name ++ "'"))
  end.

(** [repr] of the table of the format styles. *)
Definition styles_repr : string :=
  "{'%': (<class 'logging.PercentStyle'>, '%(levelname)s:%(name)s:%(message)s'), "
  ++ "'{': (<class 'logging.StrFormatStyle'>, '{levelname}:{name}:{message}'), "
  ++ "'$': (<class 'logging.StringTemplateStyle'>, '${levelname}:${name}:${message}')}".

(** [Logger.setLevel(level)]: an int is a level, a string must name one,
    anything else is refused. *)
Definition setLevel (level : attribute) : result unit :=
  match level with
  | Level _ => Ok tt
  | Format s => Raise (Exception "ValueError" ("Unknown level: '" ++ s ++ "'"))
  | Styles =>
      Raise (Exception "TypeError"
                       ("Level not an integer or a valid string: " ++ styles_repr))
  end.

End Logging.

Import Json Datetime Pathlib.

(** ** rest_api.config *)

Definition BINANCE_BASE_URL : string := "https://api.binance.com".
Definition SNAPSHOT_DIR : Path := Path_of "snapshots".
Definition REQUEST_TIMEOUT : Z := 10.
Definition LOG_FILE : Path := Path_of "logs/rest_api.log".

(** ** rest_api.binance_client: records *)

Record TickerPrice : Type := mkTickerPrice {
  tp_symbol : string;
  price : float
}.

Record Ticker24h : Type := mkTicker24h {
  t24_symbol : string;
  price_change : float;
  price_change_percent : float;
  weighted_avg_price : float;
  prev_close_price : float;
  last_price : float;
  t24_bid_price : float;
  t24_ask_price : float;
  open_price : float;
  high_price : float;
  low_price : float;
  t24_volume : float;
  t24_quote_volume : float;
  t24_open_time : Z;
  t24_close_time : Z;
  t24_trade_count : Z
}.

Record OrderBookDepth : Type := mkOrderBookDepth {
  ob_symbol : string;
  bids : list (float * float);
  asks : list (float * float);
  last_update_id : Z
}.

Record RecentTrade : Type := mkRecentTrade {
  trade_id : Z;
  rt_price : float;
  qty : float;
  quote_qty : float;
  time : Z;
  is_buyer_maker : bool
}.

Record Kline : Type := mkKline {
  open_time : Z;
  open : float;
  high : float;
  low : float;
  close : float;
  volume : float;
  close_time : Z;
  quote_volume : float;
  trade_count : Z;
  taker_buy_volume : float;
  taker_buy_quote_volume : float
}.

(** The dict [get_book_ticker] returns, by its five entries. *)
Record BookTicker : Type := mkBookTicker {
  bt_symbol : string;
  bid_price : float;
  bid_qty : float;
  ask_price : float;
  ask_qty : float
}.

Definition book_ticker_dict (b : BookTicker) : value :=
  VDict [("symbol", VStr (bt_symbol b));
         ("bid_price", VFloat (bid_price b));
         ("bid_qty", VFloat (bid_qty b));
         ("ask_price", VFloat (ask_price b));
         ("ask_qty", VFloat (ask_qty b))].

(** [dataclasses.asdict] on a [Kline]. *)
Definition asdict (k : Kline) : value :=
  VDict [("open_time", VInt (open_time k));
         ("open", VFloat (open k));
         ("high", VFloat (high k));
         ("low", VFloat (low k));
         ("close", VFloat (close k));
         ("volume", VFloat (volume k));
         ("close_time", VInt (close_time k));
         ("quote_volume", VFloat (quote_volume k));
         ("trade_count", VInt (trade_count k));
         ("taker_buy_volume", VFloat (taker_buy_volume k));
         ("taker_buy_quote_volume", VFloat (taker_buy_quote_volume k))].

(** ** The market data service

    What each accessor of the client evaluates to for given arguments: the
    parsed record, or the exception raised on the way (transport error,
    HTTP status error, malformed body). *)

Record MarketDataSource : Type := mkSource {
  src_ping : result unit;
  src_ticker_price : string -> result TickerPrice;
  src_ticker_24h : string -> result Ticker24h;
  src_order_book : string -> Z -> result OrderBookDepth;
  src_recent_trades : string -> Z -> result (list RecentTrade);
  src_klines : string -> string -> Z -> result (list Kline);
  src_avg_price : string -> result float;
  src_book_ticker : string -> result BookTicker
}.

(** The requests a client can issue. *)
Inductive operation : Type :=
| OpPing
| OpTickerPrice
| OpTicker24h
| OpOrderBook (limit : Z)
| OpRecentTrades (limit : Z)
| OpKlines (interval : string) (limit : Z)
| OpAvgPrice
| OpBookTicker.

(** ** The world *)

Record HttpxClient : Type := mkHttpx { hc_base_url : string; hc_timeout : Z }.

Record BinanceClient : Type := mkClient {
  base_url : string;
  _client : option HttpxClient
}.

(** Ghost trace: the calls made on client objects and on the store. *)
Inductive event : Type :=
| EvRequest (c : nat) (op : operation) (symbol : string)
| EvClose (c : nat)
| EvSave (symbol : string) (output_dir : Path).

Record world : Type := mkWorld {
  w_clock : nat -> datetime;      (* the successive readings of [datetime.now()] *)
  w_reads : nat;                  (* how many readings were taken *)
  w_fs : filesystem;
  w_heap : list BinanceClient;    (* client objects, by reference *)
  w_trace : list event;
  w_stdout : list string;         (* one entry for each [print] *)
  w_log : list (string * string)  (* level and message of each logger call *)
}.

Definition set_reads (n : nat) (w : world) : world :=
  mkWorld (w_clock w) n (w_fs w) (w_heap w) (w_trace w) (w_stdout w) (w_log w).
Definition set_fs (fs : filesystem) (w : world) : world :=
  mkWorld (w_clock w) (w_reads w) fs (w_heap w) (w_trace w) (w_stdout w) (w_log w).
Definition set_heap (h : list BinanceClient) (w : world) : world :=
  mkWorld (w_clock w) (w_reads w) (w_fs w) h (w_trace w) (w_stdout w) (w_log w).
Definition set_trace (t : list event) (w : world) : world :=
  mkWorld (w_clock w) (w_reads w) (w_fs w) (w_heap w) t (w_stdout w) (w_log w).
Definition set_stdout (o : list string) (w : world) : world :=
  mkWorld (w_clock w) (w_reads w) (w_fs w) (w_heap w) (w_trace w) o (w_log w).
Definition set_log (l : list (string * string)) (w : world) : world :=
  mkWorld (w_clock w) (w_reads w) (w_fs w) (w_heap w) (w_trace w) (w_stdout w) l.

(** ** Computations: state and exceptions *)

Definition M (A : Type) : Type := world -> result A * world.

Definition ret {A} (a : A) : M A := fun w => (Ok a, w).
Definition raise {A} (e : exn) : M A := fun w => (Raise e, w).
Definition bind {A B} (m : M A) (k : A -> M B) : M B :=
  fun w => match m w with
           | (Ok a, w') => k a w'
           | (Raise e, w') => (Raise e, w')
           end.
Definition lift {A} (r : result A) : M A := fun w => (r, w).

#[global] Instance M_ret : MRet M := @ret.
#[global] Instance M_bind : MBind M := fun A B k m => bind m k.

(** [try: body finally: fin] *)
Definition try_finally {A} (body : M A) (fin : M unit) : M A :=
  fun w => match body w with
           | (r, w') =>
               match fin w' with
               | (Ok _, w'') => (r, w'')
               | (Raise e, w'') => (Raise e, w'')
               end
           end.

(** [try: body except Exception as e: handler(e)] *)
Definition try_except {A} (body : M A) (handler : exn -> M A) : M A :=
  fun w => match body w with
           | (Ok a, w') => (Ok a, w')
           | (Raise e, w') => if is_Exception e then handler e w' else (Raise e, w')
           end.

Definition emit (ev : event) : M unit :=
  fun w => (Ok tt, set_trace (w_trace w ++ [ev]) w).

Definition print (line : string) : M unit :=
  fun w => (Ok tt, set_stdout (w_stdout w ++ [line]) w).

Definition log (level msg : string) : M unit :=
  fun w => (Ok tt, set_log (w_log w ++ [(level, msg)]) w).

(** [datetime.now()] *)
Definition now : M datetime :=
  fun w => (Ok (w_clock w (w_reads w)), set_reads (S (w_reads w)) w).

(** ** rest_api.binance_client: the client object *)

(** [BinanceClient()]: a new object on the heap, with no connection yet. *)
Definition BinanceClient_new : M nat :=
  fun w => (Ok (length (w_heap w)),
            set_heap (w_heap w ++ [mkClient BINANCE_BASE_URL None]) w).

Definition update_client (c : nat) (f : BinanceClient -> BinanceClient) : M unit :=
  fun w => (Ok tt, set_heap (alter f c (w_heap w)) w).

(** The client with its connection: the one it has, or a new one. *)
Definition connect (b : BinanceClient) : BinanceClient :=
  match _client b with
  | Some _ => b
  | None => mkClient (base_url b) (Some (mkHttpx (base_url b) REQUEST_TIMEOUT))
  end.

(** The client with no connection. *)
Definition disconnect (b : BinanceClient) : BinanceClient :=
  mkClient (base_url b) None.

(** [_get_client]: the connection is made on first use. *)
Definition _get_client (c : nat) : M unit := update_client c connect.

(** [close]: drops the connection if there is one. *)
Definition BinanceClient_close (c : nat) : M unit :=
  emit (EvClose c);;
  update_client c disconnect.

(** One accessor call: get the connection, send the request, parse. *)
Definition request {A} (c : nat) (op : operation) (symbol : string)
           (answer : result A) : M A :=
  _get_client c;;
  emit (EvRequest c op symbol);;
  lift answer.

Section Client.
Variable src : MarketDataSource.

(** [ping]: any [Exception] on the way makes it [False]. *)
Definition ping (c : nat) : M bool :=
  try_except (request c OpPing "" (src_ping src);; ret true)
             (fun _ => ret false).

Definition get_ticker_price (c : nat) (symbol : string) : M TickerPrice :=
  request c OpTickerPrice symbol (src_ticker_price src symbol).

Definition get_ticker_24h (c : nat) (symbol : string) : M Ticker24h :=
  request c OpTicker24h symbol (src_ticker_24h src symbol).

Definition get_order_book (c : nat) (symbol : string) (limit : Z) : M OrderBookDepth :=
  request c (OpOrderBook limit) symbol (src_order_book src symbol limit).

Definition get_recent_trades (c : nat) (symbol : string) (limit : Z)
  : M (list RecentTrade) :=
  request c (OpRecentTrades limit) symbol (src_recent_trades src symbol limit).

Definition get_klines (c : nat) (symbol interval : string) (limit : Z)
  : M (list Kline) :=
  request c (OpKlines interval limit) symbol (src_klines src symbol interval limit).

Definition get_avg_price (c : nat) (symbol : string) : M float :=
  request c OpAvgPrice symbol (src_avg_price src symbol).

Definition get_book_ticker (c : nat) (symbol : string) : M BookTicker :=
  request c OpBookTicker symbol (src_book_ticker src symbol).

End Client.

(** ** rest_api.snapshot *)

(** Run a file-system operation on the world's file system. *)
Definition on_fs (op : filesystem -> result filesystem) : M unit :=
  fun w => match op (w_fs w) with
           | Ok fs' => (Ok tt, set_fs fs' w)
           | Raise e => (Raise e, w)
           end.

(** [sum(1 for t in recent_trades if not t.is_buyer_maker)] *)
Definition trades_buy (recent_trades : list RecentTrade) : num :=
  Py.sum (map (fun _ => NInt 1)
              (List.filter (fun t => negb (is_buyer_maker t)) recent_trades)).

(** [sum(1 for t in recent_trades if t.is_buyer_maker)] *)
Definition trades_sell (recent_trades : list RecentTrade) : num :=
  Py.sum (map (fun _ => NInt 1)
              (List.filter (fun t => is_buyer_maker t) recent_trades)).

(** [trades_buy / trades_sell if trades_sell > 0 else 0] *)
Definition buy_sell_ratio (recent_trades : list RecentTrade) : result num :=
  if gt0 (trades_sell recent_trades)
  then truediv (trades_buy recent_trades) (trades_sell recent_trades)
  else Ok (NInt 0).

(** [sum(q for _, q in levels)] *)
Definition total_depth (levels : list (float * float)) : num :=
  Py.sum (map (fun level => NFloat (snd level)) levels).

Definition total_bid_depth (order_book : OrderBookDepth) : num :=
  total_depth (bids order_book).

Definition total_ask_depth (order_book : OrderBookDepth) : num :=
  total_depth (asks order_book).

(** [total_bid_depth / total_ask_depth if total_ask_depth > 0 else 0] *)
Definition bid_ask_ratio (order_book : OrderBookDepth) : result num :=
  if gt0 (total_ask_depth order_book)
  then truediv (total_bid_depth order_book) (total_ask_depth order_book)
  else Ok (NInt 0).

(** [asks[0][0] - bids[0][0] if asks and bids else 0] *)
Definition spread (order_book : OrderBookDepth) : num :=
  match asks order_book, bids order_book with
  | (best_ask, _) :: _, (best_bid, _) :: _ => Py.sub (NFloat best_ask) (NFloat best_bid)
  | _, _ => NInt 0
  end.

(** [(spread / bids[0][0] * 100) if bids else 0] *)
Definition spread_percent (order_book : OrderBookDepth) : result num :=
  match bids order_book with
  | (best_bid, _) :: _ =>
      result_bind (truediv (spread order_book) (NFloat best_bid))
                  (fun r => Ok (Py.mul r (NInt 100)))
  | [] => Ok (NInt 0)
  end.

(** [sum(t.qty for t in recent_trades) / len(recent_trades) if recent_trades else 0] *)
Definition avg_trade_size (recent_trades : list RecentTrade) : result num :=
  match recent_trades with
  | [] => Ok (NInt 0)
  | _ => truediv (Py.sum (map (fun t => NFloat (qty t)) recent_trades))
                 (NInt (Z.of_nat (length recent_trades)))
  end.

(** A price level as the snapshot holds it: the tuple the client built. *)
Definition level_value (level : float * float) : value :=
  VTuple [VFloat (fst level); VFloat (snd level)].

(** The window of a candle series kept in the snapshot: [series[-k:]] through
    [asdict]. *)
Definition kline_tail (k : nat) (series : list Kline) : list value :=
  map asdict (last_n k series).

Definition klines_section (klines_1h klines_4h klines_1d : list Kline) : value :=
  VDict [("1h", VList (kline_tail 6 klines_1h));
         ("4h", VList (kline_tail 6 klines_4h));
         ("1d", VList (kline_tail 7 klines_1d))].

Definition summary_section (ticker_price : TickerPrice) (avg_price : float)
           (ticker_24h : Ticker24h) : value :=
  VDict [("price", VFloat (price ticker_price));
         ("avg_price_5m", VFloat avg_price);
         ("price_change_24h", VFloat (price_change ticker_24h));
         ("price_change_percent_24h", VFloat (price_change_percent ticker_24h));
         ("high_24h", VFloat (high_price ticker_24h));
         ("low_24h", VFloat (low_price ticker_24h));
         ("volume_24h", VFloat (t24_volume ticker_24h));
         ("quote_volume_24h", VFloat (t24_quote_volume ticker_24h));
         ("trade_count_24h", VInt (t24_trade_count ticker_24h))].

Definition spread_section (spread spread_percent : num) : value :=
  VDict [("absolute", of_num spread); ("percent", of_num spread_percent)].

Definition depth_section (order_book : OrderBookDepth) (bid_ask_ratio : num) : value :=
  VDict [("total_bid_depth", of_num (total_bid_depth order_book));
         ("total_ask_depth", of_num (total_ask_depth order_book));
         ("bid_ask_ratio", of_num bid_ask_ratio);
         ("top_bids", VList (map level_value (first_n 5 (bids order_book))));
         ("top_asks", VList (map level_value (first_n 5 (asks order_book))))].

Definition trade_section (recent_trades : list RecentTrade)
           (buy_sell_ratio avg_trade_size : num) : value :=
  VDict [("total_trades", VInt (Z.of_nat (length recent_trades)));
         ("buy_trades", of_num (trades_buy recent_trades));
         ("sell_trades", of_num (trades_sell recent_trades));
         ("buy_sell_ratio", of_num buy_sell_ratio);
         ("avg_trade_size", of_num avg_trade_size)].

(** [save_snapshot(data, symbol, output_dir)] *)
Definition save_snapshot (data : value) (symbol : string) (output_dir : Path) : M Path :=
  emit (EvSave symbol output_dir);;
  on_fs (Path_mkdir output_dir);;
  t ← now;
  let timestamp := strftime "%Y%m%d_%H%M%S" t in
  let filename := joinpath output_dir (Py.lower symbol ++ "_" ++ timestamp ++ ".json") in
  on_fs (write_file filename (Document (dump data)));;
  log "INFO" ("Snapshot saved: " ++ Path_str filename);;
  ret filename.

Definition JSONDecodeError (raw : string) : exn := Exception "JSONDecodeError" raw.

(** [load_snapshot(filepath)] *)
Definition load_snapshot (filepath : Path) : M value :=
  c ← (fun w => (read_file filepath (w_fs w), w));
  match c with
  | Document j => ret (load j)
  | NotJson raw => raise (JSONDecodeError raw)
  end.

Section Snapshot.
Variable src : MarketDataSource.

(** The body of the [try] block of [create_market_snapshot]. *)
Definition snapshot_body (symbol : string) (client : nat) (output_dir : Path) : M value :=
  log "INFO" ("Creating market snapshot for " ++ symbol);;
  ticker_price ← get_ticker_price src client symbol;
  ticker_24h ← get_ticker_24h src client symbol;
  order_book ← get_order_book src client symbol 20;
  recent_trades ← get_recent_trades src client symbol 100;
  avg_price ← get_avg_price src client symbol;
  book_ticker ← get_book_ticker src client symbol;
  klines_1h ← get_klines src client symbol "1h" 24;
  klines_4h ← get_klines src client symbol "4h" 42;
  klines_1d ← get_klines src client symbol "1d" 30;
  buy_sell ← lift (buy_sell_ratio recent_trades);
  bid_ask ← lift (bid_ask_ratio order_book);
  let spread_abs := spread order_book in
  spread_pct ← lift (spread_percent order_book);
  created ← now;
  avg_size ← lift (avg_trade_size recent_trades);
  let snapshot :=
    VDict [("timestamp", VStr (isoformat created));
           ("symbol", VStr symbol);
           ("summary", summary_section ticker_price avg_price ticker_24h);
           ("book_ticker", book_ticker_dict book_ticker);
           ("spread", spread_section spread_abs spread_pct);
           ("depth_analysis", depth_section order_book bid_ask);
           ("trade_analysis", trade_section recent_trades buy_sell avg_size);
           ("klines", klines_section klines_1h klines_4h klines_1d)] in
  save_snapshot snapshot symbol output_dir;;
  ret snapshot.

(** [create_market_snapshot(symbol, client=None, output_dir=None)] *)
Definition create_market_snapshot (symbol : string) (client : option nat)
           (output_dir : option Path) : M value :=
  acquired ← match client with
             | None => own ← BinanceClient_new; ret (own, true)
             | Some c => ret (c, false)
             end;
  let client := fst acquired in
  let should_close := snd acquired in
  let output_dir := default SNAPSHOT_DIR output_dir in
  try_finally (snapshot_body symbol client output_dir)
              (if should_close : bool then BinanceClient_close client else ret tt).

End Snapshot.

(** ** rest_api.main *)

Definition nl : string := String (ascii_of_nat 10) EmptyString.

(** [ch * n] *)
Fixpoint repeat_char (ch : ascii) (n : nat) : string :=
  match n with O => EmptyString | S m => String ch (repeat_char ch m) end.

(** [v[k]] in a computation. *)
Definition getitem_M (k : string) (v : value) : M value :=
  match getitem k v with
  | Some x => ret x
  | None => raise (Exception "KeyError" k)
  end.

(** The number held by a value, for arithmetic. *)
Definition as_num (v : value) : M num :=
  match v with
  | VInt z => ret (NInt z)
  | VFloat f => ret (NFloat f)
  | VBool b => ret (NInt (if b then 1 else 0))
  | _ => raise (Exception "TypeError" "unsupported operand type(s)")
  end.

Definition print_help : M unit :=
  print (nl ++ "Market Snapshot - Binance Public Market Data Analytics" ++ nl
         ++ nl
         ++ "Usage:" ++ nl
         ++ "  market-snapshot <symbol>        Create comprehensive snapshot" ++ nl
         ++ "  market-snapshot <symbol> info   Show basic info only" ++ nl
         ++ nl
         ++ "Examples:" ++ nl
         ++ "  market-snapshot ETHUSDT" ++ nl
         ++ "  market-snapshot BTCUSDT info" ++ nl
         ++ "  market-snapshot BNBUSDT" ++ nl
         ++ nl
         ++ "Supported: Any Binance trading pair (e.g., ETHUSDT, BTCUSDT, SOLUSDT)" ++ nl).

Definition print_header (symbol mode : string) : M unit :=
  print "";;
  print (repeat_char "=" 80);;
  print ("  MARKET SNAPSHOT - " ++ symbol);;
  print (repeat_char "=" 80);;
  print "";;
  t ← now;
  print ("  Started: " ++ strftime "%Y-%m-%d %H:%M:%S" t);;
  print ("  Mode: " ++ mode);;
  print "";;
  print (repeat_char "-" 80).

Definition print_footer : M unit :=
  print (repeat_char "-" 80);;
  t ← now;
  print ("  Completed: " ++ strftime "%Y-%m-%d %H:%M:%S" t);;
  print (repeat_char "=" 80);;
  print "".

Definition cannot_connect : string := "  Error: Cannot connect to Binance API".

Section Main.
Variable src : MarketDataSource.

(** The built-in [format(value, spec)] behind the replacement fields of
    the f-strings. *)
Variable format : value -> string -> string.

(** [config.LOG_LEVEL]: the variable [LOG_LEVEL] of the environment, [INFO]
    when it is not set. *)
Variable LOG_LEVEL : string.

(** [setup_logging()], at the start of the process, when the root logger
    has no handler yet: the directory of the log file is made, the level is
    looked up by name, the handler opens the log file for appending, and
    [basicConfig] adds the handler and sets the level; the level given to
    the logger of [httpx] last shows in nothing the world holds. The
    records that later logger calls append to the file are the entries of
    [w_log]; the node of the file keeps the text it had when it was
    opened. *)
Definition setup_logging : M unit :=
  on_fs (Path_mkdir (Path_parent LOG_FILE));;
  level ← lift (Logging.getattr (Py.upper LOG_LEVEL));
  on_fs (open_append LOG_FILE);;
  lift (Logging.setLevel level);;
  ret tt.

(** [x / y * 100] on two entries of the snapshot. *)
Definition percent_of (x y : value) : M value :=
  a ← as_num x;
  b ← as_num y;
  q ← lift (truediv a b);
  ret (of_num (Py.mul q (NInt 100))).

(** The [with] block of [cmd_info]; [true] when it left by [return]. *)
Definition cmd_info_body (symbol : string) (client : nat) : M bool :=
  reachable ← ping src client;
  if negb reachable then
    print cannot_connect;;
    ret true
  else
    ticker ← get_ticker_24h src client symbol;
    book ← get_book_ticker src client symbol;
    print ("  Symbol: " ++ symbol);;
    print "";;
    print ("  Price: $" ++ format (VFloat (last_price ticker)) ",.2f");;
    print ("  24h Change: " ++ format (VFloat (price_change ticker)) "+,.2f"
           ++ " (" ++ format (VFloat (price_change_percent ticker)) "+.2f" ++ "%)");;
    print ("  24h High: $" ++ format (VFloat (high_price ticker)) ",.2f");;
    print ("  24h Low: $" ++ format (VFloat (low_price ticker)) ",.2f");;
    print ("  24h Volume: " ++ format (VFloat (t24_volume ticker)) ",.2f");;
    print ("  24h Trades: " ++ format (VInt (t24_trade_count ticker)) ",");;
    print "";;
    print ("  Best Bid: $" ++ format (VFloat (bid_price book)) ",.2f"
           ++ " (" ++ format (VFloat (bid_qty book)) ",.4f" ++ ")");;
    print ("  Best Ask: $" ++ format (VFloat (ask_price book)) ",.2f"
           ++ " (" ++ format (VFloat (ask_qty book)) ",.4f" ++ ")");;
    let spread := Py.sub (NFloat (ask_price book)) (NFloat (bid_price book)) in
    pct ← percent_of (of_num spread) (VFloat (bid_price book));
    print ("  Spread: $" ++ format (of_num spread) ",.4f"
           ++ " (" ++ format pct ".4f" ++ "%)");;
    ret false.

(** [cmd_info(symbol)] *)
Definition cmd_info (symbol : string) : M unit :=
  print_header symbol "info";;
  client ← BinanceClient_new;
  returned ← try_finally (cmd_info_body symbol client) (BinanceClient_close client);
  if returned : bool then ret tt else print_footer.

(** The [with] block of [cmd_snapshot]; [true] when it left by [return]. *)
Definition cmd_snapshot_body (symbol : string) (client : nat) : M bool :=
  reachable ← ping src client;
  if negb reachable then
    print cannot_connect;;
    ret true
  else
    print ("  Collecting data for " ++ symbol ++ "...");;
    print "";;
    snapshot ← create_market_snapshot src symbol (Some client) None;
    s ← getitem_M "summary" snapshot;
    print ("  Symbol: " ++ symbol);;
    v_price ← getitem_M "price" s;
    print ("  Price: $" ++ format v_price ",.2f");;
    v_change ← getitem_M "price_change_24h" s;
    v_change_pct ← getitem_M "price_change_percent_24h" s;
    print ("  24h Change: " ++ format v_change "+,.2f"
           ++ " (" ++ format v_change_pct "+.2f" ++ "%)");;
    v_low ← getitem_M "low_24h" s;
    v_high ← getitem_M "high_24h" s;
    print ("  24h Range: $" ++ format v_low ",.2f" ++ " - $" ++ format v_high ",.2f");;
    v_volume ← getitem_M "volume_24h" s;
    print ("  24h Volume: " ++ format v_volume ",.2f" ++ " " ++ str_drop_last 4 symbol);;
    v_quote ← getitem_M "quote_volume_24h" s;
    print ("  24h Quote Volume: $" ++ format v_quote ",.2f");;
    v_count ← getitem_M "trade_count_24h" s;
    print ("  24h Trades: " ++ format v_count ",");;
    print "";;
    d ← getitem_M "depth_analysis" snapshot;
    print "  Order Book Depth (top 20 levels):";;
    v_bid_depth ← getitem_M "total_bid_depth" d;
    print ("    Total Bid Depth: " ++ format v_bid_depth ",.4f");;
    v_ask_depth ← getitem_M "total_ask_depth" d;
    print ("    Total Ask Depth: " ++ format v_ask_depth ",.4f");;
    v_ratio ← getitem_M "bid_ask_ratio" d;
    print ("    Bid/Ask Ratio: " ++ format v_ratio ".2f");;
    print "";;
    t ← getitem_M "trade_analysis" snapshot;
    print "  Recent Trade Analysis (last 100):";;
    v_buy ← getitem_M "buy_trades" t;
    v_total ← getitem_M "total_trades" t;
    buy_pct ← percent_of v_buy v_total;
    print ("    Buy Trades: " ++ format v_buy "" ++ " (" ++ format buy_pct ".1f" ++ "%)");;
    v_sell ← getitem_M "sell_trades" t;
    v_total' ← getitem_M "total_trades" t;
    sell_pct ← percent_of v_sell v_total';
    print ("    Sell Trades: " ++ format v_sell "" ++ " (" ++ format sell_pct ".1f" ++ "%)");;
    v_bs ← getitem_M "buy_sell_ratio" t;
    print ("    Buy/Sell Ratio: " ++ format v_bs ".2f");;
    v_avg ← getitem_M "avg_trade_size" t;
    print ("    Avg Trade Size: " ++ format v_avg ".4f");;
    print "";;
    sp ← getitem_M "spread" snapshot;
    v_abs ← getitem_M "absolute" sp;
    v_pct ← getitem_M "percent" sp;
    print ("  Spread: $" ++ format v_abs ".4f" ++ " (" ++ format v_pct ".4f" ++ "%)");;
    print "";;
    print ("  Snapshot saved to: snapshots/" ++ Py.lower symbol ++ "_*.json");;
    ret false.

(** [cmd_snapshot(symbol)] *)
Definition cmd_snapshot (symbol : string) : M unit :=
  print_header symbol "snapshot";;
  client ← BinanceClient_new;
  returned ← try_finally (cmd_snapshot_body symbol client) (BinanceClient_close client);
  if returned : bool then ret tt else print_footer.

Definition is_help (symbol : string) : bool :=
  String.eqb symbol "HELP" || String.eqb symbol "-H" || String.eqb symbol "--HELP".

(** [main()], on [sys.argv]. *)
Definition main (argv : list string) : M unit :=
  setup_logging;;
  match argv with
  | [] | [_] => print_help
  | _ :: arg1 :: rest =>
      let symbol := Py.upper arg1 in
      if is_help symbol then print_help
      else
        let mode := match rest with arg2 :: _ => Py.lower arg2 | [] => "snapshot" end in
        log "INFO" ("Running " ++ mode ++ " for " ++ symbol);;
        try_except
          (if String.eqb mode "info" then cmd_info symbol else cmd_snapshot symbol)
          (fun e =>
             log "ERROR" ("Command failed: " ++ exn_str e);;
             print (nl ++ "  Error: " ++ exn_str e);;
             print "";;
             raise (SystemExit 1))
  end.

(** The status the process ends with. *)
Definition exit_status (r : result unit) : Z :=
  match r with
  | Ok _ => 0
  | Raise (SystemExit code) => code
  | Raise KeyboardInterrupt => 130
  | Raise (Exception _ _) => 1
  end.

Definition run (argv : list string) (w : world) : Z * world :=
  match main argv w with (r, w') => (exit_status r, w') end.

End Main.

(** ** Sample data *)

Definition sample_trade (maker_is_buyer : bool) : RecentTrade :=
  mkRecentTrade 1 10%float 2%float 20%float 0 maker_is_buyer.

(** Ten trades, seven with the flag false and three with it true. *)
Definition ten_trades : list RecentTrade :=
  map sample_trade [false; true; false; false; true; false; false; true; false; false].

(** The number of trades a predicate selects. *)
Definition count_trades (p : RecentTrade -> bool) (ts : list RecentTrade) : Z :=
  Z.of_nat (length (List.filter p ts)).

Definition buyer_initiated (t : RecentTrade) : bool := negb (is_buyer_maker t).
Definition seller_initiated (t : RecentTrade) : bool := is_buyer_maker t.

Definition sample_book : OrderBookDepth :=
  mkOrderBookDepth "ETHUSDT" [(100, 2); (99, 3)]%float [(101, 1); (102, 4)]%float 7.

(** A book whose best bid is priced at zero. *)
Definition zero_bid_book : OrderBookDepth :=
  mkOrderBookDepth "ETHUSDT" [(0, 1)]%float [(1, 1)]%float 7.


Definition sample_kline (t : Z) : Kline :=
  mkKline t 1 2 3 4 5 (t + 1) 7 8 9 10.

Definition connect_error : exn := Exception "ConnectError" "All connection attempts failed".

(** A service that answers every request, but for the depth request, whose
    answer is given. *)
Definition source_with_depth (depth : result OrderBookDepth) : MarketDataSource :=
  mkSource (Ok tt)
           (fun s => Ok (mkTickerPrice s 100.5))
           (fun s => Ok (mkTicker24h s 1 2 3 4 5 6 7 8 9 10 11 12 13 14 15))
           (fun _ _ => depth)
           (fun _ _ => Ok ten_trades)
           (fun _ _ _ => Ok (map sample_kline [1; 2; 3; 4; 5; 6; 7; 8]))
           (fun _ => Ok 100.25%float)
           (fun s => Ok (mkBookTicker s 100 2 101 1)).

Definition sample_source : MarketDataSource := source_with_depth (Ok sample_book).
Definition zero_bid_source : MarketDataSource := source_with_depth (Ok zero_bid_book).
Definition depth_down_source : MarketDataSource := source_with_depth (Raise connect_error).

(** A service that cannot be reached at all. *)
Definition unreachable_source : MarketDataSource :=
  mkSource (Raise connect_error)
           (fun _ => Raise connect_error)
           (fun _ => Raise connect_error)
           (fun _ _ => Raise connect_error)
           (fun _ _ => Raise connect_error)
           (fun _ _ _ => Raise connect_error)
           (fun _ => Raise connect_error)
           (fun _ => Raise connect_error).

(** A clock that starts at 2024-01-02 03:04:05 and shows one second more
    at each reading. *)
Definition ticking_clock (start : nat) (n : nat) : datetime :=
  mkDatetime 2024 1 2 3 4 (start + n) 0.

(** A fresh process: nothing on disk, no client, nothing printed. *)
Definition sample_world : world := mkWorld (ticking_clock 5) 0 ∅ [] [] [] [].

(** The same, half a minute later. *)
Definition later_world : world := mkWorld (ticking_clock 35) 0 ∅ [] [] [] [].

(** The document the assembler returns for the sample service in the fresh
    process. *)
Definition sample_snapshot : value :=
  Eval vm_compute in
    match fst (create_market_snapshot sample_source "ETHUSDT" None None sample_world) with
    | Ok d => d
    | Raise _ => VNone
    end.

(** Where [save_snapshot] puts a document in the fresh process. *)
Definition sample_location : Path :=
  mkPath false ["snapshots"; "ethusdt_20240102_030405.json"].

(** The fresh process after the sample document was saved. *)
Definition saved_world : world :=
  snd (save_snapshot sample_snapshot "ETHUSDT" SNAPSHOT_DIR sample_world).



(** A stand-in for the built-in [format]: it shows the format spec. *)
Definition sample_format (v : value) (spec : string) : string := "<" ++ spec ++ ">".

(** ** Auxiliary notions of the statements *)

(** The error a call ended with, if any. *)
Definition failure {A : Type} (r : result A) : option exn :=
  match r with Ok _ => None | Raise e => Some e end.

(** The outcomes of the nine fetches of the assembler, in the order it
    issues them. *)
Definition fetch_failures (src : MarketDataSource) (symbol : string) : list (option exn) :=
  [failure (src_ticker_price src symbol);
   failure (src_ticker_24h src symbol);
   failure (src_order_book src symbol 20);
   failure (src_recent_trades src symbol 100);
   failure (src_avg_price src symbol);
   failure (src_book_ticker src symbol);
   failure (src_klines src symbol "1h" 24);
   failure (src_klines src symbol "4h" 42);
   failure (src_klines src symbol "1d" 30)].

(** The error of the first fetch that fails. *)
Definition first_failure (src : MarketDataSource) (symbol : string) : option exn :=
  head (omap id (fetch_failures src symbol)).

(** The same for the two fetches of [cmd_info]. *)
Definition first_failure_info (src : MarketDataSource) (symbol : string) : option exn :=
  head (omap id [failure (src_ticker_24h src symbol);
                 failure (src_book_ticker src symbol)]).

Definition is_save (ev : event) : bool :=
  match ev with EvSave _ _ => true | _ => false end.

Definition is_close (ev : event) : bool :=
  match ev with EvClose _ => true | _ => false end.

(** The world after one request of client [c]. *)
Definition after_request (c : nat) (op : operation) (symbol : string) (w : world) : world :=
  mkWorld (w_clock w) (w_reads w) (w_fs w) (alter connect c (w_heap w))
          (w_trace w ++ [EvRequest c op symbol]) (w_stdout w) (w_log w).

Definition is_request (ev : event) : bool :=
  match ev with EvRequest _ _ _ => true | _ => false end.

(** [w'] is [w] after some requests of client [c] and nothing else but
    logging: the disk is as it was, the client has its connection, the other
    clients are as they were, and the trace grew by requests only. *)
Definition fetched_only (c : nat) (w w' : world) : Prop :=
  w_fs w' = w_fs w
  /\ w_heap w' = alter connect c (w_heap w)
  /\ w_stdout w' = w_stdout w
  /\ exists evs, w_trace w' = (w_trace w ++ evs)%list /\ forallb is_request evs = true.

(** [w'] is [w] after a run that used client [c] and never closed any
    client: [c] has its connection, the other clients are as they were, and
    no [close] is among the calls made. *)
Definition client_kept (c : nat) (w w' : world) : Prop :=
  w_heap w' = alter connect c (w_heap w)
  /\ exists evs, w_trace w' = (w_trace w ++ evs)%list
                 /\ forallb (fun ev => negb (is_close ev)) evs = true.

(** A computation that, run after requests of client [c], leaves the
    clients in that state. *)
Definition keeps_client (c : nat) {A : Type} (m : M A) : Prop :=
  forall w w0, client_kept c w w0 -> client_kept c w (snd (m w0)).

(** How a run of the command line can find the service out of reach. *)
Inductive unreachable : Type :=
| CheckFailed                (* the connectivity check came back false *)
| FetchFailed (msg : string) (* the check passed and a fetch raised an error *).

(** The mode [main] runs in, from the arguments after the symbol. *)
Definition mode_of (rest : list string) : string :=
  match rest with arg2 :: _ => Py.lower arg2 | [] => "snapshot" end.

(** Whether, and how, a run in the given mode finds the service out of
    reach: the check fails on any [Exception] of the ping; otherwise the
    first failing fetch of the mode decides. *)
Definition out_of_reach (src : MarketDataSource) (mode symbol : string)
  : option unreachable :=
  match src_ping src with
  | Raise (Exception _ _) => Some CheckFailed
  | Raise _ => None
  | Ok _ =>
      match (if String.eqb mode "info" then first_failure_info src symbol
             else first_failure src symbol) with
      | Some (Exception _ msg) => Some (FetchFailed msg)
      | _ => None
      end
  end.




(** What a value is once it went through JSON: every tuple is a list. *)
Fixpoint listify (v : value) : value :=
  match v with
  | VList l => VList (map listify l)
  | VTuple l => VList (map listify l)
  | VDict d => VDict (map (fun kv => match kv with (k, x) => (k, listify x) end) d)
  | _ => v
  end.

(** No tuple anywhere in the value. *)
Fixpoint tuple_free (v : value) : bool :=
  match v with
  | VTuple _ => false
  | VList l => forallb tuple_free l
  | VDict d => forallb (fun kv => match kv with (_, x) => tuple_free x end) d
  | _ => true
  end.

(** No key occurs twice. *)
Fixpoint distinct (ks : list string) : bool :=
  match ks with
  | [] => true
  | k :: ks' => negb (existsb (String.eqb k) ks') && distinct ks'
  end.

(** The values Python can hold: the keys of a dict are distinct, at every
    depth. *)
Fixpoint well_formed (v : value) : bool :=
  match v with
  | VList l => forallb well_formed l
  | VTuple l => forallb well_formed l
  | VDict d =>
      distinct (map fst d)
      && forallb (fun kv => match kv with (_, x) => well_formed x end) d
  | _ => true
  end.

(** No component of the path is taken by a regular file. *)
Definition clear_path (fs : filesystem) (abs : bool) (ps : list string) : Prop :=
  forall k c, (1 <= k <= length ps)%nat -> fs !! (abs, take k ps) <> Some (File c).

(** [fs'] is [fs] with every prefix of the path made a directory, and
    nothing else touched. *)
Definition directories_made (fs fs' : filesystem) (abs : bool) (ps : list string) : Prop :=
  (forall k, (1 <= k <= length ps)%nat -> fs' !! (abs, take k ps) = Some Dir)
  /\ (forall key, (forall k, (1 <= k <= length ps)%nat -> key <> (abs, take k ps)) ->
                  fs' !! key = fs !! key).

(** No path separator in the string. *)
Fixpoint slash_free (s : string) : bool :=
  match s with
  | EmptyString => true
  | String c s' => negb (Ascii.eqb c "/") && slash_free s'
  end.

(** The name [save_snapshot] gives the file, from the symbol and the time
    it reads. *)
Definition snapshot_file_name (symbol : string) (t : datetime) : string :=
  Py.lower symbol ++ "_" ++ strftime "%Y%m%d_%H%M%S" t ++ ".json".

(** [v] is a dict with every one of the keys. *)
Definition has_keys (ks : list string) (v : value) : bool :=
  forallb (fun k => match getitem k v with Some _ => true | None => false end) ks.

(** [v[k]] is a dict with every one of the keys. *)
Definition section_has_keys (k : string) (ks : list string) (v : value) : bool :=
  match getitem k v with Some section => has_keys ks section | None => false end.

(** Modelled from the spec: the persisted document schema of section 6 (the
    program has no schema check of its own), by the field names of the
    document and of its sections. *)
Definition conforms_to_schema (v : value) : bool :=
  has_keys ["timestamp"; "symbol"; "summary"; "book_ticker"; "spread";
            "depth_analysis"; "trade_analysis"; "klines"] v
  && section_has_keys "summary"
       ["price"; "avg_price_5m"; "price_change_24h"; "price_change_percent_24h";
        "high_24h"; "low_24h"; "volume_24h"; "quote_volume_24h"; "trade_count_24h"] v
  && section_has_keys "book_ticker"
       ["symbol"; "bid_price"; "bid_qty"; "ask_price"; "ask_qty"] v
  && section_has_keys "spread" ["absolute"; "percent"] v
  && section_has_keys "depth_analysis"
       ["total_bid_depth"; "total_ask_depth"; "bid_ask_ratio"; "top_bids"; "top_asks"] v
  && section_has_keys "trade_analysis"
       ["total_trades"; "buy_trades"; "sell_trades"; "buy_sell_ratio"; "avg_trade_size"] v
  && section_has_keys "klines" ["1h"; "4h"; "1d"] v.



(** ** Notions of the further properties *)

(** The figure a guarded ratio came out with. *)
Definition figure (r : result num) : num :=
  match r with Ok x => x | Raise _ => NInt 0 end.

(** The nine requests of the assembler on client [c], in the order it
    issues them. *)
Definition snapshot_requests (c : nat) (symbol : string) : list event :=
  [EvRequest c OpTickerPrice symbol;
   EvRequest c OpTicker24h symbol;
   EvRequest c (OpOrderBook 20) symbol;
   EvRequest c (OpRecentTrades 100) symbol;
   EvRequest c OpAvgPrice symbol;
   EvRequest c OpBookTicker symbol;
   EvRequest c (OpKlines "1h" 24) symbol;
   EvRequest c (OpKlines "4h" 42) symbol;
   EvRequest c (OpKlines "1d" 30) symbol].

(** The world once the first [n] fetches of the assembler are through. *)
Definition fetched_world (n : nat) (c : nat) (symbol : string) (w : world) : world :=
  mkWorld (w_clock w) (w_reads w) (w_fs w) (alter connect c (w_heap w))
          (w_trace w ++ take n (snapshot_requests c symbol)) (w_stdout w)
          (w_log w ++ [("INFO", "Creating market snapshot for " ++ symbol)]).

(** The document the assembler makes of what it fetched, of the spread
    percentage and of the time it reads. *)
Definition snapshot_document (symbol : string) (created : datetime)
           (ticker_price : TickerPrice) (ticker_24h : Ticker24h)
           (order_book : OrderBookDepth) (recent_trades : list RecentTrade)
           (avg_price : float) (book_ticker : BookTicker)
           (klines_1h klines_4h klines_1d : list Kline) (spread_pct : num) : value :=
  VDict [("timestamp", VStr (isoformat created));
         ("symbol", VStr symbol);
         ("summary", summary_section ticker_price avg_price ticker_24h);
         ("book_ticker", book_ticker_dict book_ticker);
         ("spread", spread_section (spread order_book) spread_pct);
         ("depth_analysis",
          depth_section order_book (figure (bid_ask_ratio order_book)));
         ("trade_analysis",
          trade_section recent_trades (figure (buy_sell_ratio recent_trades))
                        (figure (avg_trade_size recent_trades)));
         ("klines", klines_section klines_1h klines_4h klines_1d)].

(** How many fetches succeed before the first one that fails. *)
Fixpoint succeeded_first (outcomes : list (option exn)) : nat :=
  match outcomes with
  | None :: rest => S (succeeded_first rest)
  | _ => O
  end.

(** How many of the nine requests a run of the assembler issues: the ones
    that succeed before the first failure and the failing one; all nine
    when none fails. *)
Definition requests_issued (src : MarketDataSource) (symbol : string) : nat :=
  Nat.min 9 (S (succeeded_first (fetch_failures src symbol))).

(** Whether a run of the assembler gets as far as the document: every
    fetch succeeds and the spread percentage of the book comes out. *)
Definition document_made (src : MarketDataSource) (symbol : string) : bool :=
  match first_failure src symbol, src_order_book src symbol 20 with
  | None, Ok order_book =>
      match spread_percent order_book with Ok _ => true | Raise _ => false end
  | _, _ => false
  end.

(** A process in whose working directory [snapshots] is a regular file. *)
Definition occupied_world : world :=
  mkWorld (ticking_clock 5) 0
          (<[(false, ["snapshots"]) := File (NotJson "not a directory")]> ∅)
          [] [] [] [].

(** The fresh process after a run of the assembler on the sample service. *)
Definition created_world : world :=
  snd (create_market_snapshot sample_source "ETHUSDT" None None sample_world).

(** Two times within the same second of the calendar. *)
Definition same_second (a b : datetime) : Prop :=
  year a = year b /\ month a = month b /\ day a = day b
  /\ hour a = hour b /\ minute a = minute b /\ second a = second b.

(** The year has four digits and the other fields are in the ranges
    [datetime] allows. *)
Definition in_range (t : datetime) : Prop :=
  (1000 <= year t /\ year t < 10 ^ 4 /\ month t <= 12 /\ day t <= 31
   /\ hour t <= 23 /\ minute t <= 59 /\ second t <= 59)%nat.

(** A clock that shows 2024-01-02 03:04:05 at every reading, the fraction
    of the second moving on. *)
Definition fast_clock (n : nat) : datetime := mkDatetime 2024 1 2 3 4 5 n.

Definition fast_world : world := mkWorld fast_clock 0 ∅ [] [] [] [].

(** The process after one save, and after a second one right away under
    the symbol in lower case. *)
Definition once_saved : world :=
  snd (save_snapshot (VInt 1) "ETHUSDT" SNAPSHOT_DIR fast_world).

Definition twice_saved : world :=
  snd (save_snapshot (VInt 2) "ethusdt" SNAPSHOT_DIR once_saved).

(** A call on a client object: one of its accessors, with what the request
    evaluates to, or [close]. *)
Inductive client_call : Type :=
| CallRequest (op : operation) (symbol : string) (answer : result unit)
| CallClose.

Definition call (c : nat) (k : client_call) : M unit :=
  match k with
  | CallRequest op symbol answer => request c op symbol answer
  | CallClose => BinanceClient_close c
  end.

(** The world after a series of calls on client [c], whatever each of them
    returned or raised. *)
Definition after_calls (c : nat) (ks : list client_call) (w : world) : world :=
  fold_left (fun w0 k => snd (call c k w0)) ks w.

(** The connection a client of the given address holds after the calls, when
    it had [x] before: the last call decides. *)
Definition connection_after (url : string) (ks : list client_call)
           (x : option HttpxClient) : option HttpxClient :=
  match last ks with
  | None => x
  | Some CallClose => None
  | Some (CallRequest _ _ _) => Some (mkHttpx url REQUEST_TIMEOUT)
  end.

(** The part of [cmd_snapshot] that shows the document: what follows the
    call of [create_market_snapshot] in its [with] block. *)
Definition display_snapshot (format : value -> string -> string) (symbol : string)
           (snapshot : value) : M bool :=
  s ← getitem_M "summary" snapshot;
  print ("  Symbol: " ++ symbol);;
  v_price ← getitem_M "price" s;
  print ("  Price: $" ++ format v_price ",.2f");;
  v_change ← getitem_M "price_change_24h" s;
  v_change_pct ← getitem_M "price_change_percent_24h" s;
  print ("  24h Change: " ++ format v_change "+,.2f"
         ++ " (" ++ format v_change_pct "+.2f" ++ "%)");;
  v_low ← getitem_M "low_24h" s;
  v_high ← getitem_M "high_24h" s;
  print ("  24h Range: $" ++ format v_low ",.2f" ++ " - $" ++ format v_high ",.2f");;
  v_volume ← getitem_M "volume_24h" s;
  print ("  24h Volume: " ++ format v_volume ",.2f" ++ " " ++ str_drop_last 4 symbol);;
  v_quote ← getitem_M "quote_volume_24h" s;
  print ("  24h Quote Volume: $" ++ format v_quote ",.2f");;
  v_count ← getitem_M "trade_count_24h" s;
  print ("  24h Trades: " ++ format v_count ",");;
  print "";;
  d ← getitem_M "depth_analysis" snapshot;
  print "  Order Book Depth (top 20 levels):";;
  v_bid_depth ← getitem_M "total_bid_depth" d;
  print ("    Total Bid Depth: " ++ format v_bid_depth ",.4f");;
  v_ask_depth ← getitem_M "total_ask_depth" d;
  print ("    Total Ask Depth: " ++ format v_ask_depth ",.4f");;
  v_ratio ← getitem_M "bid_ask_ratio" d;
  print ("    Bid/Ask Ratio: " ++ format v_ratio ".2f");;
  print "";;
  t ← getitem_M "trade_analysis" snapshot;
  print "  Recent Trade Analysis (last 100):";;
  v_buy ← getitem_M "buy_trades" t;
  v_total ← getitem_M "total_trades" t;
  buy_pct ← percent_of v_buy v_total;
  print ("    Buy Trades: " ++ format v_buy "" ++ " (" ++ format buy_pct ".1f" ++ "%)");;
  v_sell ← getitem_M "sell_trades" t;
  v_total' ← getitem_M "total_trades" t;
  sell_pct ← percent_of v_sell v_total';
  print ("    Sell Trades: " ++ format v_sell "" ++ " (" ++ format sell_pct ".1f" ++ "%)");;
  v_bs ← getitem_M "buy_sell_ratio" t;
  print ("    Buy/Sell Ratio: " ++ format v_bs ".2f");;
  v_avg ← getitem_M "avg_trade_size" t;
  print ("    Avg Trade Size: " ++ format v_avg ".4f");;
  print "";;
  sp ← getitem_M "spread" snapshot;
  v_abs ← getitem_M "absolute" sp;
  v_pct ← getitem_M "percent" sp;
  print ("  Spread: $" ++ format v_abs ".4f" ++ " (" ++ format v_pct ".4f" ++ "%)");;
  print "";;
  print ("  Snapshot saved to: snapshots/" ++ Py.lower symbol ++ "_*.json");;
  ret false.

(** A computation that does nothing but print. *)
Definition prints_only {A : Type} (m : M A) : Prop :=
  forall w, exists lines, snd (m w) = set_stdout (w_stdout w ++ lines) w.

(** The sample service at a time when nobody trades: the list of recent
    trades is empty. *)
Definition no_trades_source : MarketDataSource :=
  mkSource (Ok tt)
           (fun s => Ok (mkTickerPrice s 100.5))
           (fun s => Ok (mkTicker24h s 1 2 3 4 5 6 7 8 9 10 11 12 13 14 15))
           (fun _ _ => Ok sample_book)
           (fun _ _ => Ok [])
           (fun _ _ _ => Ok (map sample_kline [1; 2; 3; 4; 5; 6; 7; 8]))
           (fun _ => Ok 100.25%float)
           (fun s => Ok (mkBookTicker s 100 2 101 1)).

(** A run that ends with an [Exception] nobody caught. *)
Definition ends_in_Exception {A : Type} (r : result A) : bool :=
  match r with Raise (Exception _ _) => true | _ => false end.


(** The part of [cmd_info] that shows the two answers: what follows the
    fetches in its [with] block. *)
Definition display_info (format : value -> string -> string) (symbol : string)
           (ticker : Ticker24h) (book : BookTicker) : M bool :=
  print ("  Symbol: " ++ symbol);;
  print "";;
  print ("  Price: $" ++ format (VFloat (last_price ticker)) ",.2f");;
  print ("  24h Change: " ++ format (VFloat (price_change ticker)) "+,.2f"
         ++ " (" ++ format (VFloat (price_change_percent ticker)) "+.2f" ++ "%)");;
  print ("  24h High: $" ++ format (VFloat (high_price ticker)) ",.2f");;
  print ("  24h Low: $" ++ format (VFloat (low_price ticker)) ",.2f");;
  print ("  24h Volume: " ++ format (VFloat (t24_volume ticker)) ",.2f");;
  print ("  24h Trades: " ++ format (VInt (t24_trade_count ticker)) ",");;
  print "";;
  print ("  Best Bid: $" ++ format (VFloat (bid_price book)) ",.2f"
         ++ " (" ++ format (VFloat (bid_qty book)) ",.4f" ++ ")");;
  print ("  Best Ask: $" ++ format (VFloat (ask_price book)) ",.2f"
         ++ " (" ++ format (VFloat (ask_qty book)) ",.4f" ++ ")");;
  let spread := Py.sub (NFloat (ask_price book)) (NFloat (bid_price book)) in
  pct ← percent_of (of_num spread) (VFloat (bid_price book));
  print ("  Spread: $" ++ format (of_num spread) ",.4f"
         ++ " (" ++ format pct ".4f" ++ "%)");;
  ret false.

(** A service whose book ticker quotes a best bid of zero. *)
Definition zero_quote_source : MarketDataSource :=
  mkSource (Ok tt)
           (fun s => Ok (mkTickerPrice s 100.5))
           (fun s => Ok (mkTicker24h s 1 2 3 4 5 6 7 8 9 10 11 12 13 14 15))
           (fun _ _ => Ok sample_book)
           (fun _ _ => Ok ten_trades)
           (fun _ _ _ => Ok (map sample_kline [1; 2; 3; 4; 5; 6; 7; 8]))
           (fun _ => Ok 100.25%float)
           (fun s => Ok (mkBookTicker s 0 2 101 1)).

(** A process in which a directory has the name the next snapshot of
    ETHUSDT is to get. *)
Definition blocked_world : world :=
  mkWorld (ticking_clock 5) 0
          (<[(false, ["snapshots"; "ethusdt_20240102_030405.json"]) := Dir]>
             (<[(false, ["snapshots"]) := Dir]> ∅))
          [] [] [] [].

(** * Properties *)

(** Closed equations between large terms, settled by evaluating both sides. *)
Ltac by_evaluation :=
  lazymatch goal with
  | |- @eq ?T ?lhs ?rhs => vm_cast_no_check (@eq_refl T rhs)
  end.

(** ** Arithmetic *)

Lemma sum_ones_from {A} (l : list A) (n : Z) :
  fold_left Py.add (map (fun _ => NInt 1) l) (NInt n) = NInt (n + Z.of_nat (length l)).
Proof.
  revert n; induction l as [|a l IH]; intros n; simpl.
  - f_equal; lia.
  - rewrite IH. f_equal; lia.
Qed.

Lemma sum_ones {A} (l : list A) :
  Py.sum (map (fun _ => NInt 1) l) = NInt (Z.of_nat (length l)).
Proof. unfold Py.sum. rewrite sum_ones_from. f_equal. Qed.


Lemma trades_buy_count ts : trades_buy ts = NInt (count_trades buyer_initiated ts).
Proof. unfold trades_buy. apply sum_ones. Qed.

Lemma trades_sell_count ts : trades_sell ts = NInt (count_trades seller_initiated ts).
Proof. unfold trades_sell. apply sum_ones. Qed.

(** A positive number is not zero, for ints and for floats. *)
Lemma gt0_not_zero x : gt0 x = true -> is_zero x = false.
Proof.
  destruct x as [z|f]; simpl.
  - intros H. apply Z.ltb_lt in H. apply Z.eqb_neq. lia.
  - rewrite FloatAxioms.ltb_spec, FloatAxioms.eqb_spec.
    change (Prim2SF 0) with (S754_zero false).
    destruct (Prim2SF f) as [[]|[]| |[] m e]; cbv; congruence.
Qed.

Lemma truediv_nonzero x y :
  is_zero y = false ->
  truediv x y = Ok (NFloat (PrimFloat.div (to_float x) (to_float y))).
Proof. intros H. unfold truediv. rewrite H. reflexivity. Qed.

(** ** Sums of quantities

    The sum of floats that are not negative is not negative: from the
    specification of the addition of binary64 floats. *)

















(** ** Trade analysis *)






(** ** Candle windows *)





(** ** Spread *)

(** The spread is the best ask less the best bid when both sides have a
    level, and 0 otherwise. *)
Lemma spread_cases (ob : OrderBookDepth) :
  spread ob = match asks ob, bids ob with
              | a :: _, b :: _ => NFloat (PrimFloat.sub (fst a) (fst b))
              | _, _ => NInt 0
              end.
Proof.
  unfold spread. destruct (asks ob) as [|[a qa] ?], (bids ob) as [|[b qb] ?]; reflexivity.
Qed.

(** With a best bid that is not zero the percentage is computed, and with
    no bid at all it is 0. *)
Lemma spread_percent_guarded (ob : OrderBookDepth) :
  match bids ob with
  | [] => spread_percent ob = Ok (NInt 0)
  | b :: _ =>
      PrimFloat.eqb (fst b) 0 = false ->
      spread_percent ob
      = Ok (NFloat (PrimFloat.mul (PrimFloat.div (to_float (spread ob)) (fst b)) 100))
  end.
Proof.
  unfold spread_percent. destruct (bids ob) as [|[b qb] ?]; [reflexivity|].
  simpl fst. intros H. unfold truediv. simpl is_zero. rewrite H. reflexivity.
Qed.

(** C2, at a book whose best bid is priced at zero: the spread is computed,
    the percentage raises [ZeroDivisionError], and so does the whole
    assembly, which then stores nothing. *)
Theorem spread_percent_zero_bid :
  bids zero_bid_book = [(0, 1)]%float
  /\ spread zero_bid_book = NFloat 1
  /\ spread_percent zero_bid_book = Raise (ZeroDivisionError "float division by zero")
  /\ fst (create_market_snapshot zero_bid_source "ETHUSDT" None None sample_world)
     = Raise (ZeroDivisionError "float division by zero")
  /\ w_fs (snd (create_market_snapshot zero_bid_source "ETHUSDT" None None sample_world))
     = ∅.
Proof. repeat split; vm_compute; reflexivity. Qed.

(** ** JSON round trip *)

Lemma value_nested_ind (P : value -> Prop) :
  P VNone -> (forall b, P (VBool b)) -> (forall z, P (VInt z)) ->
  (forall f, P (VFloat f)) -> (forall s, P (VStr s)) ->
  (forall l, Forall P l -> P (VList l)) ->
  (forall l, Forall P l -> P (VTuple l)) ->
  (forall d, Forall (fun kv => P (snd kv)) d -> P (VDict d)) ->
  forall v, P v.
Proof.
  intros HN HB HI HF HS HL HT HD.
  fix IH 1. intros [ | b | z | f | s | l | l | d].
  - exact HN.
  - apply HB.
  - apply HI.
  - apply HF.
  - apply HS.
  - apply HL. revert l. fix IHl 1. intros [|a l]; constructor; [apply IH | apply IHl].
  - apply HT. revert l. fix IHl 1. intros [|a l]; constructor; [apply IH | apply IHl].
  - apply HD. revert d. fix IHd 1. intros [|[k x] d]; constructor; [apply IH | apply IHd].
Qed.

Lemma dict_set_fresh {V} (k : string) (v : V) (d : list (string * V)) :
  existsb (String.eqb k) (map fst d) = false -> dict_set k v d = (d ++ [(k, v)])%list.
Proof.
  induction d as [|[k' v'] d IH]; simpl; [reflexivity|].
  intros H. apply orb_false_iff in H as [Hk Hd].
  rewrite String.eqb_sym, Hk. f_equal. apply IH, Hd.
Qed.

Lemma load_members_from (f : Json.json -> value) (ms : list (string * Json.json))
      (acc : list (string * value)) :
  distinct (map fst acc ++ map fst ms) = true ->
  fold_left (fun d kv => match kv with (k, x) => dict_set k (f x) d end) ms acc
  = (acc ++ map (fun kv => match kv with (k, x) => (k, f x) end) ms)%list.
Proof.
  revert acc. induction ms as [|[k x] ms IH]; intros acc H; simpl.
  - rewrite app_nil_r. reflexivity.
  - simpl in H.
    replace (map fst acc ++ k :: map fst ms)%list
      with ((map fst acc ++ [k]) ++ map fst ms)%list in H
      by (rewrite <- app_assoc; reflexivity).
    assert (Hk : existsb (String.eqb k) (map fst acc) = false).
    { clear IH. revert H. generalize (map fst ms) as rest. generalize (map fst acc) as ks.
      induction ks as [|k' ks IHk]; intros rest H; simpl in *; [reflexivity|].
      apply andb_true_iff in H as [Hn Hd].
      apply negb_true_iff in Hn. rewrite !existsb_app in Hn. simpl in Hn.
      rewrite !orb_false_iff in Hn. destruct Hn as [[_ [Hn _]] _].
      rewrite String.eqb_sym, Hn. simpl. eapply IHk, Hd. }
    rewrite (dict_set_fresh _ _ _ Hk), IH.
    + rewrite <- app_assoc. reflexivity.
    + rewrite map_app. exact H.
Qed.

Lemma load_dump (v : value) : well_formed v = true -> load (dump v) = listify v.
Proof.
  induction v as [ | b | z | f | s | l IH | l IH | d IH] using value_nested_ind;
    intros Hwf; try reflexivity.
  - simpl in *. f_equal. rewrite map_map. apply map_ext_in.
    intros a Ha. rewrite forallb_forall in Hwf. rewrite Forall_forall in IH.
    apply IH; [apply list_elem_of_In, Ha | apply Hwf, Ha].
  - simpl in *. f_equal. rewrite map_map. apply map_ext_in.
    intros a Ha. rewrite forallb_forall in Hwf. rewrite Forall_forall in IH.
    apply IH; [apply list_elem_of_In, Ha | apply Hwf, Ha].
  - simpl in *. apply andb_true_iff in Hwf as [Hk Hwf]. f_equal.
    rewrite load_members_from.
    + simpl. rewrite map_map. apply map_ext_in. intros [k x] Ha.
      f_equal. rewrite forallb_forall in Hwf. rewrite Forall_forall in IH.
      apply (IH (k, x)); [apply list_elem_of_In, Ha | apply (Hwf (k, x)), Ha].
    + simpl. rewrite map_map.
      erewrite map_ext; [exact Hk|]. intros [k x]; reflexivity.
Qed.

Lemma listify_tuple_free (v : value) : tuple_free v = true -> listify v = v.
Proof.
  induction v as [ | b | z | f | s | l IH | l IH | d IH] using value_nested_ind;
    intros H; try reflexivity; try discriminate.
  - simpl in *. f_equal. rewrite <- (map_id l) at 2. apply map_ext_in.
    intros a Ha. rewrite forallb_forall in H. rewrite Forall_forall in IH.
    apply IH; [apply list_elem_of_In, Ha | apply H, Ha].
  - simpl in *. f_equal. rewrite <- (map_id d) at 2. apply map_ext_in.
    intros [k x] Ha. f_equal. rewrite forallb_forall in H. rewrite Forall_forall in IH.
    apply (IH (k, x)); [apply list_elem_of_In, Ha | apply (H (k, x)), Ha].
Qed.

(** ** The file system *)

Lemma walk_Ok fs abs t dirs :
  walk fs abs t dirs = Ok tt <-> Forall (fun d => fs !! (abs, d) = Some Dir) dirs.
Proof.
  induction dirs as [|d ds IH]; simpl.
  - split; [constructor | reflexivity].
  - destruct (fs !! (abs, d)) as [[|c]|] eqn:E.
    + rewrite IH. split; [intros H; constructor; [exact E | exact H]|].
      intros H. inversion H; assumption.
    + split; [discriminate|]. intros H. inversion H; congruence.
    + split; [discriminate|]. intros H. inversion H; congruence.
Qed.

Lemma walk_Raise fs abs t dirs e :
  walk fs abs t dirs = Raise e ->
  Forall (fun d => forall c, fs !! (abs, d) <> Some (File c)) dirs ->
  e = OSError "FileNotFoundError" abs t.
Proof.
  induction dirs as [|d ds IH]; simpl; [discriminate|].
  intros H Hno. inversion Hno as [|? ? Hd Hds]; subst.
  destruct (fs !! (abs, d)) as [[|c]|] eqn:E.
  - apply IH; assumption.
  - exfalso. apply (Hd c). reflexivity.
  - congruence.
Qed.

Lemma elem_of_proper_prefixes ps d :
  d ∈ proper_prefixes ps <-> exists k, (1 <= k < length ps)%nat /\ d = take k ps.
Proof.
  unfold proper_prefixes. rewrite list_elem_of_fmap. split.
  - intros (k & -> & Hk). apply elem_of_seq in Hk. exists k. split; [lia | reflexivity].
  - intros (k & Hk & ->). exists k. split; [reflexivity|]. apply elem_of_seq. lia.
Qed.

Lemma proper_prefixes_Forall (P : list string -> Prop) ps :
  Forall P (proper_prefixes ps) <-> forall k, (1 <= k < length ps)%nat -> P (take k ps).
Proof.
  rewrite Forall_forall. split.
  - intros H k Hk. apply H, elem_of_proper_prefixes. eauto.
  - intros H d Hd. apply elem_of_proper_prefixes in Hd as (k & Hk & ->). auto.
Qed.

Lemma walk_prefixes_Ok fs abs ps :
  walk fs abs ps (proper_prefixes ps) = Ok tt
  <-> forall k, (1 <= k < length ps)%nat -> fs !! (abs, take k ps) = Some Dir.
Proof.
  rewrite walk_Ok. apply (proper_prefixes_Forall (fun d => fs !! (abs, d) = Some Dir)).
Qed.

Lemma take_removelast {A} (l : list A) k :
  (k < length l)%nat -> take k (removelast l) = take k l.
Proof.
  intros Hk. rewrite removelast_firstn_len. rewrite take_take. f_equal. lia.
Qed.

Lemma length_removelast {A} (l : list A) : length (removelast l) = pred (length l).
Proof. rewrite removelast_firstn_len, length_take. lia. Qed.

Lemma os_mkdir_clear abs ps fs :
  clear_path fs abs ps ->
  (forall k, (1 <= k < length ps)%nat -> fs !! (abs, take k ps) = Some Dir) ->
  exists fs', mkdir_exist_ok abs ps fs = Ok fs' /\ directories_made fs fs' abs ps
              /\ (os_mkdir abs ps fs = Ok fs' \/
                  exists e, os_mkdir abs ps fs = Raise e /\ is_FileNotFoundError e = false
                            /\ is_dir fs abs ps = true /\ fs' = fs).
Proof.
  intros Hclear Hdirs.
  assert (Hwalk : walk fs abs ps (proper_prefixes ps) = Ok tt).
  { apply walk_prefixes_Ok. exact Hdirs. }
  unfold mkdir_exist_ok, os_mkdir. rewrite Hwalk.
  destruct ps as [|p ps'] using rev_ind.
  - simpl. exists fs. split; [reflexivity|]. split.
    + split; [simpl; intros; lia | reflexivity].
    + right. eexists. repeat split; reflexivity.
  - clear IHps'. set (ps := (ps' ++ [p])%list) in *.
    assert (Hne : lookup_node fs abs ps = fs !! (abs, ps)).
    { unfold ps. destruct ps'; reflexivity. }
    assert (Hlen : length ps = S (length ps')).
    { unfold ps. rewrite length_app. simpl. lia. }
    rewrite Hne. unfold is_dir. rewrite Hne.
    destruct (fs !! (abs, ps)) as [[|c]|] eqn:E.
    + exists fs. split; [reflexivity|]. split.
      * split; [|reflexivity]. intros k Hk.
        destruct (decide (k = length ps)) as [->|Hk'].
        -- rewrite firstn_all. exact E.
        -- apply Hdirs. lia.
      * right. eexists. repeat split; reflexivity.
    + exfalso. apply (Hclear (length ps) c); [lia|]. rewrite firstn_all. exact E.
    + exists (<[(abs, ps) := Dir]> fs). split; [reflexivity|]. split.
      * split.
        -- intros k Hk. destruct (decide (k = length ps)) as [->|Hk'].
           ++ rewrite firstn_all. apply lookup_insert_eq.
           ++ rewrite lookup_insert_ne; [apply Hdirs; lia|].
              intros Heq. injection Heq as Heq. apply (f_equal length) in Heq.
              rewrite length_take in Heq. lia.
        -- intros key Hkey. apply lookup_insert_ne. intros Heq. subst key.
           apply (Hkey (length ps)); [lia|]. rewrite firstn_all. reflexivity.
      * left. reflexivity.
Qed.

Lemma clear_path_removelast fs abs ps :
  clear_path fs abs ps -> clear_path fs abs (removelast ps).
Proof.
  intros H k c Hk. rewrite length_removelast in Hk.
  rewrite take_removelast by lia. apply H. lia.
Qed.

Lemma os_mkdir_walk abs ps fs e :
  clear_path fs abs ps ->
  os_mkdir abs ps fs = Raise e ->
  is_FileNotFoundError e = false ->
  forall k, (1 <= k < length ps)%nat -> fs !! (abs, take k ps) = Some Dir.
Proof.
  intros Hclear Hmk Hfnf. unfold os_mkdir in Hmk.
  destruct (walk fs abs ps (proper_prefixes ps)) as [[]|e'] eqn:W.
  - exact (proj1 (walk_prefixes_Ok _ _ _) W).
  - injection Hmk as <-.
    apply walk_Raise in W; [subst e'; discriminate|].
    apply (proper_prefixes_Forall (fun d => forall c, fs !! (abs, d) <> Some (File c))).
    intros k Hk c. apply Hclear. lia.
Qed.

Lemma os_mkdir_Ok_walk abs ps fs fs' :
  os_mkdir abs ps fs = Ok fs' ->
  forall k, (1 <= k < length ps)%nat -> fs !! (abs, take k ps) = Some Dir.
Proof.
  intros Hmk. unfold os_mkdir in Hmk.
  destruct (walk fs abs ps (proper_prefixes ps)) as [[]|e'] eqn:W; [|discriminate].
  exact (proj1 (walk_prefixes_Ok _ _ _) W).
Qed.

Lemma mkdir_parents_clear n abs ps fs :
  length ps = n ->
  clear_path fs abs ps ->
  exists fs', mkdir_parents n abs ps fs = Ok fs' /\ directories_made fs fs' abs ps.
Proof.
  revert ps fs. induction n as [|m IH]; intros ps fs Hlen Hclear.
  - destruct ps; [|discriminate]. exists fs. split; [reflexivity|].
    split; [simpl; intros; lia | reflexivity].
  - simpl.
    destruct (os_mkdir abs ps fs) as [fs1|e] eqn:Hmk.
    + destruct (os_mkdir_clear abs ps fs Hclear (os_mkdir_Ok_walk _ _ _ _ Hmk))
        as (fs2 & Hok & Hmade & _).
      unfold mkdir_exist_ok in Hok. rewrite Hmk in Hok. injection Hok as <-.
      exists fs1. split; [reflexivity | exact Hmade].
    + destruct (is_FileNotFoundError e) eqn:Hfnf.
      * destruct (IH (removelast ps) fs) as (fs1 & Hrec & Hmade1 & Hframe1).
        { rewrite length_removelast, Hlen. reflexivity. }
        { apply clear_path_removelast, Hclear. }
        rewrite Hrec.
        assert (Hlen' : length (removelast ps) = m)
          by (rewrite length_removelast, Hlen; reflexivity).
        destruct (os_mkdir_clear abs ps fs1) as (fs2 & Hok & (Hmade2 & Hframe2) & _).
        { intros k c Hk. destruct (decide (k = length ps)) as [->|Hk'].
          - rewrite Hframe1; [apply Hclear; lia|].
            intros j Hj Heq. injection Heq as Heq. apply (f_equal length) in Heq.
            rewrite !length_take in Heq. lia.
          - rewrite <- take_removelast by lia. rewrite Hmade1 by lia. discriminate. }
        { intros k Hk. rewrite <- take_removelast by lia. apply Hmade1. lia. }
        exists fs2. split; [exact Hok|]. split; [exact Hmade2|].
        intros key Hkey. rewrite Hframe2 by exact Hkey.
        apply Hframe1. intros k Hk. rewrite take_removelast by lia. apply Hkey. lia.
      * destruct (os_mkdir_clear abs ps fs Hclear (os_mkdir_walk _ _ _ _ Hclear Hmk Hfnf))
          as (fs2 & Hok & Hmade & _).
        unfold mkdir_exist_ok in Hok. rewrite Hmk, Hfnf in Hok.
        exists fs2. split; [exact Hok | exact Hmade].
Qed.

Lemma slash_free_app a b : slash_free (a ++ b) = slash_free a && slash_free b.
Proof.
  induction a as [|c a IH]; simpl; [reflexivity|].
  rewrite IH. apply andb_assoc.
Qed.

Lemma lower_ascii_slash c : Ascii.eqb (lower_ascii c) "/" = Ascii.eqb c "/".
Proof. destruct c as [[] [] [] [] [] [] [] []]; reflexivity. Qed.

Lemma slash_free_lower s : slash_free (Py.lower s) = slash_free s.
Proof.
  induction s as [|c s IH]; simpl; [reflexivity|].
  rewrite lower_ascii_slash, IH. reflexivity.
Qed.

Lemma digit_not_slash n : Ascii.eqb (digit n) "/" = false.
Proof.
  unfold digit. pose proof (Nat.mod_upper_bound n 10) as H.
  destruct (n mod 10)%nat as [|[|[|[|[|[|[|[|[|[|k]]]]]]]]]]; try reflexivity. lia.
Qed.

Lemma slash_free_pad width n : slash_free (pad width n) = true.
Proof.
  revert n. induction width as [|w IH]; intros n; [reflexivity|].
  cbn [pad]. rewrite slash_free_app, IH. cbn [slash_free andb].
  rewrite digit_not_slash. reflexivity.
Qed.

Lemma slash_free_timestamp dt : slash_free (strftime "%Y%m%d_%H%M%S" dt) = true.
Proof.
  cbn [strftime Ascii.eqb Bool.eqb directive].
  repeat first [ rewrite slash_free_app
               | rewrite slash_free_pad
               | progress cbn [slash_free andb negb Ascii.eqb Bool.eqb] ].
  reflexivity.
Qed.

Lemma string_length_app a b : String.length (a ++ b) = (String.length a + String.length b)%nat.
Proof. induction a as [|c a IH]; simpl; [reflexivity | rewrite IH; reflexivity]. Qed.

Lemma pad_length width n : String.length (pad width n) = width.
Proof.
  revert n. induction width as [|w IH]; intros n; [reflexivity|].
  cbn [pad]. rewrite string_length_app, IH. cbn [String.length]. lia.
Qed.

Lemma timestamp_length dt : String.length (strftime "%Y%m%d_%H%M%S" dt) = 15%nat.
Proof.
  cbn [strftime Ascii.eqb Bool.eqb directive].
  repeat first [ rewrite string_length_app
               | rewrite pad_length
               | progress cbn [String.length] ].
  reflexivity.
Qed.

Lemma split_on_slash_free s : slash_free s = true -> split_on "/" s = [s].
Proof.
  induction s as [|c s IH]; simpl; [reflexivity|].
  intros H. apply andb_true_iff in H as [Hc Hs]. apply negb_true_iff in Hc.
  rewrite Hc, (IH Hs). reflexivity.
Qed.

Lemma is_component_long s : (2 <= String.length s)%nat -> is_component s = true.
Proof.
  destruct s as [|c [|c' s]]; simpl; try lia.
  intros _. unfold is_component. cbn [String.eqb orb].
  destruct (Ascii.eqb c "."); reflexivity.
Qed.

Lemma joinpath_name dir name :
  slash_free name = true -> (2 <= String.length name)%nat ->
  joinpath dir name = {| absolute := absolute dir; parts := parts dir ++ [name] |}.
Proof.
  intros Hfree Hlen. unfold joinpath, Path_of.
  rewrite (split_on_slash_free _ Hfree). simpl List.filter.
  rewrite (is_component_long _ Hlen).
  destruct name as [|c name]; [simpl in Hlen; lia|].
  simpl in Hfree. apply andb_true_iff in Hfree as [Hc _]. apply negb_true_iff in Hc.
  simpl. rewrite Hc. reflexivity.
Qed.

Lemma snapshot_file_name_plain symbol t :
  slash_free symbol = true ->
  slash_free (snapshot_file_name symbol t) = true
  /\ (2 <= String.length (snapshot_file_name symbol t))%nat.
Proof.
  intros H. unfold snapshot_file_name. split.
  - rewrite !slash_free_app, slash_free_lower, H, slash_free_timestamp. reflexivity.
  - rewrite !string_length_app, timestamp_length. simpl. lia.
Qed.

Lemma save_snapshot_run data symbol output_dir w :
  save_snapshot data symbol output_dir w
  = let trace := (w_trace w ++ [EvSave symbol output_dir])%list in
    match Path_mkdir output_dir (w_fs w) with
    | Raise e =>
        (Raise e, mkWorld (w_clock w) (w_reads w) (w_fs w) (w_heap w) trace
                          (w_stdout w) (w_log w))
    | Ok fs1 =>
        let filename :=
          joinpath output_dir (snapshot_file_name symbol (w_clock w (w_reads w))) in
        match write_file filename (Document (dump data)) fs1 with
        | Raise e =>
            (Raise e, mkWorld (w_clock w) (S (w_reads w)) fs1 (w_heap w) trace
                              (w_stdout w) (w_log w))
        | Ok fs2 =>
            (Ok filename,
             mkWorld (w_clock w) (S (w_reads w)) fs2 (w_heap w) trace (w_stdout w)
                     (w_log w ++ [("INFO", "Snapshot saved: " ++ Path_str filename)]))
        end
    end.
Proof.
  unfold save_snapshot, mbind, M_bind, bind, emit, on_fs, now, log, ret. simpl.
  destruct (Path_mkdir output_dir (w_fs w)) as [fs1|e]; simpl; [|reflexivity].
  unfold snapshot_file_name.
  destruct (write_file _ _ fs1) as [fs2|e]; reflexivity.
Qed.

Lemma load_snapshot_run filepath w :
  load_snapshot filepath w
  = match read_file filepath (w_fs w) with
    | Ok (Document j) => (Ok (load j), w)
    | Ok (NotJson raw) => (Raise (JSONDecodeError raw), w)
    | Raise e => (Raise e, w)
    end.
Proof.
  unfold load_snapshot, mbind, M_bind, bind.
  destruct (read_file filepath (w_fs w)) as [[j|raw]|e]; reflexivity.
Qed.

Lemma walk_insert_other fs abs t dirs key n :
  (forall d, d ∈ dirs -> key <> (abs, d)) ->
  walk (<[key := n]> fs) abs t dirs = walk fs abs t dirs.
Proof.
  induction dirs as [|d ds IH]; intros H; simpl; [reflexivity|].
  rewrite lookup_insert_ne by (apply H; left).
  destruct (fs !! (abs, d)) as [[|c]|]; try reflexivity.
  apply IH. intros d' Hd'. apply H. right. exact Hd'.
Qed.

Lemma read_after_write p c fs fs' :
  write_file p c fs = Ok fs' -> read_file p fs' = Ok c.
Proof.
  unfold write_file, read_file.
  destruct (walk fs (absolute p) (parts p) (proper_prefixes (parts p))) as [[]|e] eqn:W;
    [|discriminate].
  destruct (parts p) as [|a ps] eqn:Hparts.
  { simpl. discriminate. }
  rewrite <- Hparts in *.
  assert (Hnode : lookup_node fs (absolute p) (parts p) = fs !! (absolute p, parts p))
    by (rewrite Hparts; reflexivity).
  assert (Hnode' : lookup_node fs' (absolute p) (parts p) = fs' !! (absolute p, parts p))
    by (rewrite Hparts; reflexivity).
  rewrite Hnode, Hnode'. intros H.
  assert (Hfs : fs' = <[(absolute p, parts p) := File c]> fs).
  { destruct (fs !! (absolute p, parts p)) as [[|c']|]; congruence. }
  subst fs'. rewrite walk_insert_other, W, lookup_insert_eq; [reflexivity|].
  intros d Hd Heq. injection Heq as Heq.
  apply elem_of_proper_prefixes in Hd as (k & Hk & ->).
  apply (f_equal length) in Heq. rewrite length_take in Heq. lia.
Qed.

(** ** The snapshot store *)

Lemma sample_snapshot_created :
  fst (create_market_snapshot sample_source "ETHUSDT" None None sample_world)
  = Ok sample_snapshot.
Proof. vm_compute. reflexivity. Qed.

Lemma sample_snapshot_conforms : conforms_to_schema sample_snapshot = true.
Proof. vm_compute. reflexivity. Qed.

Lemma save_then_load (d : value) (symbol : string) (output_dir location : Path)
      (w w' : world) :
  save_snapshot d symbol output_dir w = (Ok location, w') ->
  load_snapshot location w' = (Ok (load (dump d)), w').
Proof.
  rewrite save_snapshot_run. cbv zeta.
  destruct (Path_mkdir output_dir (w_fs w)) as [fs1|e]; [|discriminate].
  destruct (write_file _ _ fs1) as [fs2|e] eqn:Hw; [|discriminate].
  intros H. injection H as <- <-.
  rewrite load_snapshot_run. cbn [w_fs].
  rewrite (read_after_write _ _ _ _ Hw). reflexivity.
Qed.

(** C3, as the code has it. A document saved and loaded again comes back
    with every tuple turned into a list of the same items, and every other
    value as it was; a document with no tuple in it comes back equal. *)
Theorem load_save_roundtrip (d : value) (symbol : string) (output_dir location : Path)
        (w w' : world) :
  well_formed d = true ->
  save_snapshot d symbol output_dir w = (Ok location, w') ->
  load_snapshot location w' = (Ok (if tuple_free d then d else listify d), w').
Proof.
  intros Hwf Hsave. rewrite (save_then_load _ _ _ _ _ _ Hsave), (load_dump _ Hwf).
  destruct (tuple_free d) eqn:Ht; [|reflexivity].
  rewrite (listify_tuple_free _ Ht). reflexivity.
Qed.

Lemma load_save_roundtrip_witness :
  well_formed sample_snapshot = true
  /\ save_snapshot sample_snapshot "ETHUSDT" SNAPSHOT_DIR sample_world
     = (Ok sample_location, saved_world)
  /\ load_snapshot sample_location saved_world
     = (Ok (if tuple_free sample_snapshot then sample_snapshot
            else listify sample_snapshot), saved_world).
Proof.
  split; [by_evaluation|]. split; [by_evaluation|].
  refine (load_save_roundtrip sample_snapshot "ETHUSDT" SNAPSHOT_DIR sample_location
                              sample_world saved_world _ _);
    by_evaluation.
Defined.

(** C3 fails on the document the assembler itself returns: its price levels
    are tuples, and they come back from the file as lists. *)
Lemma roundtrip_turns_tuples_into_lists :
  fst (create_market_snapshot sample_source "ETHUSDT" None None sample_world)
  = Ok sample_snapshot
  /\ fst (save_snapshot sample_snapshot "ETHUSDT" SNAPSHOT_DIR sample_world)
     = Ok sample_location
  /\ exists loaded,
      fst (load_snapshot sample_location saved_world) = Ok loaded
      /\ loaded <> sample_snapshot
      /\ getpath ["depth_analysis"; "top_bids"] sample_snapshot
         = Some (VList [VTuple [VFloat 100; VFloat 2]; VTuple [VFloat 99; VFloat 3]])
      /\ getpath ["depth_analysis"; "top_bids"] loaded
         = Some (VList [VList [VFloat 100; VFloat 2]; VList [VFloat 99; VFloat 3]]).
Proof.
  split; [by_evaluation|]. split; [by_evaluation|].
  exists (listify sample_snapshot). split; [by_evaluation|].
  split; [|split; by_evaluation].
  intros H. apply (f_equal (getpath ["depth_analysis"; "top_bids"])) in H.
  vm_compute in H. discriminate H.
Qed.





Lemma take_snoc_le {A} (l : list A) (x : A) (k : nat) :
  (k <= length l)%nat -> take k (l ++ [x]) = take k l.
Proof. intros H. apply take_app_le. exact H. Qed.

(** C7, as the code has it. For a symbol with no path separator, a
    directory none of whose components is taken by a regular file, and a
    target that is not a directory, [save_snapshot] returns
    [<directory>/<lowercase symbol>_<YYYYMMDD_HHMMSS>.json], the timestamp
    being the time [save_snapshot] itself reads from the clock; afterwards
    that file holds the document, the directory and every directory above it
    exist, and nothing else on disk has changed. *)
Theorem save_snapshot_location (data : value) (symbol : string) (output_dir : Path)
        (w : world) :
  let name := (Py.lower symbol ++ "_"
               ++ strftime "%Y%m%d_%H%M%S" (w_clock w (w_reads w)) ++ ".json")%string in
  let target := (parts output_dir ++ [name])%list in
  slash_free symbol = true ->
  clear_path (w_fs w) (absolute output_dir) (parts output_dir) ->
  w_fs w !! (absolute output_dir, target) <> Some Dir ->
  exists w',
    save_snapshot data symbol output_dir w
    = (Ok {| absolute := absolute output_dir; parts := target |}, w')
    /\ w_fs w' !! (absolute output_dir, target) = Some (File (Document (dump data)))
    /\ (forall k, (1 <= k <= length (parts output_dir))%nat ->
                  w_fs w' !! (absolute output_dir, take k (parts output_dir)) = Some Dir)
    /\ (forall key,
           key <> (absolute output_dir, target) ->
           (forall k, (1 <= k <= length (parts output_dir))%nat ->
                      key <> (absolute output_dir, take k (parts output_dir))) ->
           w_fs w' !! key = w_fs w !! key).
Proof.
  intros name target Hsym Hclear Htarget.
  destruct (mkdir_parents_clear (length (parts output_dir)) (absolute output_dir)
              (parts output_dir) (w_fs w) eq_refl Hclear) as (fs1 & Hmk & Hdirs & Hframe).
  destruct (snapshot_file_name_plain symbol (w_clock w (w_reads w)) Hsym)
    as [Hfree Hlen].
  fold name in Hfree, Hlen. change (snapshot_file_name symbol (w_clock w (w_reads w)))
    with name in Hfree, Hlen.
  rewrite save_snapshot_run. cbv zeta. unfold Path_mkdir. rewrite Hmk.
  change (snapshot_file_name symbol (w_clock w (w_reads w))) with name.
  rewrite (joinpath_name _ _ Hfree Hlen). fold target.
  assert (Hlt : length target = S (length (parts output_dir))).
  { unfold target. rewrite length_app. simpl. lia. }
  assert (Hnot_prefix : forall k, (k <= length (parts output_dir))%nat ->
                                  (absolute output_dir, target)
                                  <> (absolute output_dir, take k (parts output_dir))).
  { intros k Hk Heq. injection Heq as Heq. apply (f_equal length) in Heq.
    rewrite length_take in Heq. lia. }
  assert (Hwalk : walk fs1 (absolute output_dir) target (proper_prefixes target) = Ok tt).
  { apply walk_prefixes_Ok. intros k Hk. unfold target.
    rewrite take_snoc_le by lia. apply Hdirs. lia. }
  assert (Hnode : lookup_node fs1 (absolute output_dir) target
                  = w_fs w !! (absolute output_dir, target)).
  { destruct target as [|a rest] eqn:E; [simpl in Hlt; lia|].
    cbn [lookup_node]. apply Hframe. intros k Hk. apply Hnot_prefix. lia. }
  unfold write_file. cbn [absolute parts]. rewrite Hwalk, Hnode.
  eexists. split.
  - destruct (w_fs w !! (absolute output_dir, target)) as [[|c]|] eqn:E;
      [congruence | reflexivity | reflexivity].
  - cbn [w_fs]. split; [apply lookup_insert_eq|]. split.
    + intros k Hk. rewrite lookup_insert_ne by (apply Hnot_prefix; lia).
      apply Hdirs. exact Hk.
    + intros key Hkey Hother. rewrite lookup_insert_ne by congruence.
      apply Hframe. exact Hother.
Qed.

Lemma save_snapshot_location_witness :
  slash_free "ETHUSDT" = true
  /\ exists w',
      save_snapshot sample_snapshot "ETHUSDT" SNAPSHOT_DIR sample_world
      = (Ok sample_location, w')
      /\ w_fs w' !! (false, ["snapshots"; "ethusdt_20240102_030405.json"])
         = Some (File (Document (dump sample_snapshot)))
      /\ w_fs w' !! (false, ["snapshots"]) = Some Dir.
Proof.
  split; [reflexivity|].
  assert (Hclear : clear_path (w_fs sample_world) (absolute SNAPSHOT_DIR)
                              (parts SNAPSHOT_DIR)).
  { intros k c _. simpl. rewrite lookup_empty. discriminate. }
  assert (Htarget : w_fs sample_world
                      !! (absolute SNAPSHOT_DIR,
                          (parts SNAPSHOT_DIR
                           ++ [(Py.lower "ETHUSDT" ++ "_"
                                ++ strftime "%Y%m%d_%H%M%S"
                                     (w_clock sample_world (w_reads sample_world))
                                ++ ".json")%string])%list)
                    <> Some Dir).
  { simpl. rewrite lookup_empty. discriminate. }
  destruct (save_snapshot_location sample_snapshot "ETHUSDT" SNAPSHOT_DIR sample_world
              eq_refl Hclear Htarget) as (w' & Hsave & Hfile & Hdirs & _).
  exists w'. split; [exact Hsave|]. split; [exact Hfile|].
  apply (Hdirs 1%nat). simpl. lia.
Defined.

(** C7 fails on the timestamp of the name: the same document, saved under
    the same directory and symbol half a minute later, goes to another file;
    and the file the assembler writes is named after 03:04:06 while the
    document in it says it was created at 03:04:05. *)
Lemma file_name_follows_the_clock :
  fst (save_snapshot sample_snapshot "ETHUSDT" SNAPSHOT_DIR sample_world)
  = Ok {| absolute := false; parts := ["snapshots"; "ethusdt_20240102_030405.json"] |}
  /\ fst (save_snapshot sample_snapshot "ETHUSDT" SNAPSHOT_DIR later_world)
     = Ok {| absolute := false; parts := ["snapshots"; "ethusdt_20240102_030435.json"] |}
  /\ getitem "timestamp" sample_snapshot = Some (VStr "2024-01-02T03:04:05")
  /\ fst (create_market_snapshot sample_source "ETHUSDT" None None sample_world)
     = Ok sample_snapshot
  /\ w_fs (snd (create_market_snapshot sample_source "ETHUSDT" None None sample_world))
       !! (false, ["snapshots"; "ethusdt_20240102_030406.json"])
     = Some (File (Document (dump sample_snapshot)))
  /\ w_fs (snd (create_market_snapshot sample_source "ETHUSDT" None None sample_world))
       !! (false, ["snapshots"; "ethusdt_20240102_030405.json"])
     = None.
Proof. repeat split; by_evaluation. Qed.

(** ** Running computations *)

Lemma bind_run {A B} (m : M A) (k : A -> M B) (w : world) :
  (m ≫= k) w = match m w with
               | (Ok a, w') => k a w'
               | (Raise e, w') => (Raise e, w')
               end.
Proof. reflexivity. Qed.

Lemma request_run {A} (c : nat) (op : operation) (symbol : string) (answer : result A)
      (w : world) :
  request c op symbol answer w = (answer, after_request c op symbol w).
Proof. reflexivity. Qed.

Lemma connect_idempotent (b : BinanceClient) : connect (connect b) = connect b.
Proof. destruct b as [url [h|]]; reflexivity. Qed.

Lemma alter_connect_twice (c : nat) (heap : list BinanceClient) :
  alter connect c (alter connect c heap) = alter connect c heap.
Proof.
  rewrite list_alter_alter_eq. apply list_alter_ext; [|reflexivity].
  intros b _. apply connect_idempotent.
Qed.

Lemma fetched_first c op symbol w log :
  fetched_only c w (after_request c op symbol (set_log log w)).
Proof.
  repeat split. exists [EvRequest c op symbol]. split; reflexivity.
Qed.

Lemma fetched_next c op symbol w w0 :
  fetched_only c w w0 -> fetched_only c w (after_request c op symbol w0).
Proof.
  intros (Hfs & Hheap & Hout & evs & Htrace & Hevs).
  split; [exact Hfs|]. split; [|split; [exact Hout|]].
  - cbn [after_request w_heap]. rewrite Hheap. apply alter_connect_twice.
  - exists (evs ++ [EvRequest c op symbol])%list. split.
    + cbn [after_request w_trace]. rewrite Htrace, app_assoc. reflexivity.
    + rewrite forallb_app, Hevs. reflexivity.
Qed.

(** One fetch of the assembler: either it fails, and the failure is the
    first one, or the run goes on. *)
Ltac fetch_step H :=
  rewrite bind_run, request_run;
  lazymatch goal with
  | |- context [match ?answer with Ok _ => _ | Raise _ => _ end] =>
      destruct answer as [?|?];
      [ cbn [failure omap list_omap id] in H
      | cbn [failure omap list_omap id head] in H; injection H as <-;
        eexists; split; [reflexivity|];
        repeat first [apply fetched_first | apply fetched_next] ]
  end.

Lemma snapshot_body_fetch_failure src symbol c out w e :
  first_failure src symbol = Some e ->
  exists w', snapshot_body src symbol c out w = (Raise e, w') /\ fetched_only c w w'.
Proof.
  unfold first_failure, fetch_failures. intros H.
  unfold snapshot_body, get_ticker_price, get_ticker_24h, get_order_book,
    get_recent_trades, get_avg_price, get_book_ticker, get_klines.
  rewrite bind_run. cbn [log].
  do 9 fetch_step H.
  discriminate H.
Qed.

Lemma try_finally_run {A} (body : M A) (fin : M unit) (w : world) :
  try_finally body fin w
  = match fin (snd (body w)) with
    | (Ok _, w'') => (fst (body w), w'')
    | (Raise e, w'') => (Raise e, w'')
    end.
Proof. unfold try_finally. destruct (body w) as [r w']. reflexivity. Qed.

Lemma create_market_snapshot_supplied src symbol c out w :
  create_market_snapshot src symbol (Some c) out w
  = snapshot_body src symbol c (default SNAPSHOT_DIR out) w.
Proof.
  unfold create_market_snapshot. rewrite bind_run. cbn [ret fst snd].
  rewrite try_finally_run. cbn [ret].
  destruct (snapshot_body src symbol c (default SNAPSHOT_DIR out) w); reflexivity.
Qed.

Lemma create_market_snapshot_own src symbol out w :
  create_market_snapshot src symbol None out w
  = let own := length (w_heap w) in
    let started := set_heap (w_heap w ++ [mkClient BINANCE_BASE_URL None]) w in
    let ran := snapshot_body src symbol own (default SNAPSHOT_DIR out) started in
    (fst ran,
     set_heap (alter disconnect own (w_heap (snd ran)))
              (set_trace (w_trace (snd ran) ++ [EvClose own]) (snd ran))).
Proof.
  unfold create_market_snapshot. rewrite bind_run.
  unfold BinanceClient_new at 1. rewrite bind_run. cbn [ret fst snd].
  rewrite try_finally_run. reflexivity.
Qed.

Lemma is_request_not_save evs :
  forallb is_request evs = true -> forallb (fun ev => negb (is_save ev)) evs = true.
Proof.
  intros H. rewrite forallb_forall in *. intros ev Hev.
  specialize (H ev Hev). destruct ev; try discriminate; reflexivity.
Qed.

Lemma is_request_not_close evs :
  forallb is_request evs = true -> forallb (fun ev => negb (is_close ev)) evs = true.
Proof.
  intros H. rewrite forallb_forall in *. intros ev Hev.
  specialize (H ev Hev). destruct ev; try discriminate; reflexivity.
Qed.

(** ** The assembler *)

(** A successful run of the assembler: every fetch and every derived figure
    came out, and the document is made of them, section by section. *)
Lemma snapshot_body_success src symbol c out w snap w' :
  snapshot_body src symbol c out w = (Ok snap, w') ->
  exists ticker_price ticker_24h order_book recent_trades avg_price book_ticker
         klines_1h klines_4h klines_1d buy_sell bid_ask spread_pct avg_size created,
    src_ticker_price src symbol = Ok ticker_price
    /\ src_ticker_24h src symbol = Ok ticker_24h
    /\ src_order_book src symbol 20 = Ok order_book
    /\ src_recent_trades src symbol 100 = Ok recent_trades
    /\ src_avg_price src symbol = Ok avg_price
    /\ src_book_ticker src symbol = Ok book_ticker
    /\ src_klines src symbol "1h" 24 = Ok klines_1h
    /\ src_klines src symbol "4h" 42 = Ok klines_4h
    /\ src_klines src symbol "1d" 30 = Ok klines_1d
    /\ buy_sell_ratio recent_trades = Ok buy_sell
    /\ bid_ask_ratio order_book = Ok bid_ask
    /\ spread_percent order_book = Ok spread_pct
    /\ avg_trade_size recent_trades = Ok avg_size
    /\ created = w_clock w (w_reads w)
    /\ snap = VDict [("timestamp", VStr (isoformat created));
                     ("symbol", VStr symbol);
                     ("summary", summary_section ticker_price avg_price ticker_24h);
                     ("book_ticker", book_ticker_dict book_ticker);
                     ("spread", spread_section (spread order_book) spread_pct);
                     ("depth_analysis", depth_section order_book bid_ask);
                     ("trade_analysis", trade_section recent_trades buy_sell avg_size);
                     ("klines", klines_section klines_1h klines_4h klines_1d)].
Proof.
  intros H.
  unfold snapshot_body, get_ticker_price, get_ticker_24h, get_order_book,
    get_recent_trades, get_avg_price, get_book_ticker, get_klines in H.
  rewrite bind_run in H. cbn [log] in H.
  do 9 (rewrite bind_run, request_run in H;
        lazymatch type of H with
        | context [match ?answer with Ok _ => _ | Raise _ => _ end] =>
            destruct answer as [?|?] eqn:?; [|discriminate H]
        end).
  do 3 (rewrite bind_run in H; unfold lift at 1 in H;
        lazymatch type of H with
        | context [match ?answer with Ok _ => _ | Raise _ => _ end] =>
            destruct answer as [?|?] eqn:?; [|discriminate H]
        end).
  rewrite bind_run in H. cbn [now] in H.
  rewrite bind_run in H. unfold lift at 1 in H.
  lazymatch type of H with
  | context [match ?answer with Ok _ => _ | Raise _ => _ end] =>
      destruct answer as [?|?] eqn:?; [|discriminate H]
  end.
  rewrite bind_run in H.
  lazymatch type of H with
  | context [match ?step with (_, _) => _ end] =>
      destruct step as [[?|?] ?]; [|discriminate H]
  end.
  cbn [ret] in H. injection H as <- _.
  do 14 eexists. repeat (split; [first [reflexivity | eassumption]|]).
  reflexivity.
Qed.

(** C1, as the code has it. When some fetch fails, [create_market_snapshot]
    ends with the very error of the first fetch that failed (no
    [DataUnavailableError] is made of it), [save_snapshot] is not called, and
    the disk is as it was. *)
Theorem fetch_failure_aborts (src : MarketDataSource) (symbol : string)
        (client : option nat) (output_dir : option Path) (w : world) (e : exn) :
  first_failure src symbol = Some e ->
  fst (create_market_snapshot src symbol client output_dir w) = Raise e
  /\ w_fs (snd (create_market_snapshot src symbol client output_dir w)) = w_fs w
  /\ exists evs,
      w_trace (snd (create_market_snapshot src symbol client output_dir w))
      = (w_trace w ++ evs)%list
      /\ forallb (fun ev => negb (is_save ev)) evs = true.
Proof.
  intros H. destruct client as [c|].
  - rewrite create_market_snapshot_supplied.
    destruct (snapshot_body_fetch_failure src symbol c (default SNAPSHOT_DIR output_dir)
                w e H) as (w' & -> & Hfs & _ & _ & evs & Htrace & Hevs).
    cbn [fst snd]. split; [reflexivity|]. split; [exact Hfs|].
    exists evs. split; [exact Htrace | apply is_request_not_save, Hevs].
  - rewrite create_market_snapshot_own. cbv zeta.
    destruct (snapshot_body_fetch_failure src symbol (length (w_heap w))
                (default SNAPSHOT_DIR output_dir)
                (set_heap (w_heap w ++ [mkClient BINANCE_BASE_URL None]) w) e H)
      as (w' & -> & Hfs & _ & _ & evs & Htrace & Hevs).
    cbn [fst snd set_heap set_trace w_fs w_trace]. split; [reflexivity|].
    split; [exact Hfs|].
    exists (evs ++ [EvClose (length (w_heap w))])%list. split.
    + rewrite Htrace. cbn [set_heap w_trace]. rewrite app_assoc. reflexivity.
    + rewrite forallb_app, (is_request_not_save _ Hevs). reflexivity.
Qed.

Lemma fetch_failure_aborts_witness :
  first_failure depth_down_source "ETHUSDT" = Some connect_error
  /\ fst (create_market_snapshot depth_down_source "ETHUSDT" None None sample_world)
     = Raise connect_error
  /\ w_fs (snd (create_market_snapshot depth_down_source "ETHUSDT" None None sample_world))
     = w_fs sample_world.
Proof.
  split; [reflexivity|].
  destruct (fetch_failure_aborts depth_down_source "ETHUSDT" None None sample_world
              connect_error eq_refl) as (Hr & Hfs & _).
  split; [exact Hr | exact Hfs].
Defined.

(** C1 fails on the class of the error: with the depth fetch failing on a
    connection error, the assembler raises that [ConnectError], not a
    [DataUnavailableError]. *)
Lemma fetch_error_is_not_wrapped :
  src_order_book depth_down_source "ETHUSDT" 20 = Raise connect_error
  /\ fst (create_market_snapshot depth_down_source "ETHUSDT" None None sample_world)
     = Raise (Exception "ConnectError" "All connection attempts failed")
  /\ (forall r, fst (create_market_snapshot depth_down_source "ETHUSDT" None None
                       sample_world) = Raise r ->
                exn_class r <> "DataUnavailableError").
Proof.
  split; [reflexivity|]. split; [by_evaluation|].
  intros r H.
  assert (Hr : fst (create_market_snapshot depth_down_source "ETHUSDT" None None
                      sample_world) = Raise connect_error) by by_evaluation.
  rewrite Hr in H. injection H as <-. discriminate.
Qed.

(** ** The life of the client *)

Lemma client_kept_same c w w0 w' :
  client_kept c w w0 ->
  w_heap w' = w_heap w0 ->
  w_trace w' = w_trace w0 ->
  client_kept c w w'.
Proof.
  intros (Hh & evs & Ht & He) Hh' Ht'. split; [rewrite Hh'; exact Hh|].
  exists evs. rewrite Ht'. split; [exact Ht | exact He].
Qed.

Lemma client_kept_event c w w0 w' ev :
  client_kept c w w0 ->
  w_heap w' = w_heap w0 ->
  w_trace w' = (w_trace w0 ++ [ev])%list ->
  is_close ev = false ->
  client_kept c w w'.
Proof.
  intros (Hh & evs & Ht & He) Hh' Ht' Hev. split; [rewrite Hh'; exact Hh|].
  exists (evs ++ [ev])%list. split.
  - rewrite Ht', Ht, app_assoc. reflexivity.
  - rewrite forallb_app, He. cbn. rewrite Hev. reflexivity.
Qed.

Lemma fetched_only_kept c w w' : fetched_only c w w' -> client_kept c w w'.
Proof.
  intros (_ & Hh & _ & evs & Ht & He). split; [exact Hh|].
  exists evs. split; [exact Ht | apply is_request_not_close, He].
Qed.

Lemma keeps_ret c {A} (a : A) : keeps_client c (ret a).
Proof. intros w w0 H. exact H. Qed.

Lemma keeps_lift c {A} (r : result A) : keeps_client c (lift r).
Proof. intros w w0 H. exact H. Qed.

Lemma keeps_bind c {A B} (m : M A) (k : A -> M B) :
  keeps_client c m -> (forall a, keeps_client c (k a)) -> keeps_client c (m ≫= k).
Proof.
  intros Hm Hk w w0 H. rewrite bind_run.
  specialize (Hm w w0 H). destruct (m w0) as [[a|e] w1]; cbn [snd] in *.
  - apply Hk, Hm.
  - exact Hm.
Qed.

Lemma keeps_now c : keeps_client c now.
Proof. intros w w0 H. apply (client_kept_same c w w0); [exact H | reflexivity..]. Qed.

Lemma keeps_log c level msg : keeps_client c (log level msg).
Proof. intros w w0 H. apply (client_kept_same c w w0); [exact H | reflexivity..]. Qed.

Lemma keeps_print c line : keeps_client c (print line).
Proof. intros w w0 H. apply (client_kept_same c w w0); [exact H | reflexivity..]. Qed.

Lemma keeps_request c {A} op symbol (answer : result A) :
  keeps_client c (request c op symbol answer).
Proof.
  intros w w0 (Hh & evs & Ht & He). rewrite request_run. cbn [snd].
  split.
  - cbn [after_request w_heap]. rewrite Hh. apply alter_connect_twice.
  - exists (evs ++ [EvRequest c op symbol])%list. split.
    + cbn [after_request w_trace]. rewrite Ht, app_assoc. reflexivity.
    + rewrite forallb_app, He. reflexivity.
Qed.

Lemma keeps_save_snapshot c data symbol output_dir :
  keeps_client c (save_snapshot data symbol output_dir).
Proof.
  intros w w0 H. rewrite save_snapshot_run. cbv zeta.
  destruct (Path_mkdir output_dir (w_fs w0)) as [fs1|e].
  - destruct (write_file _ _ fs1) as [fs2|e];
      apply (client_kept_event c w w0 _ (EvSave symbol output_dir)); auto.
  - apply (client_kept_event c w w0 _ (EvSave symbol output_dir)); auto.
Qed.

Create HintDb keeps discriminated.
#[local] Hint Resolve keeps_ret keeps_lift keeps_now keeps_log keeps_print
  keeps_request keeps_save_snapshot : keeps.

(** A computation of the pipeline keeps the client: go through the binds,
    the steps are in the hint base. *)
Ltac keeps_steps :=
  repeat first [ apply keeps_bind; [solve [auto with keeps] | intros ?]
               | solve [auto with keeps] ].

Lemma snapshot_body_keeps src symbol c out w :
  client_kept c w (snd (snapshot_body src symbol c out w)).
Proof.
  unfold snapshot_body, get_ticker_price.
  rewrite bind_run. cbn [log]. rewrite bind_run, request_run.
  assert (Hfirst : client_kept c w
            (after_request c OpTickerPrice symbol
               (set_log (w_log w ++ [("INFO", "Creating market snapshot for " ++ symbol)])
                        w))).
  { apply fetched_only_kept, fetched_first. }
  destruct (src_ticker_price src symbol) as [tp|e]; [|exact Hfirst].
  revert Hfirst. generalize (after_request c OpTickerPrice symbol
               (set_log (w_log w ++ [("INFO", "Creating market snapshot for " ++ symbol)])
                        w)).
  intros w0 Hfirst.
  refine ((_ : keeps_client c _) w w0 Hfirst).
  unfold get_ticker_24h, get_order_book, get_recent_trades, get_avg_price,
    get_book_ticker, get_klines.
  keeps_steps.
Qed.

Lemma alter_last {A} (f : A -> A) (l : list A) (x : A) :
  alter f (length l) (l ++ [x])%list = (l ++ [f x])%list.
Proof. induction l as [|a l IH]; simpl; [reflexivity|]. f_equal. exact IH. Qed.

(** C10. Without a client of the caller, the assembler makes one of its own
    and closes it whatever the outcome: the last call of the run is its
    [close], it ends with no connection, and the clients that existed are
    untouched. With a client of the caller, the run makes no [close] call
    at all on any outcome: the client holds its connection afterwards and
    the other clients are as they were. *)
Theorem client_lifetime (src : MarketDataSource) (symbol : string)
        (output_dir : option Path) (w : world) :
  (let run := create_market_snapshot src symbol None output_dir w in
   let own := length (w_heap w) in
   w_heap (snd run) = (w_heap w ++ [mkClient BINANCE_BASE_URL None])%list
   /\ exists evs,
       w_trace (snd run) = (w_trace w ++ evs ++ [EvClose own])%list
       /\ forallb (fun ev => negb (is_close ev)) evs = true)
  /\ (forall c : nat,
        let run := create_market_snapshot src symbol (Some c) output_dir w in
        w_heap (snd run) = alter connect c (w_heap w)
        /\ w_heap (snd run) !! c = connect <$> w_heap w !! c
        /\ (forall b, _client (connect b) <> None)
        /\ exists evs,
            w_trace (snd run) = (w_trace w ++ evs)%list
            /\ forallb (fun ev => negb (is_close ev)) evs = true).
Proof.
  split.
  - cbv zeta. rewrite create_market_snapshot_own. cbv zeta.
    destruct (snapshot_body_keeps src symbol (length (w_heap w))
                (default SNAPSHOT_DIR output_dir)
                (set_heap (w_heap w ++ [mkClient BINANCE_BASE_URL None]) w))
      as (Hh & evs & Ht & He).
    cbn [snd set_heap set_trace w_heap w_trace] in *. split.
    + rewrite Hh, list_alter_alter_eq, alter_last. reflexivity.
    + exists evs. split; [|exact He]. rewrite Ht, app_assoc. reflexivity.
  - intros c. cbv zeta. rewrite create_market_snapshot_supplied.
    destruct (snapshot_body_keeps src symbol c (default SNAPSHOT_DIR output_dir) w)
      as (Hh & evs & Ht & He).
    split; [exact Hh|]. split; [rewrite Hh; apply list_lookup_alter_eq|].
    split; [intros [url [h|]]; discriminate|].
    exists evs. split; [exact Ht | exact He].
Qed.

(** ** The command line *)

Lemma try_except_run {A} (body : M A) (handler : exn -> M A) (w : world) :
  try_except body handler w
  = match body w with
    | (Ok a, w') => (Ok a, w')
    | (Raise e, w') => if is_Exception e then handler e w' else (Raise e, w')
    end.
Proof. reflexivity. Qed.

Lemma ping_run src c w :
  ping src c w
  = (match src_ping src with
     | Ok _ => Ok true
     | Raise e => if is_Exception e then Ok false else Raise e
     end, after_request c OpPing "" w).
Proof.
  unfold ping. rewrite try_except_run, bind_run, request_run.
  destruct (src_ping src) as [[]|e]; [reflexivity|].
  destruct (is_Exception e); reflexivity.
Qed.

Lemma print_header_Ok symbol mode w :
  exists w', print_header symbol mode w = (Ok tt, w') /\ w_heap w' = w_heap w.
Proof. eexists. split; reflexivity. Qed.

Lemma cmd_snapshot_check_failed src format symbol w cls msg :
  src_ping src = Raise (Exception cls msg) ->
  exists w', cmd_snapshot src format symbol w = (Ok tt, w')
             /\ last (w_stdout w') = Some cannot_connect.
Proof.
  intros Hping. unfold cmd_snapshot.
  rewrite bind_run.
  destruct (print_header_Ok symbol "snapshot" w) as (w1 & -> & _).
  rewrite bind_run. unfold BinanceClient_new at 1.
  rewrite bind_run, try_finally_run.
  unfold cmd_snapshot_body at 1 2. rewrite !bind_run, !ping_run, Hping.
  cbn [is_Exception negb]. rewrite !bind_run. cbn [print fst snd ret].
  unfold BinanceClient_close. rewrite bind_run. cbn [emit update_client].
  eexists. split; [reflexivity|].
  cbn [w_stdout set_heap set_trace set_stdout after_request].
  apply last_snoc.
Qed.

Lemma cmd_snapshot_body_fetch_failed src format symbol c w u e :
  src_ping src = Ok u ->
  first_failure src symbol = Some e ->
  exists w', cmd_snapshot_body src format symbol c w = (Raise e, w').
Proof.
  intros Hping Hfail. unfold cmd_snapshot_body.
  rewrite bind_run, ping_run, Hping. cbn [negb].
  rewrite bind_run. cbn [print]. rewrite bind_run. cbn [print].
  rewrite bind_run, create_market_snapshot_supplied.
  match goal with
  | |- context [snapshot_body src symbol c ?out ?w0] =>
      destruct (snapshot_body_fetch_failure src symbol c out w0 e Hfail) as (w2 & -> & _)
  end.
  eexists. reflexivity.
Qed.

Lemma cmd_snapshot_fetch_failed src format symbol w u e :
  src_ping src = Ok u ->
  first_failure src symbol = Some e ->
  exists w', cmd_snapshot src format symbol w = (Raise e, w').
Proof.
  intros Hping Hfail. unfold cmd_snapshot.
  rewrite bind_run.
  destruct (print_header_Ok symbol "snapshot" w) as (w1 & -> & _).
  rewrite bind_run. unfold BinanceClient_new at 1.
  rewrite bind_run, try_finally_run.
  match goal with
  | |- context [cmd_snapshot_body src format symbol ?c ?w0] =>
      destruct (cmd_snapshot_body_fetch_failed src format symbol c w0 u e Hping Hfail)
        as (w2 & ->)
  end.
  cbn [fst snd]. unfold BinanceClient_close. rewrite bind_run. cbn [emit update_client].
  eexists. reflexivity.
Qed.

Lemma cmd_info_check_failed src format symbol w cls msg :
  src_ping src = Raise (Exception cls msg) ->
  exists w', cmd_info src format symbol w = (Ok tt, w')
             /\ last (w_stdout w') = Some cannot_connect.
Proof.
  intros Hping. unfold cmd_info.
  rewrite bind_run.
  destruct (print_header_Ok symbol "info" w) as (w1 & -> & _).
  rewrite bind_run. unfold BinanceClient_new at 1.
  rewrite bind_run, try_finally_run.
  unfold cmd_info_body at 1 2. rewrite !bind_run, !ping_run, Hping.
  cbn [is_Exception negb]. rewrite !bind_run. cbn [print fst snd ret].
  unfold BinanceClient_close. rewrite bind_run. cbn [emit update_client].
  eexists. split; [reflexivity|].
  cbn [w_stdout set_heap set_trace set_stdout after_request].
  apply last_snoc.
Qed.

Lemma cmd_info_fetch_failed src format symbol w u e :
  src_ping src = Ok u ->
  first_failure_info src symbol = Some e ->
  exists w', cmd_info src format symbol w = (Raise e, w').
Proof.
  intros Hping Hfail. unfold cmd_info.
  rewrite bind_run.
  destruct (print_header_Ok symbol "info" w) as (w1 & -> & _).
  rewrite bind_run. unfold BinanceClient_new at 1.
  rewrite bind_run, try_finally_run.
  unfold cmd_info_body at 1 2. rewrite !bind_run, !ping_run, Hping.
  cbn [negb]. unfold get_ticker_24h, get_book_ticker.
  unfold first_failure_info in Hfail.
  rewrite !bind_run, !request_run.
  destruct (src_ticker_24h src symbol) as [t|e1].
  - cbn [failure omap list_omap id] in Hfail.
    rewrite !bind_run, !request_run.
    destruct (src_book_ticker src symbol) as [b|e2]; [discriminate Hfail|].
    cbn [failure omap list_omap id head] in Hfail. injection Hfail as <-.
    cbn [fst snd]. unfold BinanceClient_close. rewrite bind_run. cbn [emit update_client].
    eexists. reflexivity.
  - cbn [failure omap list_omap id head] in Hfail. injection Hfail as <-.
    cbn [fst snd]. unfold BinanceClient_close. rewrite bind_run. cbn [emit update_client].
    eexists. reflexivity.
Qed.

Lemma setup_logging_frame LOG_LEVEL w :
  exists fs', snd (setup_logging LOG_LEVEL w) = set_fs fs' w.
Proof.
  unfold setup_logging. rewrite bind_run. unfold on_fs at 1.
  destruct (Path_mkdir (Path_parent LOG_FILE) (w_fs w)) as [fs1|e];
    [|exists (w_fs w); destruct w; reflexivity].
  rewrite bind_run. unfold lift at 1.
  destruct (Logging.getattr (Py.upper LOG_LEVEL)) as [level|e];
    [|exists fs1; reflexivity].
  rewrite bind_run. unfold on_fs at 1. cbn [set_fs w_fs].
  destruct (open_append LOG_FILE fs1) as [fs2|e]; [|exists fs1; reflexivity].
  rewrite bind_run. unfold lift at 1.
  destruct (Logging.setLevel level); exists fs2; reflexivity.
Qed.


Lemma main_run src format LOG_LEVEL prog arg1 rest w w1 :
  is_help (Py.upper arg1) = false ->
  setup_logging LOG_LEVEL w = (Ok tt, w1) ->
  main src format LOG_LEVEL (prog :: arg1 :: rest) w
  = try_except
      (if String.eqb (mode_of rest) "info" then cmd_info src format (Py.upper arg1)
       else cmd_snapshot src format (Py.upper arg1))
      (fun e =>
         log "ERROR" ("Command failed: " ++ exn_str e);;
         print (nl ++ "  Error: " ++ exn_str e);;
         print "";;
         raise (SystemExit 1))
      (set_log (w_log w1 ++ [("INFO", "Running " ++ mode_of rest ++ " for " ++ Py.upper arg1)])
               w1).
Proof. intros H Hsetup. unfold main. rewrite bind_run, Hsetup, H. reflexivity. Qed.

Lemma main_command_Ok src format LOG_LEVEL prog arg1 rest w w1 w0 w' :
  is_help (Py.upper arg1) = false ->
  setup_logging LOG_LEVEL w = (Ok tt, w1) ->
  w0 = set_log (w_log w1 ++ [("INFO", "Running " ++ mode_of rest ++ " for " ++ Py.upper arg1)])
               w1 ->
  (if String.eqb (mode_of rest) "info" then cmd_info src format (Py.upper arg1)
   else cmd_snapshot src format (Py.upper arg1)) w0 = (Ok tt, w') ->
  run src format LOG_LEVEL (prog :: arg1 :: rest) w = (0, w').
Proof.
  intros Hhelp Hsetup -> Hcmd. unfold run.
  rewrite (main_run _ _ _ _ _ _ _ _ Hhelp Hsetup), try_except_run, Hcmd.
  reflexivity.
Qed.

Lemma main_command_Raise src format LOG_LEVEL prog arg1 rest w w1 w0 w' cls msg :
  is_help (Py.upper arg1) = false ->
  setup_logging LOG_LEVEL w = (Ok tt, w1) ->
  w0 = set_log (w_log w1 ++ [("INFO", "Running " ++ mode_of rest ++ " for " ++ Py.upper arg1)])
               w1 ->
  (if String.eqb (mode_of rest) "info" then cmd_info src format (Py.upper arg1)
   else cmd_snapshot src format (Py.upper arg1)) w0 = (Raise (Exception cls msg), w') ->
  exists w'', run src format LOG_LEVEL (prog :: arg1 :: rest) w = (1, w'')
              /\ w_stdout w'' = (w_stdout w' ++ [(nl ++ "  Error: " ++ msg)%string; ""])%list.
Proof.
  intros Hhelp Hsetup -> Hcmd. unfold run.
  rewrite (main_run _ _ _ _ _ _ _ _ Hhelp Hsetup), try_except_run, Hcmd.
  cbn [is_Exception]. rewrite !bind_run. cbn [log print raise exn_str exit_status].
  eexists. split; [reflexivity|].
  cbn [w_stdout set_stdout set_log]. rewrite <- app_assoc. reflexivity.
Qed.

(** C9, as the code has it. In a run of the command line on a symbol, in
    either mode, once the logging of the process is set up: when the
    connectivity check fails, the last line printed is the error line
    [Error: Cannot connect to Binance API]; when the check passes and a fetch
    raises an error, the run prints the error line with the message of that
    error and ends with status 1. *)
Theorem cli_out_of_reach (src : MarketDataSource) (format : value -> string -> string)
        (LOG_LEVEL prog arg1 : string) (rest : list string) (w : world) :
  is_help (Py.upper arg1) = false ->
  fst (setup_logging LOG_LEVEL w) = Ok tt ->
  match out_of_reach src (mode_of rest) (Py.upper arg1) with
  | Some CheckFailed =>
      last (w_stdout (snd (run src format LOG_LEVEL (prog :: arg1 :: rest) w)))
      = Some cannot_connect
  | Some (FetchFailed msg) =>
      fst (run src format LOG_LEVEL (prog :: arg1 :: rest) w) = 1
      /\ exists printed,
          w_stdout (snd (run src format LOG_LEVEL (prog :: arg1 :: rest) w))
          = (printed ++ [(nl ++ "  Error: " ++ msg)%string; ""])%list
  | None => True
  end.
Proof.
  intros Hhelp Hsetup. unfold out_of_reach.
  destruct (setup_logging LOG_LEVEL w) as [r w1] eqn:Hs. cbn [fst] in Hsetup. subst r.
  set (w0 := set_log (w_log w1 ++ [("INFO", "Running " ++ mode_of rest ++ " for "
                                             ++ Py.upper arg1)]) w1).
  destruct (src_ping src) as [u|[cls msg| |]] eqn:Hping; [| |exact I|exact I].
  - destruct (String.eqb (mode_of rest) "info") eqn:Hmode.
    + destruct (first_failure_info src (Py.upper arg1)) as [[cls msg| |]|] eqn:Hf;
        try exact I.
      destruct (cmd_info_fetch_failed src format (Py.upper arg1) w0 u _ Hping Hf)
        as (w' & Hcmd).
      destruct (main_command_Raise src format LOG_LEVEL prog arg1 rest w w1 w0 w' cls msg
                  Hhelp Hs eq_refl)
        as (w'' & -> & Hout); [rewrite Hmode; exact Hcmd|].
      split; [reflexivity|]. exists (w_stdout w'). exact Hout.
    + destruct (first_failure src (Py.upper arg1)) as [[cls msg| |]|] eqn:Hf;
        try exact I.
      destruct (cmd_snapshot_fetch_failed src format (Py.upper arg1) w0 u _ Hping Hf)
        as (w' & Hcmd).
      destruct (main_command_Raise src format LOG_LEVEL prog arg1 rest w w1 w0 w' cls msg
                  Hhelp Hs eq_refl)
        as (w'' & -> & Hout); [rewrite Hmode; exact Hcmd|].
      split; [reflexivity|]. exists (w_stdout w'). exact Hout.
  - destruct (String.eqb (mode_of rest) "info") eqn:Hmode.
    + destruct (cmd_info_check_failed src format (Py.upper arg1) w0 cls msg Hping)
        as (w' & Hcmd & Hlast).
      rewrite (main_command_Ok src format LOG_LEVEL prog arg1 rest w w1 w0 w' Hhelp Hs
                 eq_refl);
        [exact Hlast | rewrite Hmode; exact Hcmd].
    + destruct (cmd_snapshot_check_failed src format (Py.upper arg1) w0 cls msg Hping)
        as (w' & Hcmd & Hlast).
      rewrite (main_command_Ok src format LOG_LEVEL prog arg1 rest w w1 w0 w' Hhelp Hs
                 eq_refl);
        [exact Hlast | rewrite Hmode; exact Hcmd].
Qed.

Lemma cli_out_of_reach_witness :
  is_help (Py.upper "ethusdt") = false
  /\ fst (setup_logging "INFO" sample_world) = Ok tt
  /\ out_of_reach depth_down_source (mode_of []) (Py.upper "ethusdt")
     = Some (FetchFailed "All connection attempts failed")
  /\ fst (run depth_down_source sample_format "INFO" ["market-snapshot"; "ethusdt"]
              sample_world)
     = 1.
Proof.
  split; [reflexivity|].
  assert (Hsetup : fst (setup_logging "INFO" sample_world) = Ok tt) by by_evaluation.
  split; [exact Hsetup|].
  assert (E : out_of_reach depth_down_source (mode_of []) (Py.upper "ethusdt")
              = Some (FetchFailed "All connection attempts failed")) by reflexivity.
  split; [exact E|].
  pose proof (cli_out_of_reach depth_down_source sample_format "INFO" "market-snapshot"
                "ethusdt" [] sample_world eq_refl Hsetup) as H.
  rewrite E in H. destruct H as [H _]. exact H.
Defined.

(** C9 fails when the connectivity check fails: the run prints its error
    line and then ends normally, with status 0. *)
Lemma unreachable_run_exits_zero :
  src_ping unreachable_source = Raise connect_error
  /\ fst (run unreachable_source sample_format "INFO" ["market-snapshot"; "ETHUSDT"]
              sample_world)
     = 0
  /\ last (w_stdout (snd (run unreachable_source sample_format "INFO"
                              ["market-snapshot"; "ETHUSDT"] sample_world)))
     = Some "  Error: Cannot connect to Binance API"
  /\ fst (run unreachable_source sample_format "INFO"
              ["market-snapshot"; "ETHUSDT"; "info"] sample_world)
     = 0.
Proof. repeat split; by_evaluation. Qed.

(** * Further properties *)

(** ** The guarded ratios come out *)

Lemma buy_sell_ratio_Ok ts : buy_sell_ratio ts = Ok (figure (buy_sell_ratio ts)).
Proof.
  unfold buy_sell_ratio. destruct (gt0 (trades_sell ts)) eqn:G; [|reflexivity].
  rewrite (truediv_nonzero _ _ (gt0_not_zero _ G)). reflexivity.
Qed.

Lemma bid_ask_ratio_Ok ob : bid_ask_ratio ob = Ok (figure (bid_ask_ratio ob)).
Proof.
  unfold bid_ask_ratio. destruct (gt0 (total_ask_depth ob)) eqn:G; [|reflexivity].
  rewrite (truediv_nonzero _ _ (gt0_not_zero _ G)). reflexivity.
Qed.

Lemma avg_trade_size_Ok ts : avg_trade_size ts = Ok (figure (avg_trade_size ts)).
Proof.
  destruct ts as [|t ts']; [reflexivity|]. unfold avg_trade_size.
  rewrite truediv_nonzero; [reflexivity|].
  apply Z.eqb_neq. simpl length. lia.
Qed.

(** ** A run of the assembler, step by step *)

Lemma world_ext (w1 w2 : world) :
  w_clock w1 = w_clock w2 -> w_reads w1 = w_reads w2 -> w_fs w1 = w_fs w2 ->
  w_heap w1 = w_heap w2 -> w_trace w1 = w_trace w2 -> w_stdout w1 = w_stdout w2 ->
  w_log w1 = w_log w2 -> w1 = w2.
Proof. destruct w1, w2. simpl. intros. subst. reflexivity. Qed.


(** With every fetch through and the spread percentage out, the body of the
    assembler is the call of [save_snapshot] on the document, in the world
    the nine requests and one reading of the clock leave. *)
Lemma snapshot_body_run src symbol c out w
      ticker_price ticker_24h order_book recent_trades avg_price book_ticker
      klines_1h klines_4h klines_1d spread_pct :
  src_ticker_price src symbol = Ok ticker_price ->
  src_ticker_24h src symbol = Ok ticker_24h ->
  src_order_book src symbol 20 = Ok order_book ->
  src_recent_trades src symbol 100 = Ok recent_trades ->
  src_avg_price src symbol = Ok avg_price ->
  src_book_ticker src symbol = Ok book_ticker ->
  src_klines src symbol "1h" 24 = Ok klines_1h ->
  src_klines src symbol "4h" 42 = Ok klines_4h ->
  src_klines src symbol "1d" 30 = Ok klines_1d ->
  spread_percent order_book = Ok spread_pct ->
  snapshot_body src symbol c out w
  = let doc := snapshot_document symbol (w_clock w (w_reads w)) ticker_price ticker_24h
                 order_book recent_trades avg_price book_ticker
                 klines_1h klines_4h klines_1d spread_pct in
    match save_snapshot doc symbol out
            (set_reads (S (w_reads w)) (fetched_world 9 c symbol w)) with
    | (Ok _, w') => (Ok doc, w')
    | (Raise e, w') => (Raise e, w')
    end.
Proof.
  intros H1 H2 H3 H4 H5 H6 H7 H8 H9 Hsp.
  unfold snapshot_body, get_ticker_price, get_ticker_24h, get_order_book,
    get_recent_trades, get_avg_price, get_book_ticker, get_klines.
  rewrite bind_run. cbn [log].
  rewrite bind_run, request_run, H1.
  rewrite bind_run, request_run, H2.
  rewrite bind_run, request_run, H3.
  rewrite bind_run, request_run, H4.
  rewrite bind_run, request_run, H5.
  rewrite bind_run, request_run, H6.
  rewrite bind_run, request_run, H7.
  rewrite bind_run, request_run, H8.
  rewrite bind_run, request_run, H9.
  rewrite bind_run. unfold lift at 1. rewrite buy_sell_ratio_Ok.
  rewrite bind_run. unfold lift at 1. rewrite bid_ask_ratio_Ok.
  rewrite bind_run. unfold lift at 1. rewrite Hsp.
  rewrite bind_run. cbn [now].
  rewrite bind_run. unfold lift at 1. rewrite avg_trade_size_Ok.
  rewrite bind_run. cbv zeta.
  lazymatch goal with
  | |- context [save_snapshot _ _ _ ?w1] =>
      assert (Hw : w1 = set_reads (S (w_reads w)) (fetched_world 9 c symbol w))
  end.
  { apply world_ext;
      cbn [w_clock w_reads w_fs w_heap w_trace w_stdout w_log
           after_request set_log set_reads fetched_world];
      try reflexivity.
    - rewrite !alter_connect_twice. reflexivity.
    - unfold snapshot_requests. cbn [take]. rewrite <- !app_assoc. reflexivity. }
  rewrite Hw. reflexivity.
Qed.

(** The write of [save_snapshot], in full: on a clear path to the
    directory and a target that is no directory, the file is written and the
    world moves on by one reading of the clock, one trace entry and one log
    line. *)
Lemma save_snapshot_written data symbol output_dir w :
  let name := snapshot_file_name symbol (w_clock w (w_reads w)) in
  let target := (parts output_dir ++ [name])%list in
  let location := {| absolute := absolute output_dir; parts := target |} in
  slash_free symbol = true ->
  clear_path (w_fs w) (absolute output_dir) (parts output_dir) ->
  w_fs w !! (absolute output_dir, target) <> Some Dir ->
  exists fs',
    save_snapshot data symbol output_dir w
    = (Ok location,
       mkWorld (w_clock w) (S (w_reads w)) fs' (w_heap w)
               (w_trace w ++ [EvSave symbol output_dir]) (w_stdout w)
               (w_log w ++ [("INFO", "Snapshot saved: " ++ Path_str location)]))
    /\ fs' !! (absolute output_dir, target) = Some (File (Document (dump data)))
    /\ (forall k, (1 <= k <= length (parts output_dir))%nat ->
                  fs' !! (absolute output_dir, take k (parts output_dir)) = Some Dir)
    /\ (forall key,
           key <> (absolute output_dir, target) ->
           (forall k, (1 <= k <= length (parts output_dir))%nat ->
                      key <> (absolute output_dir, take k (parts output_dir))) ->
           fs' !! key = w_fs w !! key).
Proof.
  intros name target location Hsym Hclear Htarget.
  destruct (mkdir_parents_clear (length (parts output_dir)) (absolute output_dir)
              (parts output_dir) (w_fs w) eq_refl Hclear) as (fs1 & Hmk & Hdirs & Hframe).
  destruct (snapshot_file_name_plain symbol (w_clock w (w_reads w)) Hsym)
    as [Hfree Hlen].
  fold name in Hfree, Hlen.
  rewrite save_snapshot_run. cbv zeta. unfold Path_mkdir. rewrite Hmk.
  fold name. rewrite (joinpath_name _ _ Hfree Hlen). fold target. fold location.
  assert (Hlt : length target = S (length (parts output_dir))).
  { unfold target. rewrite length_app. simpl. lia. }
  assert (Hnot_prefix : forall k, (k <= length (parts output_dir))%nat ->
                                  (absolute output_dir, target)
                                  <> (absolute output_dir, take k (parts output_dir))).
  { intros k Hk Heq. injection Heq as Heq. apply (f_equal length) in Heq.
    rewrite length_take in Heq. lia. }
  assert (Hwalk : walk fs1 (absolute output_dir) target (proper_prefixes target) = Ok tt).
  { apply walk_prefixes_Ok. intros k Hk. unfold target.
    rewrite take_snoc_le by lia. apply Hdirs. lia. }
  assert (Hnode : lookup_node fs1 (absolute output_dir) target
                  = w_fs w !! (absolute output_dir, target)).
  { destruct target as [|a rest] eqn:E; [simpl in Hlt; lia|].
    cbn [lookup_node]. apply Hframe. intros k Hk. apply Hnot_prefix. lia. }
  unfold write_file. change (absolute location) with (absolute output_dir).
  change (parts location) with target. rewrite Hwalk, Hnode.
  exists (<[(absolute output_dir, target) := File (Document (dump data))]> fs1). split.
  - destruct (w_fs w !! (absolute output_dir, target)) as [[|c]|] eqn:E;
      [congruence | reflexivity | reflexivity].
  - split; [apply lookup_insert_eq|]. split.
    + intros k Hk. rewrite lookup_insert_ne by (apply Hnot_prefix; lia).
      apply Hdirs. exact Hk.
    + intros key Hkey Hother. rewrite lookup_insert_ne by congruence.
      apply Hframe. exact Hother.
Qed.

Lemma snapshot_body_persists src symbol c out w
      ticker_price ticker_24h order_book recent_trades avg_price book_ticker
      klines_1h klines_4h klines_1d spread_pct :
  let doc := snapshot_document symbol (w_clock w (w_reads w)) ticker_price ticker_24h
               order_book recent_trades avg_price book_ticker
               klines_1h klines_4h klines_1d spread_pct in
  let name := snapshot_file_name symbol (w_clock w (S (w_reads w))) in
  let target := (parts out ++ [name])%list in
  let location := {| absolute := absolute out; parts := target |} in
  src_ticker_price src symbol = Ok ticker_price ->
  src_ticker_24h src symbol = Ok ticker_24h ->
  src_order_book src symbol 20 = Ok order_book ->
  src_recent_trades src symbol 100 = Ok recent_trades ->
  src_avg_price src symbol = Ok avg_price ->
  src_book_ticker src symbol = Ok book_ticker ->
  src_klines src symbol "1h" 24 = Ok klines_1h ->
  src_klines src symbol "4h" 42 = Ok klines_4h ->
  src_klines src symbol "1d" 30 = Ok klines_1d ->
  spread_percent order_book = Ok spread_pct ->
  slash_free symbol = true ->
  clear_path (w_fs w) (absolute out) (parts out) ->
  w_fs w !! (absolute out, target) <> Some Dir ->
  exists fs',
    snapshot_body src symbol c out w
    = (Ok doc,
       mkWorld (w_clock w) (S (S (w_reads w))) fs' (alter connect c (w_heap w))
               (w_trace w ++ snapshot_requests c symbol ++ [EvSave symbol out])
               (w_stdout w)
               (w_log w ++ [("INFO", "Creating market snapshot for " ++ symbol);
                            ("INFO", "Snapshot saved: " ++ Path_str location)]))
    /\ fs' !! (absolute out, target) = Some (File (Document (dump doc)))
    /\ (forall k, (1 <= k <= length (parts out))%nat ->
                  fs' !! (absolute out, take k (parts out)) = Some Dir)
    /\ (forall key,
           key <> (absolute out, target) ->
           (forall k, (1 <= k <= length (parts out))%nat ->
                      key <> (absolute out, take k (parts out))) ->
           fs' !! key = w_fs w !! key).
Proof.
  intros doc name target location H1 H2 H3 H4 H5 H6 H7 H8 H9 Hsp Hsym Hclear Htarget.
  rewrite (snapshot_body_run src symbol c out w _ _ _ _ _ _ _ _ _ _
             H1 H2 H3 H4 H5 H6 H7 H8 H9 Hsp).
  cbv zeta. fold doc.
  destruct (save_snapshot_written doc symbol out
              (set_reads (S (w_reads w)) (fetched_world 9 c symbol w))
              Hsym Hclear Htarget) as (fs' & Hsave & Hfile & Hdirs & Hframe).
  rewrite Hsave. exists fs'. split; [|split; [exact Hfile|split; [exact Hdirs|exact Hframe]]].
  f_equal. apply world_ext; cbn [w_clock w_reads w_fs w_heap w_trace w_stdout w_log
                                 set_reads fetched_world]; try reflexivity.
  - rewrite <- app_assoc. reflexivity.
  - rewrite <- app_assoc. reflexivity.
Qed.

(** X1. When the nine fetches succeed and the spread percentage of the book
    comes out, [create_market_snapshot] returns the document made of what
    was fetched, stamped with the first reading of the clock, and the file
    named after the second reading holds that very document; the
    directories on the way are made, nothing else on the disk changes,
    nothing is printed, and the log has the two lines of the run. *)
Theorem assembly_persists (src : MarketDataSource) (symbol : string)
        (client : option nat) (output_dir : option Path) (w : world)
        ticker_price ticker_24h order_book recent_trades avg_price book_ticker
        klines_1h klines_4h klines_1d spread_pct :
  let dir := default SNAPSHOT_DIR output_dir in
  let doc := snapshot_document symbol (w_clock w (w_reads w)) ticker_price ticker_24h
               order_book recent_trades avg_price book_ticker
               klines_1h klines_4h klines_1d spread_pct in
  let name := snapshot_file_name symbol (w_clock w (S (w_reads w))) in
  let target := (parts dir ++ [name])%list in
  let location := {| absolute := absolute dir; parts := target |} in
  src_ticker_price src symbol = Ok ticker_price ->
  src_ticker_24h src symbol = Ok ticker_24h ->
  src_order_book src symbol 20 = Ok order_book ->
  src_recent_trades src symbol 100 = Ok recent_trades ->
  src_avg_price src symbol = Ok avg_price ->
  src_book_ticker src symbol = Ok book_ticker ->
  src_klines src symbol "1h" 24 = Ok klines_1h ->
  src_klines src symbol "4h" 42 = Ok klines_4h ->
  src_klines src symbol "1d" 30 = Ok klines_1d ->
  spread_percent order_book = Ok spread_pct ->
  slash_free symbol = true ->
  clear_path (w_fs w) (absolute dir) (parts dir) ->
  w_fs w !! (absolute dir, target) <> Some Dir ->
  exists w',
    create_market_snapshot src symbol client output_dir w = (Ok doc, w')
    /\ getitem "timestamp" doc = Some (VStr (isoformat (w_clock w (w_reads w))))
    /\ w_fs w' !! (absolute dir, target) = Some (File (Document (dump doc)))
    /\ (forall k, (1 <= k <= length (parts dir))%nat ->
                  w_fs w' !! (absolute dir, take k (parts dir)) = Some Dir)
    /\ (forall key,
           key <> (absolute dir, target) ->
           (forall k, (1 <= k <= length (parts dir))%nat ->
                      key <> (absolute dir, take k (parts dir))) ->
           w_fs w' !! key = w_fs w !! key)
    /\ w_reads w' = S (S (w_reads w))
    /\ w_stdout w' = w_stdout w
    /\ w_log w' = (w_log w
                   ++ [("INFO", ("Creating market snapshot for " ++ symbol)%string);
                       ("INFO", ("Snapshot saved: " ++ Path_str location)%string)])%list.
Proof.
  intros dir doc name target location H1 H2 H3 H4 H5 H6 H7 H8 H9 Hsp Hsym Hclear Htarget.
  destruct client as [c|].
  - rewrite create_market_snapshot_supplied. fold dir.
    destruct (snapshot_body_persists src symbol c dir w _ _ _ _ _ _ _ _ _ _
                H1 H2 H3 H4 H5 H6 H7 H8 H9 Hsp Hsym Hclear Htarget)
      as (fs' & Hrun & Hfile & Hdirs & Hframe).
    fold doc in Hrun. rewrite Hrun. eexists. split; [reflexivity|].
    cbn [w_fs w_reads w_stdout w_log].
    repeat (split; first [reflexivity | assumption | idtac]).
  - rewrite create_market_snapshot_own. cbv zeta. fold dir.
    destruct (snapshot_body_persists src symbol (length (w_heap w)) dir
                (set_heap (w_heap w ++ [mkClient BINANCE_BASE_URL None]) w)
                _ _ _ _ _ _ _ _ _ _
                H1 H2 H3 H4 H5 H6 H7 H8 H9 Hsp Hsym Hclear Htarget)
      as (fs' & Hrun & Hfile & Hdirs & Hframe).
    cbn [set_heap w_clock w_reads w_fs w_heap w_trace w_stdout w_log] in Hrun.
    fold doc in Hrun. rewrite Hrun. eexists. split; [reflexivity|].
    cbn [fst snd set_heap set_trace w_fs w_reads w_stdout w_log].
    repeat (split; first [reflexivity | assumption | idtac]).
Qed.

Lemma assembly_persists_witness :
  exists w',
    create_market_snapshot sample_source "ETHUSDT" None None sample_world
    = (Ok sample_snapshot, w')
    /\ w_fs w' !! (false, ["snapshots"; "ethusdt_20240102_030406.json"])
       = Some (File (Document (dump sample_snapshot)))
    /\ w_fs w' !! (false, ["snapshots"]) = Some Dir
    /\ w_reads w' = 2%nat.
Proof.
  assert (Hsp : spread_percent sample_book = Ok (NFloat 1)) by (vm_compute; reflexivity).
  assert (Hclear : clear_path (w_fs sample_world) (absolute (default SNAPSHOT_DIR None))
                              (parts (default SNAPSHOT_DIR None))).
  { intros k c _. simpl. rewrite lookup_empty. discriminate. }
  assert (Htarget : w_fs sample_world
                      !! (absolute (default SNAPSHOT_DIR None),
                          (parts (default SNAPSHOT_DIR None)
                           ++ [snapshot_file_name "ETHUSDT"
                                 (w_clock sample_world (S (w_reads sample_world)))])%list)
                    <> Some Dir).
  { simpl. rewrite lookup_empty. discriminate. }
  destruct (assembly_persists sample_source "ETHUSDT" None None sample_world
              (mkTickerPrice "ETHUSDT" 100.5)
              (mkTicker24h "ETHUSDT" 1 2 3 4 5 6 7 8 9 10 11 12 13 14 15)
              sample_book ten_trades 100.25%float (mkBookTicker "ETHUSDT" 100 2 101 1)
              (map sample_kline [1; 2; 3; 4; 5; 6; 7; 8])
              (map sample_kline [1; 2; 3; 4; 5; 6; 7; 8])
              (map sample_kline [1; 2; 3; 4; 5; 6; 7; 8])
              (NFloat 1)
              eq_refl eq_refl eq_refl eq_refl eq_refl eq_refl eq_refl eq_refl eq_refl
              Hsp eq_refl Hclear Htarget)
    as (w' & Hrun & _ & Hfile & Hdirs & _ & Hreads & _).
  exists w'. split; [|split; [|split]].
  - exact Hrun.
  - exact Hfile.
  - apply (Hdirs 1%nat). simpl. lia.
  - exact Hreads.
Defined.

(** ** The calls of a run *)

Ltac trace_done :=
  cbn [snd fst w_trace after_request set_log set_reads failure succeeded_first
       omap list_omap id head Nat.min take snapshot_requests];
  rewrite <- ?app_assoc; try rewrite app_nil_r; reflexivity.

Ltac trace_step :=
  rewrite bind_run, request_run;
  lazymatch goal with
  | |- context [match ?answer with Ok _ => _ | Raise _ => _ end] =>
      destruct answer as [?|?] eqn:?; [|trace_done]
  end.

Lemma snapshot_body_trace src symbol c out w :
  w_trace (snd (snapshot_body src symbol c out w))
  = (w_trace w ++ take (requests_issued src symbol) (snapshot_requests c symbol)
     ++ (if document_made src symbol then [EvSave symbol out] else []))%list.
Proof.
  unfold requests_issued, document_made, first_failure, fetch_failures.
  unfold snapshot_body, get_ticker_price, get_ticker_24h, get_order_book,
    get_recent_trades, get_avg_price, get_book_ticker, get_klines.
  rewrite bind_run. cbn [log].
  do 9 trace_step.
  rewrite bind_run. unfold lift at 1. rewrite buy_sell_ratio_Ok.
  rewrite bind_run. unfold lift at 1. rewrite bid_ask_ratio_Ok.
  rewrite bind_run. unfold lift at 1.
  lazymatch goal with
  | |- context [match spread_percent ?ob with Ok _ => _ | Raise _ => _ end] =>
      destruct (spread_percent ob) as [?|?] eqn:?; [|trace_done]
  end.
  rewrite bind_run. cbn [now].
  rewrite bind_run. unfold lift at 1. rewrite avg_trade_size_Ok.
  rewrite bind_run, save_snapshot_run. cbv zeta.
  destruct (Path_mkdir out _) as [fs1|?]; [|trace_done].
  destruct (write_file _ _ fs1) as [fs2|?]; trace_done.
Qed.

(** X2. The calls of a run of [create_market_snapshot], in order: the
    fixed requests up to and including the first one that fails (all nine
    when none fails), then the call of [save_snapshot] if the document was
    made, then the [close] of the client if the run made its own. *)
Theorem assembler_calls (src : MarketDataSource) (symbol : string)
        (client : option nat) (output_dir : option Path) (w : world) :
  let c := default (length (w_heap w)) client in
  let dir := default SNAPSHOT_DIR output_dir in
  w_trace (snd (create_market_snapshot src symbol client output_dir w))
  = (w_trace w
     ++ take (requests_issued src symbol) (snapshot_requests c symbol)
     ++ (if document_made src symbol then [EvSave symbol dir] else [])
     ++ (match client with None => [EvClose c] | Some _ => [] end))%list.
Proof.
  intros c dir. destruct client as [c'|].
  - rewrite create_market_snapshot_supplied, snapshot_body_trace.
    rewrite app_nil_r. reflexivity.
  - rewrite create_market_snapshot_own. cbv zeta.
    cbn [snd set_heap set_trace w_trace]. rewrite snapshot_body_trace.
    cbn [set_heap w_trace]. rewrite <- !app_assoc. reflexivity.
Qed.

Lemma document_made_fetched src symbol :
  document_made src symbol = true ->
  exists ticker_price ticker_24h order_book recent_trades avg_price book_ticker
         klines_1h klines_4h klines_1d spread_pct,
    src_ticker_price src symbol = Ok ticker_price
    /\ src_ticker_24h src symbol = Ok ticker_24h
    /\ src_order_book src symbol 20 = Ok order_book
    /\ src_recent_trades src symbol 100 = Ok recent_trades
    /\ src_avg_price src symbol = Ok avg_price
    /\ src_book_ticker src symbol = Ok book_ticker
    /\ src_klines src symbol "1h" 24 = Ok klines_1h
    /\ src_klines src symbol "4h" 42 = Ok klines_4h
    /\ src_klines src symbol "1d" 30 = Ok klines_1d
    /\ spread_percent order_book = Ok spread_pct.
Proof.
  unfold document_made, first_failure, fetch_failures. intros H.
  destruct (src_ticker_price src symbol) as [tp|?]; [|discriminate H].
  destruct (src_ticker_24h src symbol) as [t24|?]; [|discriminate H].
  destruct (src_order_book src symbol 20) as [ob|?]; [|discriminate H].
  destruct (src_recent_trades src symbol 100) as [ts|?]; [|discriminate H].
  destruct (src_avg_price src symbol) as [avg|?]; [|discriminate H].
  destruct (src_book_ticker src symbol) as [bt|?]; [|discriminate H].
  destruct (src_klines src symbol "1h" 24) as [k1|?]; [|discriminate H].
  destruct (src_klines src symbol "4h" 42) as [k4|?]; [|discriminate H].
  destruct (src_klines src symbol "1d" 30) as [kd|?]; [|discriminate H].
  cbn [failure omap list_omap id head] in H.
  destruct (spread_percent ob) as [sp|?] eqn:Hsp; [|discriminate H].
  exists tp, t24, ob, ts, avg, bt, k1, k4, kd, sp.
  repeat split; first [reflexivity | exact Hsp].
Qed.

(** X3. When the document was made and the output directory cannot be made
    ([mkdir] raises, as on a path taken by a regular file),
    [create_market_snapshot] ends with that very error: every request was
    sent and the clock was read for the document, but the disk is as it
    was. *)
Theorem directory_error_propagates (src : MarketDataSource) (symbol : string)
        (client : option nat) (output_dir : option Path) (w : world) (e : exn) :
  let dir := default SNAPSHOT_DIR output_dir in
  let run := create_market_snapshot src symbol client output_dir w in
  document_made src symbol = true ->
  Path_mkdir dir (w_fs w) = Raise e ->
  fst run = Raise e
  /\ w_fs (snd run) = w_fs w
  /\ w_reads (snd run) = S (w_reads w)
  /\ w_stdout (snd run) = w_stdout w.
Proof.
  intros dir run Hmade Hmk. subst run.
  destruct (document_made_fetched _ _ Hmade)
    as (tp & t24 & ob & ts & avg & bt & k1 & k4 & kd & sp
        & H1 & H2 & H3 & H4 & H5 & H6 & H7 & H8 & H9 & Hsp).
  assert (Hbody : forall c w0, w_fs w0 = w_fs w ->
            exists w1, snapshot_body src symbol c dir w0 = (Raise e, w1)
                       /\ w_fs w1 = w_fs w0 /\ w_reads w1 = S (w_reads w0)
                       /\ w_stdout w1 = w_stdout w0).
  { intros c w0 Hfs.
    rewrite (snapshot_body_run src symbol c dir w0 _ _ _ _ _ _ _ _ _ _
               H1 H2 H3 H4 H5 H6 H7 H8 H9 Hsp).
    cbv zeta. rewrite save_snapshot_run. cbv zeta.
    cbn [set_reads fetched_world w_fs w_clock w_reads w_heap w_trace w_stdout w_log].
    rewrite Hfs, Hmk. eexists. split; [reflexivity|].
    cbn [w_fs w_reads w_stdout]. repeat split; congruence. }
  destruct client as [c|].
  - rewrite create_market_snapshot_supplied. fold dir.
    destruct (Hbody c w eq_refl) as (w1 & -> & Hfs & Hreads & Hout).
    cbn [fst snd]. repeat split; assumption.
  - rewrite create_market_snapshot_own. cbv zeta. fold dir.
    destruct (Hbody (length (w_heap w))
                (set_heap (w_heap w ++ [mkClient BINANCE_BASE_URL None]) w) eq_refl)
      as (w1 & -> & Hfs & Hreads & Hout).
    cbn [fst snd set_heap set_trace w_fs w_reads w_stdout] in *.
    repeat split; assumption.
Qed.

Lemma directory_error_propagates_witness :
  fst (create_market_snapshot sample_source "ETHUSDT" None None occupied_world)
  = Raise (Exception "FileExistsError" "snapshots")
  /\ w_fs (snd (create_market_snapshot sample_source "ETHUSDT" None None occupied_world))
     = w_fs occupied_world
  /\ w_reads (snd (create_market_snapshot sample_source "ETHUSDT" None None
                                          occupied_world))
     = S (w_reads occupied_world)
  /\ w_stdout (snd (create_market_snapshot sample_source "ETHUSDT" None None
                                           occupied_world))
     = w_stdout occupied_world.
Proof.
  refine (directory_error_propagates sample_source "ETHUSDT" None None occupied_world
            (Exception "FileExistsError" "snapshots") _ _).
  - vm_compute. reflexivity.
  - vm_compute. reflexivity.
Defined.

(** ** The document *)

Lemma well_formed_of_num (x : num) : well_formed (of_num x) = true.
Proof. destruct x; reflexivity. Qed.

Lemma well_formed_map {A} (f : A -> value) (l : list A) :
  (forall a, well_formed (f a) = true) -> forallb well_formed (map f l) = true.
Proof.
  intros H. induction l as [|a l IH]; simpl; [reflexivity|]. rewrite H, IH. reflexivity.
Qed.

(** Every document the assembler can put together has its eight sections
    with their fields, and no key twice at any depth. *)
Lemma document_shape symbol created ticker_price ticker_24h order_book recent_trades
      avg_price book_ticker klines_1h klines_4h klines_1d
      spread_abs spread_pct bid_ask buy_sell avg_size :
  let d := VDict [("timestamp", VStr (isoformat created));
                  ("symbol", VStr symbol);
                  ("summary", summary_section ticker_price avg_price ticker_24h);
                  ("book_ticker", book_ticker_dict book_ticker);
                  ("spread", spread_section spread_abs spread_pct);
                  ("depth_analysis", depth_section order_book bid_ask);
                  ("trade_analysis", trade_section recent_trades buy_sell avg_size);
                  ("klines", klines_section klines_1h klines_4h klines_1d)] in
  well_formed d = true /\ conforms_to_schema d = true.
Proof.
  intros d. split; [|reflexivity].
  unfold d, summary_section, book_ticker_dict, spread_section, depth_section,
    trade_section, klines_section, kline_tail.
  cbn [well_formed forallb map fst distinct existsb negb andb String.eqb Ascii.eqb
       Bool.eqb orb].
  rewrite !well_formed_of_num.
  rewrite !(well_formed_map asdict) by reflexivity.
  rewrite !(well_formed_map level_value) by reflexivity.
  reflexivity.
Qed.

Lemma create_market_snapshot_Ok src symbol client output_dir w snap w' :
  create_market_snapshot src symbol client output_dir w = (Ok snap, w') ->
  exists c w0 w1,
    snapshot_body src symbol c (default SNAPSHOT_DIR output_dir) w0 = (Ok snap, w1)
    /\ w_clock w0 = w_clock w /\ w_reads w0 = w_reads w /\ w_fs w0 = w_fs w
    /\ w_fs w' = w_fs w1.
Proof.
  destruct client as [c|].
  - rewrite create_market_snapshot_supplied. intros H.
    exists c, w, w'. repeat split; first [exact H | reflexivity].
  - rewrite create_market_snapshot_own. cbv zeta.
    destruct (snapshot_body src symbol (length (w_heap w)) (default SNAPSHOT_DIR output_dir)
                (set_heap (w_heap w ++ [mkClient BINANCE_BASE_URL None]) w))
      as [r w1] eqn:Hbody.
    cbn [fst snd]. intros H. injection H as -> <-.
    exists (length (w_heap w)),
           (set_heap (w_heap w ++ [mkClient BINANCE_BASE_URL None]) w), w1.
    repeat split; first [exact Hbody | reflexivity].
Qed.

Lemma sample_run :
  create_market_snapshot sample_source "ETHUSDT" None None sample_world
  = (Ok sample_snapshot, created_world).
Proof.
  rewrite (surjective_pairing
             (create_market_snapshot sample_source "ETHUSDT" None None sample_world)).
  rewrite sample_snapshot_created. unfold created_world. exact (eq_refl _).
Qed.

(** X4. Whatever the service answered, a document [create_market_snapshot]
    returns has the eight sections with all their fields and no key twice
    at any depth; it carries the symbol as it was passed and the first
    reading of the clock, and at most five levels for each side of the
    book. *)
Theorem returned_document_shape (src : MarketDataSource) (symbol : string)
        (client : option nat) (output_dir : option Path) (w w' : world) (snap : value) :
  create_market_snapshot src symbol client output_dir w = (Ok snap, w') ->
  well_formed snap = true
  /\ conforms_to_schema snap = true
  /\ getitem "symbol" snap = Some (VStr symbol)
  /\ getitem "timestamp" snap = Some (VStr (isoformat (w_clock w (w_reads w))))
  /\ exists top_bids top_asks,
      getpath ["depth_analysis"; "top_bids"] snap = Some (VList top_bids)
      /\ getpath ["depth_analysis"; "top_asks"] snap = Some (VList top_asks)
      /\ (length top_bids <= 5)%nat /\ (length top_asks <= 5)%nat.
Proof.
  intros H.
  destruct (create_market_snapshot_Ok _ _ _ _ _ _ _ H)
    as (c & w0 & w1 & Hbody & Hclock & Hreads & _ & _).
  destruct (snapshot_body_success _ _ _ _ _ _ _ Hbody)
    as (tp & t24 & ob & ts & avg & bt & k1 & k4 & kd & bs & ba & sp & sz & created
        & _ & _ & _ & _ & _ & _ & _ & _ & _ & _ & _ & _ & _ & Hcreated & ->).
  rewrite Hclock, Hreads in Hcreated. subst created.
  destruct (document_shape symbol (w_clock w (w_reads w)) tp t24 ob ts avg bt k1 k4 kd
              (spread ob) sp ba bs sz) as [Hwf Hschema].
  split; [exact Hwf|]. split; [exact Hschema|].
  split; [reflexivity|]. split; [reflexivity|].
  exists (map level_value (first_n 5 (bids ob))), (map level_value (first_n 5 (asks ob))).
  split; [reflexivity|]. split; [reflexivity|].
  unfold first_n. rewrite !length_map, !length_take. lia.
Qed.

Lemma returned_document_shape_witness :
  well_formed sample_snapshot = true
  /\ conforms_to_schema sample_snapshot = true
  /\ getitem "symbol" sample_snapshot = Some (VStr "ETHUSDT")
  /\ getitem "timestamp" sample_snapshot
     = Some (VStr (isoformat (w_clock sample_world (w_reads sample_world))))
  /\ exists top_bids top_asks,
      getpath ["depth_analysis"; "top_bids"] sample_snapshot = Some (VList top_bids)
      /\ getpath ["depth_analysis"; "top_asks"] sample_snapshot = Some (VList top_asks)
      /\ (length top_bids <= 5)%nat /\ (length top_asks <= 5)%nat.
Proof.
  exact (returned_document_shape sample_source "ETHUSDT" None None sample_world
           created_world sample_snapshot sample_run).
Defined.

Lemma save_snapshot_Ok_location data symbol output_dir w location w' :
  save_snapshot data symbol output_dir w = (Ok location, w') ->
  location = joinpath output_dir (snapshot_file_name symbol (w_clock w (w_reads w))).
Proof.
  rewrite save_snapshot_run. cbv zeta.
  destruct (Path_mkdir output_dir (w_fs w)) as [fs1|e]; [|discriminate].
  destruct (write_file _ _ fs1) as [fs2|e]; [|discriminate].
  intros H. injection H as <- _. reflexivity.
Qed.

Lemma save_snapshot_read data symbol output_dir w location w' :
  save_snapshot data symbol output_dir w = (Ok location, w') ->
  read_file location (w_fs w') = Ok (Document (dump data)).
Proof.
  rewrite save_snapshot_run. cbv zeta.
  destruct (Path_mkdir output_dir (w_fs w)) as [fs1|e]; [|discriminate].
  destruct (write_file _ _ fs1) as [fs2|e] eqn:Hw; [|discriminate].
  intros H. injection H as <- <-. cbn [w_fs].
  exact (read_after_write _ _ _ _ Hw).
Qed.

(** X5. After a run of [create_market_snapshot] that returned a document,
    [load_snapshot] on the file named after the second reading of the clock
    gives that document with its tuples turned into lists. *)
Theorem created_snapshot_loads (src : MarketDataSource) (symbol : string)
        (client : option nat) (output_dir : option Path) (w w' : world) (snap : value) :
  let dir := default SNAPSHOT_DIR output_dir in
  let location := joinpath dir (snapshot_file_name symbol (w_clock w (S (w_reads w)))) in
  create_market_snapshot src symbol client output_dir w = (Ok snap, w') ->
  load_snapshot location w' = (Ok (listify snap), w').
Proof.
  intros dir location H.
  destruct (create_market_snapshot_Ok _ _ _ _ _ _ _ H)
    as (c & w0 & w1 & Hbody & Hclock & Hreads & _ & Hfs).
  fold dir in Hbody.
  destruct (snapshot_body_success _ _ _ _ _ _ _ Hbody)
    as (tp & t24 & ob & ts & avg & bt & k1 & k4 & kd & bs & ba & sp & sz & created
        & H1 & H2 & H3 & H4 & H5 & H6 & H7 & H8 & H9 & _ & _ & Hsp & _ & _ & _).
  rewrite (snapshot_body_run src symbol c dir w0 _ _ _ _ _ _ _ _ _ _
             H1 H2 H3 H4 H5 H6 H7 H8 H9 Hsp) in Hbody.
  cbv zeta in Hbody.
  destruct (save_snapshot _ symbol dir _) as [[loc|e] w2] eqn:Hsave; [|discriminate Hbody].
  injection Hbody as Hsnap Hw. subst snap w2.
  pose proof (save_snapshot_Ok_location _ _ _ _ _ _ Hsave) as Hloc.
  cbn [set_reads fetched_world w_clock w_reads] in Hloc.
  rewrite Hclock, Hreads in Hloc. fold location in Hloc. subst loc.
  rewrite load_snapshot_run, Hfs, (save_snapshot_read _ _ _ _ _ _ Hsave).
  rewrite load_dump; [reflexivity|].
  apply (document_shape symbol (w_clock w0 (w_reads w0)) tp t24 ob ts avg bt k1 k4 kd
           (spread ob) sp (figure (bid_ask_ratio ob)) (figure (buy_sell_ratio ts))
           (figure (avg_trade_size ts))).
Qed.

Lemma created_snapshot_loads_witness :
  load_snapshot
    (joinpath (default SNAPSHOT_DIR None)
              (snapshot_file_name "ETHUSDT" (w_clock sample_world (S (w_reads sample_world)))))
    created_world
  = (Ok (listify sample_snapshot), created_world).
Proof.
  exact (created_snapshot_loads sample_source "ETHUSDT" None None sample_world
           created_world sample_snapshot sample_run).
Defined.

(** ** File names and the clock *)

Lemma string_app_inj (a c b d : string) :
  String.length a = String.length c -> (a ++ b = c ++ d)%string -> a = c /\ b = d.
Proof.
  revert c. induction a as [|x a IH]; intros [|y c] Hlen H; simpl in *;
    try discriminate.
  - split; [reflexivity | exact H].
  - injection H as -> H. injection Hlen as Hlen.
    destruct (IH c Hlen H) as [-> ->]. split; reflexivity.
Qed.

Lemma string_app_inv_head (a b d : string) : (a ++ b = a ++ d)%string -> b = d.
Proof. intros H. apply (string_app_inj a a b d eq_refl H). Qed.

Lemma digit_inj (n m : nat) : digit n = digit m -> (n mod 10 = m mod 10)%nat.
Proof.
  unfold digit. intros H. apply (f_equal nat_of_ascii) in H.
  assert (Hn : (n mod 10 < 10)%nat) by (apply Nat.mod_upper_bound; lia).
  assert (Hm : (m mod 10 < 10)%nat) by (apply Nat.mod_upper_bound; lia).
  rewrite !nat_ascii_embedding in H by lia. lia.
Qed.

Lemma pad_inj (width n m : nat) :
  (n < 10 ^ width)%nat -> (m < 10 ^ width)%nat -> pad width n = pad width m -> n = m.
Proof.
  revert n m. induction width as [|w IH]; intros n m Hn Hm H.
  - simpl in Hn, Hm. lia.
  - cbn [pad] in H.
    apply string_app_inj in H as [Hhigh Hlow]; [|rewrite !pad_length; reflexivity].
    injection Hlow as Hlow. apply digit_inj in Hlow.
    rewrite Nat.pow_succ_r' in Hn, Hm.
    assert (Hdiv : (n / 10 = m / 10)%nat).
    { apply IH; [ apply Nat.Div0.div_lt_upper_bound; lia
                | apply Nat.Div0.div_lt_upper_bound; lia | exact Hhigh ]. }
    rewrite (Nat.div_mod_eq n 10), (Nat.div_mod_eq m 10). lia.
Qed.

Lemma timestamp_fields dt :
  strftime "%Y%m%d_%H%M%S" dt
  = (pad 4 (year dt) ++ pad 2 (month dt) ++ pad 2 (day dt) ++ "_"
     ++ pad 2 (hour dt) ++ pad 2 (minute dt) ++ pad 2 (second dt))%string.
Proof.
  cbn [strftime Ascii.eqb Bool.eqb directive].
  reflexivity.
Qed.

Lemma pad2_inj (n m : nat) : (n <= 59)%nat -> (m <= 59)%nat -> pad 2 n = pad 2 m -> n = m.
Proof.
  intros Hn Hm. apply pad_inj; change (10 ^ 2)%nat with 100%nat; lia.
Qed.

Lemma snapshot_file_name_same (s1 s2 : string) (t1 t2 : datetime) :
  Py.lower s1 = Py.lower s2 -> same_second t1 t2 ->
  snapshot_file_name s1 t1 = snapshot_file_name s2 t2.
Proof.
  intros Hs (Hy & Hm & Hd & HH & HM & HS). unfold snapshot_file_name.
  rewrite !timestamp_fields, Hs, Hy, Hm, Hd, HH, HM, HS. reflexivity.
Qed.

(** X6. Two snapshots of a symbol get the same file name exactly when the
    clock readings of their saves fall in the same second: the name tells
    the seconds apart and nothing finer. *)
Theorem file_names_by_second (symbol : string) (t1 t2 : datetime) :
  in_range t1 -> in_range t2 ->
  (snapshot_file_name symbol t1 = snapshot_file_name symbol t2 <-> same_second t1 t2).
Proof.
  intros (_ & Hy1 & Hm1 & Hd1 & HH1 & HM1 & HS1) (_ & Hy2 & Hm2 & Hd2 & HH2 & HM2 & HS2).
  unfold snapshot_file_name, same_second. split.
  - intros H.
    apply string_app_inv_head in H. apply (string_app_inv_head "_") in H.
    apply string_app_inj in H as [H _]; [|rewrite !timestamp_length; reflexivity].
    rewrite !timestamp_fields in H.
    apply string_app_inj in H as [Hy H]; [|rewrite !pad_length; reflexivity].
    apply string_app_inj in H as [Hm H]; [|rewrite !pad_length; reflexivity].
    apply string_app_inj in H as [Hd H]; [|rewrite !pad_length; reflexivity].
    apply (string_app_inv_head "_") in H.
    apply string_app_inj in H as [HH H]; [|rewrite !pad_length; reflexivity].
    apply string_app_inj in H as [HM HS]; [|rewrite !pad_length; reflexivity].
    split; [apply (pad_inj 4); assumption|].
    split; [apply pad2_inj; [lia | lia | assumption]|].
    split; [apply pad2_inj; [lia | lia | assumption]|].
    split; [apply pad2_inj; [lia | lia | assumption]|].
    split; apply pad2_inj; first [lia | assumption].
  - intros H. exact (snapshot_file_name_same symbol symbol t1 t2 eq_refl H).
Qed.

Lemma file_names_by_second_witness :
  snapshot_file_name "ETHUSDT" (fast_clock 0) = snapshot_file_name "ETHUSDT" (fast_clock 1)
  <-> same_second (fast_clock 0) (fast_clock 1).
Proof.
  refine (file_names_by_second "ETHUSDT" (fast_clock 0) (fast_clock 1) _ _);
    unfold in_range; cbn [fast_clock year month day hour minute second];
    (split; [lia|]; split; [apply Nat.ltb_lt; vm_compute; reflexivity | lia]).
Defined.

Lemma save_snapshot_Ok_clock data symbol output_dir w location w' :
  save_snapshot data symbol output_dir w = (Ok location, w') ->
  w_clock w' = w_clock w /\ w_reads w' = S (w_reads w).
Proof.
  rewrite save_snapshot_run. cbv zeta.
  destruct (Path_mkdir output_dir (w_fs w)) as [fs1|e]; [|discriminate].
  destruct (write_file _ _ fs1) as [fs2|e]; [|discriminate].
  intros H. injection H as _ <-. split; reflexivity.
Qed.

Lemma first_save_location :
  fst (save_snapshot (VInt 1) "ETHUSDT" SNAPSHOT_DIR fast_world) = Ok sample_location.
Proof. by_evaluation. Qed.

Lemma first_save :
  save_snapshot (VInt 1) "ETHUSDT" SNAPSHOT_DIR fast_world = (Ok sample_location, once_saved).
Proof.
  rewrite (surjective_pairing (save_snapshot (VInt 1) "ETHUSDT" SNAPSHOT_DIR fast_world)).
  rewrite first_save_location. unfold once_saved. exact (eq_refl _).
Qed.

Lemma second_save_location :
  fst (save_snapshot (VInt 2) "ethusdt" SNAPSHOT_DIR once_saved) = Ok sample_location.
Proof. by_evaluation. Qed.

Lemma second_save :
  save_snapshot (VInt 2) "ethusdt" SNAPSHOT_DIR once_saved = (Ok sample_location, twice_saved).
Proof.
  rewrite (surjective_pairing (save_snapshot (VInt 2) "ethusdt" SNAPSHOT_DIR once_saved)).
  rewrite second_save_location. unfold twice_saved. exact (eq_refl _).
Qed.

(** X7. A second save into the same directory within the same second of
    the clock, under a symbol that differs from the first at most in case,
    goes to the very file of the first and replaces its document. *)
Theorem same_second_overwrites (d1 d2 : value) (s1 s2 : string) (output_dir : Path)
        (w w1 w2 : world) (loc1 loc2 : Path) :
  save_snapshot d1 s1 output_dir w = (Ok loc1, w1) ->
  save_snapshot d2 s2 output_dir w1 = (Ok loc2, w2) ->
  Py.lower s1 = Py.lower s2 ->
  same_second (w_clock w (w_reads w)) (w_clock w (S (w_reads w))) ->
  loc2 = loc1
  /\ load_snapshot loc1 w2 = (Ok (load (dump d2)), w2).
Proof.
  intros Hfirst Hsecond Hsym Hclock.
  pose proof (save_snapshot_Ok_location _ _ _ _ _ _ Hfirst) as Hloc1.
  pose proof (save_snapshot_Ok_location _ _ _ _ _ _ Hsecond) as Hloc2.
  destruct (save_snapshot_Ok_clock _ _ _ _ _ _ Hfirst) as [Hc Hr].
  rewrite Hc, Hr in Hloc2.
  rewrite <- (snapshot_file_name_same s1 s2 _ _ Hsym Hclock) in Hloc2.
  assert (Heq : loc2 = loc1) by congruence.
  split; [exact Heq|]. rewrite <- Heq.
  exact (save_then_load _ _ _ _ _ _ Hsecond).
Qed.

Lemma same_second_overwrites_witness :
  sample_location = sample_location
  /\ load_snapshot sample_location twice_saved = (Ok (load (dump (VInt 2))), twice_saved).
Proof.
  refine (same_second_overwrites (VInt 1) (VInt 2) "ETHUSDT" "ethusdt" SNAPSHOT_DIR
            fast_world once_saved twice_saved sample_location sample_location
            first_save second_save _ _).
  - reflexivity.
  - repeat split.
Defined.

(** ** The connection of a client *)

Lemma call_heap (h : list BinanceClient) (url : string) (x : option HttpxClient)
      (k : client_call) (w : world) :
  w_heap w = (h ++ [mkClient url x])%list ->
  x = None \/ x = Some (mkHttpx url REQUEST_TIMEOUT) ->
  w_heap (snd (call (length h) k w))
  = (h ++ [mkClient url (connection_after url [k] x)])%list.
Proof.
  intros Hheap Hx. destruct k as [op symbol answer|].
  - cbn [call]. rewrite request_run. cbn [snd after_request w_heap].
    rewrite Hheap, alter_last. destruct Hx as [-> | ->]; reflexivity.
  - cbn [call]. unfold BinanceClient_close. rewrite bind_run.
    cbn [emit update_client snd set_heap set_trace w_heap].
    rewrite Hheap, alter_last. reflexivity.
Qed.

Lemma after_calls_heap (h : list BinanceClient) (url : string) (ks : list client_call) :
  forall (x : option HttpxClient) (w : world),
    w_heap w = (h ++ [mkClient url x])%list ->
    x = None \/ x = Some (mkHttpx url REQUEST_TIMEOUT) ->
    w_heap (after_calls (length h) ks w)
    = (h ++ [mkClient url (connection_after url ks x)])%list.
Proof.
  induction ks as [|k ks IH]; intros x w Hheap Hx.
  - exact Hheap.
  - change (after_calls (length h) (k :: ks) w)
      with (after_calls (length h) ks (snd (call (length h) k w))).
    rewrite (IH (connection_after url [k] x)).
    + f_equal. f_equal. f_equal. unfold connection_after.
      destruct ks as [|k' ks]; [reflexivity|].
      change (last (k :: k' :: ks)) with (last (k' :: ks)).
      destruct (last (k' :: ks)) as [[]|] eqn:E; try reflexivity.
      apply last_None in E. discriminate E.
    + apply call_heap; assumption.
    + destruct k; [right | left]; reflexivity.
Qed.

(** X8. A client made by [BinanceClient()] and then used for any series of
    requests and [close] calls, whatever the requests return or raise, ends
    with the connection of the last call: one to the configured address with
    the configured timeout after a request, none after [close] or when
    never used. Its address stays the configured one and the clients that
    existed before are untouched. *)
Theorem client_connection (ks : list client_call) (w : world) :
  let c := length (w_heap w) in
  let started := snd (BinanceClient_new w) in
  fst (BinanceClient_new w) = Ok c
  /\ w_heap (after_calls c ks started)
     = (w_heap w
        ++ [mkClient BINANCE_BASE_URL
                     (match last ks with
                      | Some (CallRequest _ _ _) =>
                          Some (mkHttpx BINANCE_BASE_URL REQUEST_TIMEOUT)
                      | _ => None
                      end)])%list.
Proof.
  intros c started. split; [reflexivity|].
  unfold c, started.
  rewrite (after_calls_heap (w_heap w) BINANCE_BASE_URL ks None);
    [|reflexivity|left; reflexivity].
  unfold connection_after. destruct (last ks) as [[]|]; reflexivity.
Qed.

(** X9. [ping] sends one request and never ends with an [Exception]: it is
    [True] when the request succeeds and [False] when it raises an
    [Exception]; what is no [Exception] ([KeyboardInterrupt], [SystemExit])
    passes through. On every outcome the client is left with its
    connection and the rest of the world as it was. *)
Theorem ping_outcomes (src : MarketDataSource) (c : nat) (w : world) :
  let run := ping src c w in
  (fst run = Ok true <-> exists u, src_ping src = Ok u)
  /\ (fst run = Ok false <-> exists cls msg, src_ping src = Raise (Exception cls msg))
  /\ (forall e, fst run = Raise e <-> src_ping src = Raise e /\ is_Exception e = false)
  /\ snd run = after_request c OpPing "" w.
Proof.
  cbv zeta. rewrite ping_run. cbn [fst snd].
  destruct (src_ping src) as [u|[cls msg|code|]]; cbn [is_Exception].
  - split; [split; [intros _; exists u; reflexivity | reflexivity]|].
    split; [split; [discriminate | intros (? & ? & ?); discriminate]|].
    split; [|reflexivity].
    intros e. split; [discriminate | intros [? _]; discriminate].
  - split; [split; [discriminate | intros (? & ?); discriminate]|].
    split; [split; [intros _; exists cls, msg; reflexivity | reflexivity]|].
    split; [|reflexivity].
    intros e. split; [discriminate|].
    intros [H He]. injection H as <-. discriminate He.
  - split; [split; [discriminate | intros (? & ?); discriminate]|].
    split; [split; [discriminate | intros (? & ? & ?); discriminate]|].
    split; [|reflexivity].
    intros e. split.
    + intros H. injection H as <-. split; reflexivity.
    + intros [H _]. injection H as <-. reflexivity.
  - split; [split; [discriminate | intros (? & ?); discriminate]|].
    split; [split; [discriminate | intros (? & ? & ?); discriminate]|].
    split; [|reflexivity].
    intros e. split.
    + intros H. injection H as <-. split; reflexivity.
    + intros [H _]. injection H as <-. reflexivity.
Qed.

(** ** The display *)

Lemma cmd_snapshot_body_display src format symbol client :
  cmd_snapshot_body src format symbol client
  = (reachable ← ping src client;
     if negb reachable then
       print cannot_connect;;
       ret true
     else
       print ("  Collecting data for " ++ symbol ++ "...");;
       print "";;
       snapshot ← create_market_snapshot src symbol (Some client) None;
       display_snapshot format symbol snapshot).
Proof. reflexivity. Qed.

Lemma set_stdout_nil w : set_stdout (w_stdout w ++ []) w = w.
Proof. destruct w. unfold set_stdout. cbn. rewrite app_nil_r. reflexivity. Qed.

Lemma set_stdout_twice w a b :
  set_stdout (w_stdout (set_stdout (w_stdout w ++ a) w) ++ b) (set_stdout (w_stdout w ++ a) w)
  = set_stdout (w_stdout w ++ (a ++ b)) w.
Proof. unfold set_stdout. cbn. rewrite app_assoc. reflexivity. Qed.

Lemma prints_only_ret {A} (a : A) : prints_only (ret a).
Proof. intros w. exists []. symmetry. apply set_stdout_nil. Qed.

Lemma prints_only_raise {A} (e : exn) : prints_only (@raise A e).
Proof. intros w. exists []. symmetry. apply set_stdout_nil. Qed.

Lemma prints_only_lift {A} (r : result A) : prints_only (lift r).
Proof. intros w. exists []. symmetry. apply set_stdout_nil. Qed.

Lemma prints_only_print line : prints_only (print line).
Proof. intros w. exists [line]. reflexivity. Qed.

Lemma prints_only_bind {A B} (m : M A) (k : A -> M B) :
  prints_only m -> (forall a, prints_only (k a)) -> prints_only (m ≫= k).
Proof.
  intros Hm Hk w. rewrite bind_run. destruct (Hm w) as [a Ha].
  destruct (m w) as [[x|e] w1]; cbn [snd] in *.
  - destruct (Hk x w1) as [b Hb]. exists (a ++ b)%list.
    rewrite Hb, Ha. apply set_stdout_twice.
  - exists a. exact Ha.
Qed.

Lemma prints_only_getitem_M k v : prints_only (getitem_M k v).
Proof.
  unfold getitem_M. destruct (getitem k v); [apply prints_only_ret | apply prints_only_raise].
Qed.

Lemma prints_only_as_num v : prints_only (as_num v).
Proof. destruct v; first [apply prints_only_ret | apply prints_only_raise]. Qed.

Lemma prints_only_percent_of x y : prints_only (percent_of x y).
Proof.
  unfold percent_of.
  repeat first [ apply prints_only_bind; [|intros ?]
               | apply prints_only_as_num | apply prints_only_lift
               | apply prints_only_ret ].
Qed.

Lemma display_snapshot_prints format symbol snapshot :
  prints_only (display_snapshot format symbol snapshot).
Proof.
  unfold display_snapshot.
  repeat first [ apply prints_only_percent_of | apply prints_only_getitem_M
               | apply prints_only_print | apply prints_only_ret
               | apply prints_only_bind; [|intros ?] ].
Qed.

(** The display divides the count of buy trades by the number of trades:
    with no trade in the sample it ends in a division of zero by zero. *)
Lemma display_no_trades format symbol created ticker_price ticker_24h order_book
      avg_price book_ticker klines_1h klines_4h klines_1d spread_pct w :
  fst (display_snapshot format symbol
         (snapshot_document symbol created ticker_price ticker_24h order_book []
            avg_price book_ticker klines_1h klines_4h klines_1d spread_pct) w)
  = Raise (ZeroDivisionError "division by zero").
Proof. vm_compute. reflexivity. Qed.

Lemma display_trades format symbol created ticker_price ticker_24h order_book
      recent_trades avg_price book_ticker klines_1h klines_4h klines_1d spread_pct w :
  recent_trades <> [] ->
  fst (display_snapshot format symbol
         (snapshot_document symbol created ticker_price ticker_24h order_book
            recent_trades avg_price book_ticker klines_1h klines_4h klines_1d
            spread_pct) w)
  = Ok false.
Proof.
  destruct recent_trades as [|t0 ts]; [congruence|]. intros _.
  unfold snapshot_document, trade_section.
  rewrite trades_buy_count, trades_sell_count.
  generalize (count_trades buyer_initiated (t0 :: ts)).
  generalize (count_trades seller_initiated (t0 :: ts)).
  generalize (figure (buy_sell_ratio (t0 :: ts))).
  generalize (figure (avg_trade_size (t0 :: ts))).
  intros a b sells buys.
  vm_compute. reflexivity.
Qed.

Lemma print_mk line clock reads fs heap trace out log :
  print line (mkWorld clock reads fs heap trace out log)
  = (Ok tt, mkWorld clock reads fs heap trace (out ++ [line]) log).
Proof. reflexivity. Qed.

Lemma now_mk clock reads fs heap trace out log :
  now (mkWorld clock reads fs heap trace out log)
  = (Ok (clock reads), mkWorld clock (S reads) fs heap trace out log).
Proof. reflexivity. Qed.

Lemma print_header_run symbol mode w :
  exists lines,
    print_header symbol mode w
    = (Ok tt, mkWorld (w_clock w) (S (w_reads w)) (w_fs w) (w_heap w) (w_trace w)
                      (w_stdout w ++ lines) (w_log w)).
Proof.
  destruct w as [clock reads fs heap trace out log]. unfold print_header.
  repeat (rewrite bind_run; first [rewrite print_mk | rewrite now_mk]).
  rewrite print_mk.
  cbn [w_clock w_reads w_fs w_heap w_trace w_stdout w_log].
  eexists. f_equal. f_equal. rewrite <- !app_assoc. reflexivity.
Qed.

Lemma print_footer_run w :
  exists lines,
    print_footer w
    = (Ok tt, mkWorld (w_clock w) (S (w_reads w)) (w_fs w) (w_heap w) (w_trace w)
                      (w_stdout w ++ lines) (w_log w)).
Proof.
  destruct w as [clock reads fs heap trace out log]. unfold print_footer.
  repeat (rewrite bind_run; first [rewrite print_mk | rewrite now_mk]).
  rewrite print_mk.
  cbn [w_clock w_reads w_fs w_heap w_trace w_stdout w_log].
  eexists. f_equal. f_equal. rewrite <- !app_assoc. reflexivity.
Qed.

(** The [with] block of [cmd_snapshot] on a service that answers: the
    document is saved, and the block ends as the display of it ends. *)
Lemma cmd_snapshot_body_fetched src format symbol c w
      ticker_price ticker_24h order_book recent_trades avg_price book_ticker
      klines_1h klines_4h klines_1d spread_pct (r : result bool) :
  let doc := snapshot_document symbol (w_clock w (w_reads w)) ticker_price ticker_24h
               order_book recent_trades avg_price book_ticker
               klines_1h klines_4h klines_1d spread_pct in
  let name := snapshot_file_name symbol (w_clock w (S (w_reads w))) in
  let target := (parts SNAPSHOT_DIR ++ [name])%list in
  src_ping src = Ok tt ->
  src_ticker_price src symbol = Ok ticker_price ->
  src_ticker_24h src symbol = Ok ticker_24h ->
  src_order_book src symbol 20 = Ok order_book ->
  src_recent_trades src symbol 100 = Ok recent_trades ->
  src_avg_price src symbol = Ok avg_price ->
  src_book_ticker src symbol = Ok book_ticker ->
  src_klines src symbol "1h" 24 = Ok klines_1h ->
  src_klines src symbol "4h" 42 = Ok klines_4h ->
  src_klines src symbol "1d" 30 = Ok klines_1d ->
  spread_percent order_book = Ok spread_pct ->
  slash_free symbol = true ->
  clear_path (w_fs w) (absolute SNAPSHOT_DIR) (parts SNAPSHOT_DIR) ->
  w_fs w !! (absolute SNAPSHOT_DIR, target) <> Some Dir ->
  (forall w0, fst (display_snapshot format symbol doc w0) = r) ->
  exists fs' lines log,
    cmd_snapshot_body src format symbol c w
    = (r, mkWorld (w_clock w) (S (S (w_reads w))) fs' (alter connect c (w_heap w))
                  (w_trace w ++ EvRequest c OpPing "" :: snapshot_requests c symbol
                   ++ [EvSave symbol SNAPSHOT_DIR])
                  (w_stdout w ++ lines) (w_log w ++ log))
    /\ fs' !! (absolute SNAPSHOT_DIR, target) = Some (File (Document (dump doc)))
    /\ (forall key,
           key <> (absolute SNAPSHOT_DIR, target) ->
           (forall k, (1 <= k <= length (parts SNAPSHOT_DIR))%nat ->
                      key <> (absolute SNAPSHOT_DIR, take k (parts SNAPSHOT_DIR))) ->
           fs' !! key = w_fs w !! key).
Proof.
  intros doc name target Hping H1 H2 H3 H4 H5 H6 H7 H8 H9 Hsp Hsym Hclear Htarget Hdisp.
  rewrite cmd_snapshot_body_display, bind_run, ping_run, Hping. cbn [negb].
  rewrite bind_run. cbn [print]. rewrite bind_run. cbn [print].
  rewrite bind_run, create_market_snapshot_supplied. cbn [default].
  lazymatch goal with
  | |- context [snapshot_body src symbol c SNAPSHOT_DIR ?w1] =>
      destruct (snapshot_body_persists src symbol c SNAPSHOT_DIR w1
                  _ _ _ _ _ _ _ _ _ _ H1 H2 H3 H4 H5 H6 H7 H8 H9 Hsp Hsym Hclear Htarget)
        as (fs' & Hrun & Hfile & _ & Hframe)
  end.
  rewrite Hrun. clear Hrun.
  cbn [w_clock w_reads w_fs w_heap w_trace w_stdout w_log set_stdout after_request]
    in Hfile, Hframe |- *.
  fold doc.
  lazymatch goal with
  | |- context [display_snapshot format symbol doc ?w2] =>
      destruct (display_snapshot_prints format symbol doc w2) as [lines Hlines];
      rewrite (surjective_pairing (display_snapshot format symbol doc w2)), Hdisp, Hlines
  end.
  eexists fs', _, _. split; [|split; [exact Hfile | exact Hframe]].
  f_equal. apply world_ext;
    cbn [w_clock w_reads w_fs w_heap w_trace w_stdout w_log set_stdout];
    try reflexivity.
  - apply alter_connect_twice.
  - rewrite <- !app_assoc. reflexivity.
  - rewrite <- !app_assoc. reflexivity.
Qed.

(** X10. [cmd_snapshot] on a service that answers every request (symbol
    without a path separator, nothing in the way of the file under
    [snapshots]): the document is saved, stamped with the clock reading
    after the one of the header, and the client is closed; then the run
    ends well if the sample of recent trades is not empty, and with
    [ZeroDivisionError] if it is empty, since the display divides by the
    number of trades. *)
Theorem cmd_snapshot_outcome (src : MarketDataSource)
        (format : value -> string -> string) (symbol : string) (w : world)
        ticker_price ticker_24h order_book recent_trades avg_price book_ticker
        klines_1h klines_4h klines_1d spread_pct :
  let doc := snapshot_document symbol (w_clock w (S (w_reads w))) ticker_price
               ticker_24h order_book recent_trades avg_price book_ticker
               klines_1h klines_4h klines_1d spread_pct in
  let name := snapshot_file_name symbol (w_clock w (S (S (w_reads w)))) in
  let target := (parts SNAPSHOT_DIR ++ [name])%list in
  let run := cmd_snapshot src format symbol w in
  src_ping src = Ok tt ->
  src_ticker_price src symbol = Ok ticker_price ->
  src_ticker_24h src symbol = Ok ticker_24h ->
  src_order_book src symbol 20 = Ok order_book ->
  src_recent_trades src symbol 100 = Ok recent_trades ->
  src_avg_price src symbol = Ok avg_price ->
  src_book_ticker src symbol = Ok book_ticker ->
  src_klines src symbol "1h" 24 = Ok klines_1h ->
  src_klines src symbol "4h" 42 = Ok klines_4h ->
  src_klines src symbol "1d" 30 = Ok klines_1d ->
  spread_percent order_book = Ok spread_pct ->
  slash_free symbol = true ->
  clear_path (w_fs w) (absolute SNAPSHOT_DIR) (parts SNAPSHOT_DIR) ->
  w_fs w !! (absolute SNAPSHOT_DIR, target) <> Some Dir ->
  fst run = match recent_trades with
            | [] => Raise (ZeroDivisionError "division by zero")
            | _ :: _ => Ok tt
            end
  /\ w_fs (snd run) !! (absolute SNAPSHOT_DIR, target)
     = Some (File (Document (dump doc)))
  /\ w_heap (snd run) = (w_heap w ++ [mkClient BINANCE_BASE_URL None])%list.
Proof.
  intros doc name target run Hping H1 H2 H3 H4 H5 H6 H7 H8 H9 Hsp Hsym Hclear Htarget.
  assert (Hrun : run = cmd_snapshot src format symbol w) by reflexivity.
  clearbody run. unfold cmd_snapshot in Hrun. rewrite bind_run in Hrun.
  destruct (print_header_run symbol "snapshot" w) as [header Hheader].
  rewrite Hheader in Hrun. clear Hheader.
  rewrite bind_run in Hrun. unfold BinanceClient_new at 1 in Hrun.
  rewrite bind_run, try_finally_run in Hrun.
  cbn [set_heap w_clock w_reads w_fs w_heap w_trace w_stdout w_log] in Hrun.
  set (r := match recent_trades with
            | [] => Raise (ZeroDivisionError "division by zero")
            | _ :: _ => Ok false
            end).
  assert (Hdisp : forall w0, fst (display_snapshot format symbol doc w0) = r).
  { intros w0. unfold r, doc. destruct recent_trades as [|t0 ts].
    - apply display_no_trades.
    - apply display_trades. discriminate. }
  lazymatch type of Hrun with
  | context [cmd_snapshot_body src format symbol ?c ?w1] =>
      destruct (cmd_snapshot_body_fetched src format symbol c w1
                  _ _ _ _ _ _ _ _ _ _ r Hping H1 H2 H3 H4 H5 H6 H7 H8 H9 Hsp Hsym
                  Hclear Htarget Hdisp)
        as (fs' & lines & log & Hbody & Hfile & _)
  end.
  rewrite Hbody in Hrun. clear Hbody. cbn [fst snd] in Hrun.
  unfold BinanceClient_close in Hrun. rewrite bind_run in Hrun.
  cbn [emit update_client set_trace set_heap
       w_clock w_reads w_fs w_heap w_trace w_stdout w_log] in Hrun.
  assert (Hheap : alter disconnect (length (w_heap w))
                    (alter connect (length (w_heap w))
                       (w_heap w ++ [mkClient BINANCE_BASE_URL None])%list)
                  = (w_heap w ++ [mkClient BINANCE_BASE_URL None])%list).
  { rewrite list_alter_alter_eq, alter_last. reflexivity. }
  rewrite Hheap in Hrun. unfold r in Hrun. destruct recent_trades as [|t0 ts].
  - subst run. cbn [fst snd w_fs w_heap].
    split; [reflexivity|]. split; [exact Hfile | reflexivity].
  - cbv beta iota in Hrun.
    lazymatch type of Hrun with
    | context [print_footer ?w3] =>
        destruct (print_footer_run w3) as [footer Hfooter]; rewrite Hfooter in Hrun
    end.
    subst run. cbn [fst snd w_fs w_heap].
    split; [reflexivity|]. split; [exact Hfile | reflexivity].
Qed.

Lemma cmd_snapshot_outcome_witness :
  fst (cmd_snapshot no_trades_source sample_format "ETHUSDT" sample_world)
  = Raise (ZeroDivisionError "division by zero")
  /\ exists doc,
      w_fs (snd (cmd_snapshot no_trades_source sample_format "ETHUSDT" sample_world))
        !! (false, ["snapshots"; "ethusdt_20240102_030407.json"])
      = Some (File (Document doc)).
Proof.
  assert (Hsp : spread_percent sample_book = Ok (NFloat 1)) by (vm_compute; reflexivity).
  assert (Hclear : clear_path (w_fs sample_world) (absolute SNAPSHOT_DIR)
                              (parts SNAPSHOT_DIR)).
  { intros k c _. simpl. rewrite lookup_empty. discriminate. }
  assert (Htarget : w_fs sample_world
                      !! (absolute SNAPSHOT_DIR,
                          (parts SNAPSHOT_DIR
                           ++ [snapshot_file_name "ETHUSDT"
                                 (w_clock sample_world (S (S (w_reads sample_world))))])%list)
                    <> Some Dir).
  { simpl. rewrite lookup_empty. discriminate. }
  destruct (cmd_snapshot_outcome no_trades_source sample_format "ETHUSDT" sample_world
              (mkTickerPrice "ETHUSDT" 100.5)
              (mkTicker24h "ETHUSDT" 1 2 3 4 5 6 7 8 9 10 11 12 13 14 15)
              sample_book [] 100.25%float (mkBookTicker "ETHUSDT" 100 2 101 1)
              (map sample_kline [1; 2; 3; 4; 5; 6; 7; 8])
              (map sample_kline [1; 2; 3; 4; 5; 6; 7; 8])
              (map sample_kline [1; 2; 3; 4; 5; 6; 7; 8])
              (NFloat 1)
              eq_refl eq_refl eq_refl eq_refl eq_refl eq_refl eq_refl eq_refl eq_refl
              eq_refl Hsp eq_refl Hclear Htarget)
    as (Hresult & Hfile & _).
  split; [exact Hresult|]. eexists. exact Hfile.
Defined.

(** ** The entry point *)

(** X11. The only [Exception] that can leave [main] is one of the logging
    setup, which runs before the [try]: [main] then ends with that very
    error, in the state the setup left, with nothing printed. Once the
    setup is through, whatever the arguments, the service and the state of
    the process, the run ends well, or with [SystemExit] or
    [KeyboardInterrupt]. *)
Theorem main_catches_exceptions (src : MarketDataSource)
        (format : value -> string -> string) (LOG_LEVEL : string)
        (argv : list string) (w : world) :
  match setup_logging LOG_LEVEL w with
  | (Ok _, _) => ends_in_Exception (fst (main src format LOG_LEVEL argv w)) = false
  | (Raise e, w1) =>
      main src format LOG_LEVEL argv w = (Raise e, w1) /\ w_stdout w1 = w_stdout w
  end.
Proof.
  unfold main. rewrite bind_run.
  destruct (setup_logging_frame LOG_LEVEL w) as [fs' Hframe].
  destruct (setup_logging LOG_LEVEL w) as [[[]|e] w1].
  - destruct argv as [|prog [|arg1 rest]]; [reflexivity | reflexivity |].
    destruct (is_help (Py.upper arg1)); [reflexivity|].
    rewrite bind_run. cbn [log]. rewrite try_except_run.
    lazymatch goal with
    | |- context [match ?cmd ?w0 with (_, _) => _ end] =>
        destruct (cmd w0) as [[u|[cls msg|code|]] w2]
    end; cbn [is_Exception]; reflexivity.
  - split; [reflexivity|]. cbn [snd] in Hframe. rewrite Hframe. reflexivity.
Qed.



Lemma cmd_info_body_display src format symbol client :
  cmd_info_body src format symbol client
  = (reachable ← ping src client;
     if negb reachable then
       print cannot_connect;;
       ret true
     else
       ticker ← get_ticker_24h src client symbol;
       book ← get_book_ticker src client symbol;
       display_info format symbol ticker book).
Proof. reflexivity. Qed.

Lemma display_info_prints format symbol ticker book :
  prints_only (display_info format symbol ticker book).
Proof.
  unfold display_info.
  repeat lazymatch goal with
         | |- prints_only (print _) => apply prints_only_print
         | |- prints_only (ret _) => apply prints_only_ret
         | |- prints_only (percent_of _ _) => apply prints_only_percent_of
         | |- prints_only (_ ≫= _) => apply prints_only_bind; [|intros ?]
         | |- prints_only (let _ := _ in _) => cbv zeta
         end.
Qed.

Lemma percent_of_floats (a b : float) (w : world) :
  percent_of (VFloat a) (VFloat b) w
  = (match truediv (NFloat a) (NFloat b) with
     | Ok q => Ok (of_num (Py.mul q (NInt 100)))
     | Raise e => Raise e
     end, w).
Proof.
  assert (H : percent_of (VFloat a) (VFloat b) w
              = match truediv (NFloat a) (NFloat b) with
                | Ok q => (Ok (of_num (Py.mul q (NInt 100))), w)
                | Raise e => (Raise e, w)
                end) by reflexivity.
  rewrite H. destruct (truediv (NFloat a) (NFloat b)); reflexivity.
Qed.

(** The display divides the spread by the best bid. *)
Lemma display_info_result format symbol ticker book w :
  fst (display_info format symbol ticker book w)
  = if is_zero (NFloat (bid_price book))
    then Raise (ZeroDivisionError "float division by zero")
    else Ok false.
Proof.
  destruct w as [clock reads fs heap trace out log]. unfold display_info.
  repeat (rewrite bind_run, print_mk).
  cbv zeta. rewrite bind_run. cbn [Py.sub of_num]. rewrite percent_of_floats.
  unfold truediv. destruct (is_zero (NFloat (bid_price book))); [reflexivity|].
  rewrite bind_run, print_mk. reflexivity.
Qed.

(** X13. [cmd_info] on a service that answers the check and its two
    requests ends well unless the best bid it is quoted is zero: then the
    percentage of the spread is a division by zero and the run ends with
    [ZeroDivisionError]. Either way the client is closed and the disk is
    not touched. *)
Theorem cmd_info_outcome (src : MarketDataSource)
        (format : value -> string -> string) (symbol : string) (w : world)
        (ticker : Ticker24h) (book : BookTicker) :
  let run := cmd_info src format symbol w in
  src_ping src = Ok tt ->
  src_ticker_24h src symbol = Ok ticker ->
  src_book_ticker src symbol = Ok book ->
  fst run = (if is_zero (NFloat (bid_price book))
             then Raise (ZeroDivisionError "float division by zero")
             else Ok tt)
  /\ w_fs (snd run) = w_fs w
  /\ w_heap (snd run) = (w_heap w ++ [mkClient BINANCE_BASE_URL None])%list.
Proof.
  intros run Hping Hticker Hbook.
  assert (Hrun : run = cmd_info src format symbol w) by reflexivity.
  clearbody run. unfold cmd_info in Hrun. rewrite bind_run in Hrun.
  destruct (print_header_run symbol "info" w) as [header Hheader].
  rewrite Hheader in Hrun. clear Hheader.
  rewrite bind_run in Hrun. unfold BinanceClient_new at 1 in Hrun.
  rewrite bind_run, try_finally_run in Hrun.
  cbn [set_heap w_clock w_reads w_fs w_heap w_trace w_stdout w_log] in Hrun.
  set (r := if is_zero (NFloat (bid_price book))
            then Raise (ZeroDivisionError "float division by zero")
            else Ok false) in *.
  lazymatch type of Hrun with
  | context [cmd_info_body src format symbol ?c ?w1] =>
      assert (Hbody : exists lines,
                 cmd_info_body src format symbol c w1
                 = (r, mkWorld (w_clock w1) (w_reads w1) (w_fs w1)
                               (alter connect c (w_heap w1))
                               (w_trace w1 ++ [EvRequest c OpPing "";
                                               EvRequest c OpTicker24h symbol;
                                               EvRequest c OpBookTicker symbol])
                               (w_stdout w1 ++ lines) (w_log w1)))
  end.
  { rewrite cmd_info_body_display, bind_run, ping_run, Hping. cbn [negb].
    unfold get_ticker_24h, get_book_ticker.
    rewrite bind_run, request_run, Hticker. rewrite bind_run, request_run, Hbook.
    lazymatch goal with
    | |- context [display_info format symbol ticker book ?w2] =>
        destruct (display_info_prints format symbol ticker book w2) as [lines Hlines];
        rewrite (surjective_pairing (display_info format symbol ticker book w2)),
          display_info_result, Hlines
    end.
    exists lines. f_equal. apply world_ext;
      cbn [w_clock w_reads w_fs w_heap w_trace w_stdout w_log set_stdout after_request];
      try reflexivity.
    - rewrite !alter_connect_twice. reflexivity.
    - rewrite <- !app_assoc. reflexivity. }
  destruct Hbody as [lines Hbody]. rewrite Hbody in Hrun. clear Hbody.
  cbn [fst snd w_clock w_reads w_fs w_heap w_trace w_stdout w_log] in Hrun.
  unfold BinanceClient_close in Hrun. rewrite bind_run in Hrun.
  cbn [emit update_client set_trace set_heap
       w_clock w_reads w_fs w_heap w_trace w_stdout w_log] in Hrun.
  assert (Hheap : alter disconnect (length (w_heap w))
                    (alter connect (length (w_heap w))
                       (w_heap w ++ [mkClient BINANCE_BASE_URL None])%list)
                  = (w_heap w ++ [mkClient BINANCE_BASE_URL None])%list).
  { rewrite list_alter_alter_eq, alter_last. reflexivity. }
  rewrite Hheap in Hrun. unfold r in Hrun.
  destruct (is_zero (NFloat (bid_price book))).
  - subst run. cbn [fst snd w_fs w_heap]. repeat split.
  - cbv beta iota in Hrun.
    lazymatch type of Hrun with
    | context [print_footer ?w3] =>
        destruct (print_footer_run w3) as [footer Hfooter]; rewrite Hfooter in Hrun
    end.
    subst run. cbn [fst snd w_fs w_heap]. repeat split.
Qed.

Lemma cmd_info_outcome_witness :
  fst (cmd_info zero_quote_source sample_format "ETHUSDT" sample_world)
  = Raise (ZeroDivisionError "float division by zero")
  /\ w_fs (snd (cmd_info zero_quote_source sample_format "ETHUSDT" sample_world))
     = w_fs sample_world
  /\ w_heap (snd (cmd_info zero_quote_source sample_format "ETHUSDT" sample_world))
     = (w_heap sample_world ++ [mkClient BINANCE_BASE_URL None])%list.
Proof.
  exact (cmd_info_outcome zero_quote_source sample_format "ETHUSDT" sample_world
           (mkTicker24h "ETHUSDT" 1 2 3 4 5 6 7 8 9 10 11 12 13 14 15)
           (mkBookTicker "ETHUSDT" 0 2 101 1) eq_refl eq_refl eq_refl).
Defined.

(** ** The client of a command *)

Lemma client_kept_trans c w w0 w1 :
  client_kept c w w0 -> client_kept c w0 w1 -> client_kept c w w1.
Proof.
  intros (Hh & evs & Ht & He) (Hh' & evs' & Ht' & He'). split.
  - rewrite Hh', Hh. apply alter_connect_twice.
  - exists (evs ++ evs')%list. split.
    + rewrite Ht', Ht, app_assoc. reflexivity.
    + rewrite forallb_app, He, He'. reflexivity.
Qed.

Lemma keeps_raise c {A} (e : exn) : keeps_client c (@raise A e).
Proof. intros w w0 H. exact H. Qed.

Lemma keeps_getitem_M c k v : keeps_client c (getitem_M k v).
Proof.
  unfold getitem_M. destruct (getitem k v); [apply keeps_ret | apply keeps_raise].
Qed.

Lemma keeps_as_num c v : keeps_client c (as_num v).
Proof. destruct v; first [apply keeps_ret | apply keeps_raise]. Qed.

Lemma keeps_percent_of c x y : keeps_client c (percent_of x y).
Proof.
  unfold percent_of.
  repeat first [ apply keeps_as_num | apply keeps_lift | apply keeps_ret
               | apply keeps_bind; [|intros ?] ].
Qed.

Lemma keeps_create_supplied src symbol c out :
  keeps_client c (create_market_snapshot src symbol (Some c) out).
Proof.
  intros w w0 H. rewrite create_market_snapshot_supplied.
  apply (client_kept_trans c w w0); [exact H | apply snapshot_body_keeps].
Qed.

Ltac keeps_display :=
  repeat lazymatch goal with
         | |- keeps_client _ (print _) => apply keeps_print
         | |- keeps_client _ (ret _) => apply keeps_ret
         | |- keeps_client _ (getitem_M _ _) => apply keeps_getitem_M
         | |- keeps_client _ (percent_of _ _) => apply keeps_percent_of
         | |- keeps_client _ (_ ≫= _) => apply keeps_bind; [|intros ?]
         | |- keeps_client _ (let _ := _ in _) => cbv zeta
         end.

Lemma keeps_display_snapshot c format symbol snapshot :
  keeps_client c (display_snapshot format symbol snapshot).
Proof. unfold display_snapshot. keeps_display. Qed.

Lemma keeps_display_info c format symbol ticker book :
  keeps_client c (display_info format symbol ticker book).
Proof. unfold display_info. keeps_display. Qed.

Lemma pinged_kept c w : client_kept c w (after_request c OpPing "" w).
Proof. split; [reflexivity|]. exists [EvRequest c OpPing ""]. split; reflexivity. Qed.

Lemma cmd_snapshot_body_kept src format symbol c w :
  client_kept c w (snd (cmd_snapshot_body src format symbol c w)).
Proof.
  rewrite cmd_snapshot_body_display, bind_run, ping_run.
  pose proof (pinged_kept c w) as Hfirst. revert Hfirst.
  generalize (after_request c OpPing "" w). intros w0 Hfirst.
  assert (Hdown : client_kept c w (snd ((print cannot_connect;; ret true) w0))).
  { revert Hfirst. generalize w0. generalize w.
    change (keeps_client c (print cannot_connect;; ret true)). keeps_display. }
  destruct (src_ping src) as [u|e].
  - cbn [negb]. revert Hfirst. generalize w0. generalize w.
    lazymatch goal with
    | |- forall w1 w2, client_kept c w1 w2 -> client_kept c w1 (snd (?m w2)) =>
        change (keeps_client c m)
    end.
    apply keeps_bind; [apply keeps_print | intros ?].
    apply keeps_bind; [apply keeps_print | intros ?].
    apply keeps_bind; [apply keeps_create_supplied | intros snapshot].
    apply keeps_display_snapshot.
  - destruct (is_Exception e); [exact Hdown | exact Hfirst].
Qed.

Lemma cmd_info_body_kept src format symbol c w :
  client_kept c w (snd (cmd_info_body src format symbol c w)).
Proof.
  rewrite cmd_info_body_display, bind_run, ping_run.
  pose proof (pinged_kept c w) as Hfirst. revert Hfirst.
  generalize (after_request c OpPing "" w). intros w0 Hfirst.
  assert (Hdown : client_kept c w (snd ((print cannot_connect;; ret true) w0))).
  { revert Hfirst. generalize w0. generalize w.
    change (keeps_client c (print cannot_connect;; ret true)). keeps_display. }
  destruct (src_ping src) as [u|e].
  - cbn [negb]. revert Hfirst. generalize w0. generalize w.
    lazymatch goal with
    | |- forall w1 w2, client_kept c w1 w2 -> client_kept c w1 (snd (?m w2)) =>
        change (keeps_client c m)
    end.
    unfold get_ticker_24h, get_book_ticker.
    apply keeps_bind; [apply keeps_request | intros ticker].
    apply keeps_bind; [apply keeps_request | intros book].
    apply keeps_display_info.
  - destruct (is_Exception e); [exact Hdown | exact Hfirst].
Qed.

(** A command of the shape of [cmd_info] and [cmd_snapshot]: the header, a
    client of its own in a [with] block, the footer unless the block left
    by [return]. *)
Lemma with_block_closes (body : nat -> M bool) (symbol mode : string) (w : world) :
  (forall c w0, client_kept c w0 (snd (body c w0))) ->
  let own := length (w_heap w) in
  let run := (print_header symbol mode;;
              client ← BinanceClient_new;
              returned ← try_finally (body client) (BinanceClient_close client);
              if returned : bool then ret tt else print_footer) w in
  w_heap (snd run) = (w_heap w ++ [mkClient BINANCE_BASE_URL None])%list
  /\ exists evs,
      w_trace (snd run) = (w_trace w ++ evs ++ [EvClose own])%list
      /\ forallb (fun ev => negb (is_close ev)) evs = true.
Proof.
  intros Hkept own run.
  assert (Hrun : run = (print_header symbol mode;;
                        client ← BinanceClient_new;
                        returned ← try_finally (body client) (BinanceClient_close client);
                        if returned : bool then ret tt else print_footer) w)
    by reflexivity.
  clearbody run. rewrite bind_run in Hrun.
  destruct (print_header_run symbol mode w) as [header Hheader].
  rewrite Hheader in Hrun. clear Hheader.
  rewrite bind_run in Hrun. unfold BinanceClient_new at 1 in Hrun.
  rewrite bind_run, try_finally_run in Hrun.
  cbn [set_heap w_clock w_reads w_fs w_heap w_trace w_stdout w_log] in Hrun.
  fold own in Hrun.
  lazymatch type of Hrun with
  | context [body own ?w1] =>
      destruct (Hkept own w1) as (Hh & evs & Ht & He);
      destruct (body own w1) as [r wb]
  end.
  unfold set_heap in Hh, Ht.
  cbn [fst snd w_clock w_reads w_fs w_heap w_trace w_stdout w_log] in Hh, Ht, Hrun.
  unfold BinanceClient_close in Hrun. rewrite bind_run in Hrun.
  cbn [emit update_client set_trace set_heap
       w_clock w_reads w_fs w_heap w_trace w_stdout w_log] in Hrun.
  rewrite Hh, Ht in Hrun. unfold own in Hrun.
  rewrite list_alter_alter_eq, alter_last in Hrun. fold own in Hrun.
  cbn [disconnect connect base_url _client] in Hrun.
  destruct r as [[|]|e].
  - subst run. cbn [snd w_heap w_trace]. split; [reflexivity|].
    exists evs. split; [rewrite app_assoc; reflexivity | exact He].
  - cbv beta iota in Hrun.
    lazymatch type of Hrun with
    | context [print_footer ?w3] =>
        destruct (print_footer_run w3) as [footer Hfooter]; rewrite Hfooter in Hrun
    end.
    subst run. cbn [snd w_heap w_trace]. split; [reflexivity|].
    exists evs. split; [rewrite app_assoc; reflexivity | exact He].
  - subst run. cbn [snd w_heap w_trace]. split; [reflexivity|].
    exists evs. split; [rewrite app_assoc; reflexivity | exact He].
Qed.

(** X14. Both commands close the client they make, whatever happens in
    between: on every outcome of [cmd_snapshot] and of [cmd_info] (service
    out of reach, a fetch or the display raising, success) the client ends
    with no connection, the clients that existed are as they were, and its
    [close] is the last call of the run and the only [close]. *)
Theorem commands_close_their_client (src : MarketDataSource)
        (format : value -> string -> string) (symbol : string) (w : world) :
  let own := length (w_heap w) in
  (w_heap (snd (cmd_snapshot src format symbol w))
   = (w_heap w ++ [mkClient BINANCE_BASE_URL None])%list
   /\ exists evs,
       w_trace (snd (cmd_snapshot src format symbol w))
       = (w_trace w ++ evs ++ [EvClose own])%list
       /\ forallb (fun ev => negb (is_close ev)) evs = true)
  /\ (w_heap (snd (cmd_info src format symbol w))
      = (w_heap w ++ [mkClient BINANCE_BASE_URL None])%list
      /\ exists evs,
          w_trace (snd (cmd_info src format symbol w))
          = (w_trace w ++ evs ++ [EvClose own])%list
          /\ forallb (fun ev => negb (is_close ev)) evs = true).
Proof.
  intros own. split.
  - apply (with_block_closes (cmd_snapshot_body src format symbol) symbol "snapshot" w).
    intros c w0. apply cmd_snapshot_body_kept.
  - apply (with_block_closes (cmd_info_body src format symbol) symbol "info" w).
    intros c w0. apply cmd_info_body_kept.
Qed.

(** ** What a run of the assembler leaves alone *)

Ltac frame_done H :=
  rewrite H;
  cbn [snd fst w_clock w_reads w_fs w_stdout after_request set_log set_reads
       failure omap list_omap id head];
  repeat split.

Ltac frame_step H :=
  rewrite bind_run, request_run in H;
  lazymatch type of H with
  | context [match ?answer with Ok _ => _ | Raise _ => _ end] =>
      destruct answer as [?|?] eqn:?; [|frame_done H]
  end.

Lemma snapshot_body_frame src symbol c out w :
  w_stdout (snd (snapshot_body src symbol c out w)) = w_stdout w
  /\ w_clock (snd (snapshot_body src symbol c out w)) = w_clock w
  /\ if document_made src symbol then True
     else w_fs (snd (snapshot_body src symbol c out w)) = w_fs w
          /\ w_reads (snd (snapshot_body src symbol c out w)) = w_reads w.
Proof.
  remember (snapshot_body src symbol c out w) as run eqn:Hrun.
  unfold document_made, first_failure, fetch_failures.
  unfold snapshot_body, get_ticker_price, get_ticker_24h, get_order_book,
    get_recent_trades, get_avg_price, get_book_ticker, get_klines in Hrun.
  rewrite bind_run in Hrun. cbn [log] in Hrun.
  do 9 frame_step Hrun.
  rewrite bind_run in Hrun. unfold lift at 1 in Hrun. rewrite buy_sell_ratio_Ok in Hrun.
  rewrite bind_run in Hrun. unfold lift at 1 in Hrun. rewrite bid_ask_ratio_Ok in Hrun.
  rewrite bind_run in Hrun. unfold lift at 1 in Hrun.
  cbn [failure omap list_omap id head].
  lazymatch type of Hrun with
  | context [match spread_percent ?ob with Ok _ => _ | Raise _ => _ end] =>
      destruct (spread_percent ob) as [?|?] eqn:?; [|frame_done Hrun]
  end.
  rewrite bind_run in Hrun. cbn [now] in Hrun.
  rewrite bind_run in Hrun. unfold lift at 1 in Hrun. rewrite avg_trade_size_Ok in Hrun.
  rewrite bind_run, save_snapshot_run in Hrun. cbv zeta in Hrun.
  destruct (Path_mkdir out _) as [fs1|?]; [|frame_done Hrun].
  destruct (write_file _ _ fs1) as [fs2|?]; frame_done Hrun.
Qed.

(** X15. No run of [create_market_snapshot] prints anything or changes
    the clock; and unless the document was made (every fetch through and
    the spread percentage out), the disk is as it was and the clock was
    not read. *)
Theorem assembler_frame (src : MarketDataSource) (symbol : string)
        (client : option nat) (output_dir : option Path) (w : world) :
  let run := create_market_snapshot src symbol client output_dir w in
  w_stdout (snd run) = w_stdout w
  /\ w_clock (snd run) = w_clock w
  /\ if document_made src symbol then True
     else w_fs (snd run) = w_fs w /\ w_reads (snd run) = w_reads w.
Proof.
  intros run. subst run. destruct client as [c|].
  - rewrite create_market_snapshot_supplied. apply snapshot_body_frame.
  - rewrite create_market_snapshot_own. cbv zeta.
    cbn [snd set_heap set_trace w_stdout w_clock w_fs w_reads].
    apply (snapshot_body_frame src symbol (length (w_heap w))
             (default SNAPSHOT_DIR output_dir)
             (set_heap (w_heap w ++ [mkClient BINANCE_BASE_URL None]) w)).
Qed.

Lemma create_market_snapshot_body src symbol client output_dir w :
  exists c w0,
    fst (create_market_snapshot src symbol client output_dir w)
    = fst (snapshot_body src symbol c (default SNAPSHOT_DIR output_dir) w0)
    /\ w_fs (snd (create_market_snapshot src symbol client output_dir w))
       = w_fs (snd (snapshot_body src symbol c (default SNAPSHOT_DIR output_dir) w0))
    /\ w_reads (snd (create_market_snapshot src symbol client output_dir w))
       = w_reads (snd (snapshot_body src symbol c (default SNAPSHOT_DIR output_dir) w0))
    /\ w_fs w0 = w_fs w /\ w_reads w0 = w_reads w /\ w_clock w0 = w_clock w.
Proof.
  destruct client as [c|].
  - exists c, w. rewrite create_market_snapshot_supplied. repeat split.
  - exists (length (w_heap w)),
           (set_heap (w_heap w ++ [mkClient BINANCE_BASE_URL None]) w).
    rewrite create_market_snapshot_own. repeat split.
Qed.

Lemma first_failure_None src symbol :
  first_failure src symbol = None ->
  exists ticker_price ticker_24h order_book recent_trades avg_price book_ticker
         klines_1h klines_4h klines_1d,
    src_ticker_price src symbol = Ok ticker_price
    /\ src_ticker_24h src symbol = Ok ticker_24h
    /\ src_order_book src symbol 20 = Ok order_book
    /\ src_recent_trades src symbol 100 = Ok recent_trades
    /\ src_avg_price src symbol = Ok avg_price
    /\ src_book_ticker src symbol = Ok book_ticker
    /\ src_klines src symbol "1h" 24 = Ok klines_1h
    /\ src_klines src symbol "4h" 42 = Ok klines_4h
    /\ src_klines src symbol "1d" 30 = Ok klines_1d.
Proof.
  unfold first_failure, fetch_failures. intros H.
  destruct (src_ticker_price src symbol) as [tp|?]; [|discriminate H].
  destruct (src_ticker_24h src symbol) as [t24|?]; [|discriminate H].
  destruct (src_order_book src symbol 20) as [ob|?]; [|discriminate H].
  destruct (src_recent_trades src symbol 100) as [ts|?]; [|discriminate H].
  destruct (src_avg_price src symbol) as [avg|?]; [|discriminate H].
  destruct (src_book_ticker src symbol) as [bt|?]; [|discriminate H].
  destruct (src_klines src symbol "1h" 24) as [k1|?]; [|discriminate H].
  destruct (src_klines src symbol "4h" 42) as [k4|?]; [|discriminate H].
  destruct (src_klines src symbol "1d" 30) as [kd|?]; [|discriminate H].
  exists tp, t24, ob, ts, avg, bt, k1, k4, kd. repeat split; reflexivity.
Qed.

Lemma snapshot_body_spread_failure src symbol c out w
      ticker_price ticker_24h order_book recent_trades avg_price book_ticker
      klines_1h klines_4h klines_1d e :
  src_ticker_price src symbol = Ok ticker_price ->
  src_ticker_24h src symbol = Ok ticker_24h ->
  src_order_book src symbol 20 = Ok order_book ->
  src_recent_trades src symbol 100 = Ok recent_trades ->
  src_avg_price src symbol = Ok avg_price ->
  src_book_ticker src symbol = Ok book_ticker ->
  src_klines src symbol "1h" 24 = Ok klines_1h ->
  src_klines src symbol "4h" 42 = Ok klines_4h ->
  src_klines src symbol "1d" 30 = Ok klines_1d ->
  spread_percent order_book = Raise e ->
  fst (snapshot_body src symbol c out w) = Raise e.
Proof.
  intros H1 H2 H3 H4 H5 H6 H7 H8 H9 Hsp.
  unfold snapshot_body, get_ticker_price, get_ticker_24h, get_order_book,
    get_recent_trades, get_avg_price, get_book_ticker, get_klines.
  rewrite bind_run. cbn [log].
  rewrite bind_run, request_run, H1.
  rewrite bind_run, request_run, H2.
  rewrite bind_run, request_run, H3.
  rewrite bind_run, request_run, H4.
  rewrite bind_run, request_run, H5.
  rewrite bind_run, request_run, H6.
  rewrite bind_run, request_run, H7.
  rewrite bind_run, request_run, H8.
  rewrite bind_run, request_run, H9.
  rewrite bind_run. unfold lift at 1. rewrite buy_sell_ratio_Ok.
  rewrite bind_run. unfold lift at 1. rewrite bid_ask_ratio_Ok.
  rewrite bind_run. unfold lift at 1. rewrite Hsp. reflexivity.
Qed.

Lemma spread_percent_zero (ob : OrderBookDepth) (p q : float) rest :
  bids ob = (p, q) :: rest -> PrimFloat.eqb p 0 = true ->
  spread_percent ob = Raise (ZeroDivisionError "float division by zero").
Proof.
  intros Hbids Hp. unfold spread_percent. rewrite Hbids.
  unfold truediv. cbn [is_zero]. rewrite Hp.
  destruct (spread ob); reflexivity.
Qed.

(** X16. Whenever every fetch succeeds and the best bid of the book is
    priced at zero (of either sign), [create_market_snapshot] ends with
    [ZeroDivisionError], whatever the rest of the data: the percentage of
    the spread divides by that price. Nothing is written and the clock is
    not read. *)
Theorem zero_best_bid_aborts (src : MarketDataSource) (symbol : string)
        (client : option nat) (output_dir : option Path) (w : world)
        (order_book : OrderBookDepth) (p q : float) (rest : list (float * float)) :
  let run := create_market_snapshot src symbol client output_dir w in
  first_failure src symbol = None ->
  src_order_book src symbol 20 = Ok order_book ->
  bids order_book = (p, q) :: rest ->
  PrimFloat.eqb p 0 = true ->
  fst run = Raise (ZeroDivisionError "float division by zero")
  /\ w_fs (snd run) = w_fs w
  /\ w_reads (snd run) = w_reads w.
Proof.
  intros run Hfetched Hbook Hbids Hp. subst run.
  pose proof (spread_percent_zero _ _ _ _ Hbids Hp) as Hsp.
  destruct (first_failure_None _ _ Hfetched)
    as (tp & t24 & ob & ts & avg & bt & k1 & k4 & kd
        & H1 & H2 & H3 & H4 & H5 & H6 & H7 & H8 & H9).
  assert (ob = order_book) by congruence. subst ob.
  destruct (create_market_snapshot_body src symbol client output_dir w)
    as (c & w0 & -> & -> & -> & Hfs & Hreads & _).
  pose proof (snapshot_body_frame src symbol c (default SNAPSHOT_DIR output_dir) w0)
    as (_ & _ & Hframe).
  unfold document_made in Hframe. rewrite Hfetched, Hbook, Hsp in Hframe.
  destruct Hframe as [Hfs' Hreads'].
  split; [|split; congruence].
  exact (snapshot_body_spread_failure src symbol c _ w0 _ _ _ _ _ _ _ _ _ _
           H1 H2 H3 H4 H5 H6 H7 H8 H9 Hsp).
Qed.

Lemma zero_best_bid_aborts_witness :
  fst (create_market_snapshot zero_bid_source "ETHUSDT" None None sample_world)
  = Raise (ZeroDivisionError "float division by zero")
  /\ w_fs (snd (create_market_snapshot zero_bid_source "ETHUSDT" None None sample_world))
     = w_fs sample_world
  /\ w_reads (snd (create_market_snapshot zero_bid_source "ETHUSDT" None None
                                          sample_world))
     = w_reads sample_world.
Proof.
  exact (zero_best_bid_aborts zero_bid_source "ETHUSDT" None None sample_world
           zero_bid_book 0%float 1%float [] eq_refl eq_refl eq_refl eq_refl).
Defined.

(** ** The arguments of the command line *)

Lemma upper_ascii_idempotent c : upper_ascii (upper_ascii c) = upper_ascii c.
Proof. destruct c as [[] [] [] [] [] [] [] []]; reflexivity. Qed.

Lemma lower_ascii_idempotent c : lower_ascii (lower_ascii c) = lower_ascii c.
Proof. destruct c as [[] [] [] [] [] [] [] []]; reflexivity. Qed.

Lemma upper_idempotent s : Py.upper (Py.upper s) = Py.upper s.
Proof.
  induction s as [|c s IH]; [reflexivity|].
  cbn [Py.upper]. rewrite upper_ascii_idempotent, IH. reflexivity.
Qed.

Lemma lower_idempotent s : Py.lower (Py.lower s) = Py.lower s.
Proof.
  induction s as [|c s IH]; [reflexivity|].
  cbn [Py.lower]. rewrite lower_ascii_idempotent, IH. reflexivity.
Qed.

(** X17. [main] reads two arguments and neither by its case: the run is
    the same with the symbol in upper case and the mode in lower case,
    under any program name and with anything after the mode. *)
Theorem main_reads_two_arguments (src : MarketDataSource)
        (format : value -> string -> string) (LOG_LEVEL : string)
        (prog prog' arg1 arg2 : string) (rest rest' : list string) (w : world) :
  main src format LOG_LEVEL (prog :: arg1 :: arg2 :: rest) w
  = main src format LOG_LEVEL (prog' :: Py.upper arg1 :: Py.lower arg2 :: rest') w
  /\ main src format LOG_LEVEL [prog; arg1] w
     = main src format LOG_LEVEL [prog'; Py.upper arg1] w.
Proof.
  unfold main. rewrite upper_idempotent, lower_idempotent. split; reflexivity.
Qed.

(** ** A name that is taken *)

(** X18. When a directory has the name the file is to get, [save_snapshot]
    ends with [IsADirectoryError] on that path: by then the clock was read
    and the output directory and the ones above it were made; nothing else
    on the disk changes and no line is logged. *)
Theorem save_onto_directory (data : value) (symbol : string) (output_dir : Path)
        (w : world) :
  let name := snapshot_file_name symbol (w_clock w (w_reads w)) in
  let target := (parts output_dir ++ [name])%list in
  let run := save_snapshot data symbol output_dir w in
  slash_free symbol = true ->
  clear_path (w_fs w) (absolute output_dir) (parts output_dir) ->
  w_fs w !! (absolute output_dir, target) = Some Dir ->
  fst run = Raise (OSError "IsADirectoryError" (absolute output_dir) target)
  /\ (forall k, (1 <= k <= length (parts output_dir))%nat ->
                w_fs (snd run) !! (absolute output_dir, take k (parts output_dir))
                = Some Dir)
  /\ (forall key,
         (forall k, (1 <= k <= length (parts output_dir))%nat ->
                    key <> (absolute output_dir, take k (parts output_dir))) ->
         w_fs (snd run) !! key = w_fs w !! key)
  /\ w_reads (snd run) = S (w_reads w)
  /\ w_log (snd run) = w_log w.
Proof.
  intros name target run Hsym Hclear Htarget. subst run.
  destruct (mkdir_parents_clear (length (parts output_dir)) (absolute output_dir)
              (parts output_dir) (w_fs w) eq_refl Hclear) as (fs1 & Hmk & Hdirs & Hframe).
  destruct (snapshot_file_name_plain symbol (w_clock w (w_reads w)) Hsym)
    as [Hfree Hlen].
  fold name in Hfree, Hlen.
  rewrite save_snapshot_run. cbv zeta. unfold Path_mkdir. rewrite Hmk.
  fold name. rewrite (joinpath_name _ _ Hfree Hlen). fold target.
  assert (Hlt : length target = S (length (parts output_dir))).
  { unfold target. rewrite length_app. simpl. lia. }
  assert (Hnot_prefix : forall k, (k <= length (parts output_dir))%nat ->
                                  (absolute output_dir, target)
                                  <> (absolute output_dir, take k (parts output_dir))).
  { intros k Hk Heq. injection Heq as Heq. apply (f_equal length) in Heq.
    rewrite length_take in Heq. lia. }
  assert (Hwalk : walk fs1 (absolute output_dir) target (proper_prefixes target) = Ok tt).
  { apply walk_prefixes_Ok. intros k Hk. unfold target.
    rewrite take_snoc_le by lia. apply Hdirs. lia. }
  assert (Hnode : lookup_node fs1 (absolute output_dir) target = Some Dir).
  { destruct target as [|a rest] eqn:E; [simpl in Hlt; lia|].
    cbn [lookup_node]. rewrite Hframe; [exact Htarget|].
    intros k Hk. apply Hnot_prefix. lia. }
  unfold write_file. cbn [absolute parts]. rewrite Hwalk, Hnode.
  cbn [fst snd w_fs w_reads w_log].
  split; [reflexivity|]. split; [exact Hdirs|]. split; [exact Hframe|].
  split; reflexivity.
Qed.

Lemma save_onto_directory_witness :
  fst (save_snapshot sample_snapshot "ETHUSDT" SNAPSHOT_DIR blocked_world)
  = Raise (Exception "IsADirectoryError" "snapshots/ethusdt_20240102_030405.json").
Proof.
  assert (Hclear : clear_path (w_fs blocked_world) (absolute SNAPSHOT_DIR)
                              (parts SNAPSHOT_DIR)).
  { intros k c Hk. cbn [parts SNAPSHOT_DIR length] in Hk.
    assert (k = 1%nat) as -> by (vm_compute in Hk; lia).
    vm_compute. discriminate. }
  exact (proj1 (save_onto_directory sample_snapshot "ETHUSDT" SNAPSHOT_DIR blocked_world
                  eq_refl Hclear eq_refl)).
Defined.

(** ** The logging setup *)

Lemma mkdir_logs (fs : filesystem) :
  Path_mkdir (Path_parent LOG_FILE) fs
  = match fs !! (false, ["logs"]) with
    | None => Ok (<[(false, ["logs"]) := Dir]> fs)
    | Some Dir => Ok fs
    | Some (File _) => Raise (OSError "FileExistsError" false ["logs"])
    end.
Proof.
  change (Path_parent LOG_FILE) with (mkPath false ["logs"]).
  unfold Path_mkdir. cbn [parts absolute length mkdir_parents].
  unfold os_mkdir. cbn [proper_prefixes length Nat.sub seq map walk lookup_node].
  destruct (fs !! (false, ["logs"])) as [[|c]|] eqn:E.
  - cbn [is_FileNotFoundError OSError exn_class]. unfold is_dir. cbn [lookup_node].
    rewrite E. reflexivity.
  - cbn [is_FileNotFoundError OSError exn_class]. unfold is_dir. cbn [lookup_node].
    rewrite E. reflexivity.
  - reflexivity.
Qed.

Lemma open_log (fs : filesystem) :
  fs !! (false, ["logs"]) = Some Dir ->
  open_append LOG_FILE fs
  = match fs !! (false, ["logs"; "rest_api.log"]) with
    | Some Dir => Raise (OSError "IsADirectoryError" false ["logs"; "rest_api.log"])
    | Some (File _) => Ok fs
    | None => Ok (<[(false, ["logs"; "rest_api.log"]) := File (NotJson "")]> fs)
    end.
Proof.
  intros Hdir. change LOG_FILE with (mkPath false ["logs"; "rest_api.log"]).
  unfold open_append. cbn [parts absolute].
  change (proper_prefixes ["logs"; "rest_api.log"]) with [["logs"]].
  cbn [walk lookup_node]. rewrite Hdir. reflexivity.
Qed.

Lemma setup_logging_opened LOG_LEVEL w fs1 level :
  Path_mkdir (Path_parent LOG_FILE) (w_fs w) = Ok fs1 ->
  Logging.getattr (Py.upper LOG_LEVEL) = Ok level ->
  setup_logging LOG_LEVEL w
  = match open_append LOG_FILE fs1 with
    | Ok fs2 => (match Logging.setLevel level with Ok _ => Ok tt | Raise e => Raise e end,
                 set_fs fs2 w)
    | Raise e => (Raise e, set_fs fs1 w)
    end.
Proof.
  intros Hmk Hlevel. unfold setup_logging.
  rewrite bind_run. unfold on_fs at 1. rewrite Hmk.
  rewrite bind_run. unfold lift at 1. rewrite Hlevel.
  rewrite bind_run. unfold on_fs at 1. cbn [set_fs w_fs].
  destruct (open_append LOG_FILE fs1) as [fs2|e]; [|reflexivity].
  rewrite bind_run. unfold lift at 1.
  destruct (Logging.setLevel level) as [[]|e]; reflexivity.
Qed.

(** X19. With a level name the [logging] module knows, no regular file
    named [logs] and no directory named [logs/rest_api.log],
    [setup_logging] ends well: [logs] is a directory, the log file is
    there, empty if it was not there before and with its text if it was,
    and nothing else changes, on the disk or off it. *)
Theorem setup_logging_succeeds (LOG_LEVEL : string) (w : world) (n : Z) :
  let dir := (absolute LOG_FILE, parts (Path_parent LOG_FILE)) in
  let file := (absolute LOG_FILE, parts LOG_FILE) in
  Logging.getattr (Py.upper LOG_LEVEL) = Ok (Logging.Level n) ->
  (forall c, w_fs w !! dir <> Some (File c)) ->
  w_fs w !! file <> Some Dir ->
  exists fs',
    setup_logging LOG_LEVEL w = (Ok tt, set_fs fs' w)
    /\ fs' !! dir = Some Dir
    /\ fs' !! file = Some (File (match w_fs w !! file with
                                 | Some (File c) => c
                                 | _ => NotJson ""
                                 end))
    /\ forall key, key <> dir -> key <> file -> fs' !! key = w_fs w !! key.
Proof.
  intros dir file Hlevel Hdir Hfile.
  change dir with (false, ["logs"]) in *.
  change file with (false, ["logs"; "rest_api.log"]) in *.
  assert (Hmk : exists fs1,
             Path_mkdir (Path_parent LOG_FILE) (w_fs w) = Ok fs1
             /\ fs1 !! (false, ["logs"]) = Some Dir
             /\ forall key, key <> (false, ["logs"]) -> fs1 !! key = w_fs w !! key).
  { rewrite mkdir_logs. destruct (w_fs w !! (false, ["logs"])) as [[|c]|] eqn:E.
    - exists (w_fs w). repeat split. exact E.
    - destruct (Hdir c eq_refl).
    - eexists. split; [reflexivity|]. split; [apply lookup_insert_eq|].
      intros key Hkey. apply lookup_insert_ne. congruence. }
  destruct Hmk as (fs1 & Hmk & Hlogs & Hframe).
  rewrite (setup_logging_opened _ _ _ _ Hmk Hlevel), (open_log _ Hlogs).
  rewrite (Hframe (false, ["logs"; "rest_api.log"])) by discriminate.
  destruct (w_fs w !! (false, ["logs"; "rest_api.log"])) as [[|c]|] eqn:E.
  - destruct (Hfile eq_refl).
  - exists fs1. cbn [Logging.setLevel]. split; [reflexivity|]. split; [exact Hlogs|].
    split; [rewrite Hframe by discriminate; exact E|].
    intros key Hk _. apply Hframe, Hk.
  - eexists. cbn [Logging.setLevel]. split; [reflexivity|].
    split; [rewrite lookup_insert_ne by discriminate; exact Hlogs|].
    split; [apply lookup_insert_eq|].
    intros key Hk Hk'. rewrite lookup_insert_ne by congruence. apply Hframe, Hk.
Qed.

Lemma setup_logging_succeeds_witness :
  exists fs',
    setup_logging "info" sample_world = (Ok tt, set_fs fs' sample_world)
    /\ fs' !! (false, ["logs"]) = Some Dir
    /\ fs' !! (false, ["logs"; "rest_api.log"]) = Some (File (NotJson "")).
Proof.
  assert (Hdir : forall c, w_fs sample_world
                             !! (absolute LOG_FILE, parts (Path_parent LOG_FILE))
                           <> Some (File c)).
  { intros c. vm_compute. discriminate. }
  assert (Hfile : w_fs sample_world !! (absolute LOG_FILE, parts LOG_FILE) <> Some Dir).
  { vm_compute. discriminate. }
  destruct (setup_logging_succeeds "info" sample_world 20 eq_refl Hdir Hfile)
    as (fs' & Hrun & Hlogs & Hlog & _).
  exists fs'. split; [exact Hrun|]. split; [exact Hlogs | exact Hlog].
Defined.

(** X20. How [setup_logging] fails before the log file is opened. With a
    regular file named [logs] it ends with [FileExistsError] and nothing
    is changed. Otherwise, with a level name the [logging] module does not
    have, it ends with [AttributeError]: the directory is made by then and
    the log file is not touched. *)
Theorem setup_logging_failures (LOG_LEVEL : string) (w : world) :
  match w_fs w !! (false, ["logs"]) with
  | Some (File _) =>
      setup_logging LOG_LEVEL w = (Raise (OSError "FileExistsError" false ["logs"]), w)
  | _ =>
      match dict_get (Py.upper LOG_LEVEL) Logging.attributes with
      | Some _ => True
      | None =>
          fst (setup_logging LOG_LEVEL w)
          = Raise (Exception "AttributeError"
                             ("module 'logging' has no attribute '"
                              ++ Py.upper LOG_LEVEL ++ "'"))
          /\ w_fs (snd (setup_logging LOG_LEVEL w)) !! (false, ["logs"]) = Some Dir
          /\ w_fs (snd (setup_logging LOG_LEVEL w)) !! (false, ["logs"; "rest_api.log"])
             = w_fs w !! (false, ["logs"; "rest_api.log"])
      end
  end.
Proof.
  assert (Hstep : forall fs1,
             Path_mkdir (Path_parent LOG_FILE) (w_fs w) = Ok fs1 ->
             dict_get (Py.upper LOG_LEVEL) Logging.attributes = None ->
             setup_logging LOG_LEVEL w
             = (Raise (Exception "AttributeError"
                                 ("module 'logging' has no attribute '"
                                  ++ Py.upper LOG_LEVEL ++ "'")),
                set_fs fs1 w)).
  { intros fs1 Hmk Hnone. unfold setup_logging.
    rewrite bind_run. unfold on_fs at 1. rewrite Hmk.
    rewrite bind_run. unfold lift at 1, Logging.getattr. rewrite Hnone. reflexivity. }
  rewrite mkdir_logs in Hstep.
  destruct (w_fs w !! (false, ["logs"])) as [[|c]|] eqn:E.
  - destruct (dict_get (Py.upper LOG_LEVEL) Logging.attributes); [exact I|].
    rewrite (Hstep _ eq_refl eq_refl). cbn [fst snd set_fs w_fs]. repeat split. exact E.
  - unfold setup_logging. rewrite bind_run. unfold on_fs at 1.
    rewrite mkdir_logs, E. reflexivity.
  - destruct (dict_get (Py.upper LOG_LEVEL) Logging.attributes); [exact I|].
    rewrite (Hstep _ eq_refl eq_refl). cbn [fst snd set_fs w_fs]. split; [reflexivity|].
    split; [apply lookup_insert_eq | apply lookup_insert_ne; discriminate].
Qed.
